(** * dev.to statistics fetcher: incremental fetch, merge, aggregate, rank

    A shallow embedding of [fetch_stats.py] (class [DevToStatsFetcher]) and
    the properties its design document states about it.

    Layout: the Python built-ins the script relies on ([sorted], [max],
    insertion-ordered [dict], [str] methods), the calendar arithmetic of
    [datetime], the script's data, its methods in source order, what the
    chart generators select from the documents it writes, and then the
    properties. *)

From Stdlib Require Import ZArith String Ascii List Bool Lia DecimalString.
From stdpp Require Import gmap strings list sorting.

Local Open Scope Z_scope.

(** ** Python built-ins *)

Module Py.

(** *** Ordering of [str]

    Python compares strings code point by code point; on ASCII text this is
    [String.compare] of the standard library. *)

Definition str_le (a b : string) : bool := String.leb a b.
Definition str_lt (a b : string) : bool := String.ltb a b.

(** A Boolean total order, the shape every sort key of the script has. *)
Class KeyOrder {K : Type} (le : K -> K -> bool) : Prop := {
  key_total : forall a b, le a b = true \/ le b a = true;
  key_trans : forall a b c, le a b = true -> le b c = true -> le a c = true;
  key_antisym : forall a b, le a b = true -> le b a = true -> a = b
}.

(** *** [sorted(iterable, key=...)]

    Python's sort is stable.  A stable sort is determined by its
    input/output behaviour, so it is modelled by stable insertion: an
    element coming from the left is placed before the first element whose key
    is not smaller. *)
Section Sorted.
Context {A K : Type} (le : K -> K -> bool) (key : A -> K).

Fixpoint insert_stable (x : A) (l : list A) : list A :=
    match l with
    | [] => [x]
    | y :: l' => if le (key x) (key y) then x :: l else y :: insert_stable x l'
    end.

Definition sorted (l : list A) : list A := foldr insert_stable [] l.

  (** The order a sort by [key] establishes, and its strict part. *)
Definition key_le (a b : A) : Prop := le (key a) (key b) = true.
Definition key_lt (a b : A) : Prop := le (key a) (key b) = true /\ key a <> key b.

  (** [max(iterable, key=...)]: the first maximal element; [None] stands for
      the [ValueError] raised on an empty sequence. *)
Fixpoint max_from (best : A) (l : list A) : A :=
    match l with
    | [] => best
    | x :: l' => max_from (if le (key x) (key best) then best else x) l'
    end.

Definition max (l : list A) : option A :=
    match l with
    | [] => None
    | x :: l' => Some (max_from x l')
    end.
End Sorted.

(** *** Insertion-ordered [dict] with string keys

    [d[k] = v] replaces the value in place when [k] is present and appends
    the pair otherwise; [d.values()] lists the values in insertion order. *)
Section Dict.
Context {V : Type}.

Fixpoint setitem (k : string) (v : V) (d : list (string * V)) : list (string * V) :=
    match d with
    | [] => [(k, v)]
    | (k', v') :: d' =>
        if String.eqb k' k then (k', v) :: d' else (k', v') :: setitem k v d'
    end.

Fixpoint get (k : string) (d : list (string * V)) : option V :=
    match d with
    | [] => None
    | (k', v') :: d' => if String.eqb k' k then Some v' else get k d'
    end.

Definition values (d : list (string * V)) : list V := snd <$> d.
Definition keys (d : list (string * V)) : list string := fst <$> d.
End Dict.

(** *** [str] methods on ASCII text *)

Definition isspace (c : ascii) : bool :=
  let n := N_of_ascii c in
  ((9 <=? n) && (n <=? 13) || (28 <=? n) && (n <=? 32))%N.

Fixpoint lstrip_by (p : ascii -> bool) (s : string) : string :=
  match s with
  | String c s' => if p c then lstrip_by p s' else s
  | EmptyString => EmptyString
  end.

Fixpoint rstrip_by (p : ascii -> bool) (s : string) : string :=
  match s with
  | String c s' =>
      match rstrip_by p s' with
      | EmptyString => if p c then EmptyString else String c EmptyString
      | r => String c r
      end
  | EmptyString => EmptyString
  end.

(** [s.strip()] and [s.strip(chars)]. *)
Definition strip_by (p : ascii -> bool) (s : string) : string :=
  rstrip_by p (lstrip_by p s).
Definition strip (s : string) : string := strip_by isspace s.

(** [s.startswith(prefix)]. *)
Definition startswith (s pre : string) : bool := String.prefix pre s.

(** [s.split(sep, 1)] for a one-character separator: the text before the
    first separator and, when there is one, the text after it. *)
Fixpoint split1 (sep : ascii) (s : string) : string * option string :=
  match s with
  | EmptyString => (EmptyString, None)
  | String c s' =>
      if Ascii.eqb c sep then (EmptyString, Some s')
      else let '(h, t) := split1 sep s' in (String c h, t)
  end.

(** [s.replace(old, new)] for one-character [old] and [new]. *)
Fixpoint replace_char (old new : ascii) (s : string) : string :=
  match s with
  | EmptyString => EmptyString
  | String c s' => String (if Ascii.eqb c old then new else c) (replace_char old new s')
  end.

Definition is_upper (c : ascii) : bool :=
  let n := N_of_ascii c in ((65 <=? n) && (n <=? 90))%N.
Definition is_lower (c : ascii) : bool :=
  let n := N_of_ascii c in ((97 <=? n) && (n <=? 122))%N.
Definition to_upper (c : ascii) : ascii :=
  if is_lower c then ascii_of_N (N_of_ascii c - 32) else c.
Definition to_lower (c : ascii) : ascii :=
  if is_upper c then ascii_of_N (N_of_ascii c + 32) else c.

(** [s.title()]: a cased character is upper-cased when it follows an uncased
    one (or starts the string) and lower-cased otherwise. *)
Fixpoint title_from (prev_cased : bool) (s : string) : string :=
  match s with
  | EmptyString => EmptyString
  | String c s' =>
      if is_upper c || is_lower c
      then String (if prev_cased then to_lower c else to_upper c) (title_from true s')
      else String c (title_from false s')
  end.
Definition title (s : string) : string := title_from false s.

End Py.

(** ** Calendar dates ([datetime])

    The script uses [datetime] for exactly three things: parsing a
    [%Y-%m-%d] string, moving one day forwards or backwards with
    [timedelta(days=1)], and printing the result back as [%Y-%m-%d]. *)

Module Calendar.

Record date := mkdate { year : Z; month : Z; day : Z }.

Definition is_leap (y : Z) : bool :=
  (y mod 4 =? 0) && (negb (y mod 100 =? 0) || (y mod 400 =? 0)).

Definition days_in_month (y m : Z) : Z :=
  if m =? 2 then (if is_leap y then 29 else 28)
  else if (m =? 4) || (m =? 6) || (m =? 9) || (m =? 11) then 30
  else 31.

(** The dates [datetime] can represent: 0001-01-01 to 9999-12-31. *)
Definition valid (d : date) : bool :=
  (1 <=? year d) && (year d <=? 9999) &&
  (1 <=? month d) && (month d <=? 12) &&
  (1 <=? day d) && (day d <=? days_in_month (year d) (month d)).

(** Chronological order. *)
Definition compare (a b : date) : comparison :=
  match year a ?= year b with
  | Eq => match month a ?= month b with
          | Eq => day a ?= day b
          | c => c
          end
  | c => c
  end.

(** [d + timedelta(days=1)]; [None] is the [OverflowError] past 9999-12-31. *)
Definition add_one_day (d : date) : option date :=
  if day d <? days_in_month (year d) (month d)
  then Some (mkdate (year d) (month d) (day d + 1))
  else if month d <? 12 then Some (mkdate (year d) (month d + 1) 1)
  else if year d <? 9999 then Some (mkdate (year d + 1) 1 1)
  else None.

(** [d - timedelta(days=1)]; [None] is the [OverflowError] before 0001-01-01. *)
Definition sub_one_day (d : date) : option date :=
  if 1 <? day d then Some (mkdate (year d) (month d) (day d - 1))
  else if 1 <? month d
       then Some (mkdate (year d) (month d - 1) (days_in_month (year d) (month d - 1)))
  else if 1 <? year d then Some (mkdate (year d - 1) 12 31)
  else None.

Definition digit (n : Z) : ascii := ascii_of_N (48 + Z.to_N n).

Definition digit_value (c : ascii) : option Z :=
  let n := N_of_ascii c in
  if ((48 <=? n) && (n <=? 57))%N then Some (Z.of_N n - 48) else None.

Definition is_dash (c : ascii) : bool := Ascii.eqb c "-".

(** The form of the data model, [YYYY-MM-DD]: four, two and two digits,
    zero padded. *)
Definition isoformat (d : date) : string :=
  let y := year d in
  let m := month d in
  let n := day d in
  String (digit (y / 1000)) (String (digit (y / 100 mod 10))
  (String (digit (y / 10 mod 10)) (String (digit (y mod 10))
  (String "-" (String (digit (m / 10)) (String (digit (m mod 10))
  (String "-" (String (digit (n / 10)) (String (digit (n mod 10))
  EmptyString))))))))).

(** [%Y] as the C library of the runner prints it: the year as a decimal
    number, without padding, so that a year below 1000 has fewer than four
    digits. *)
Definition year_text (y : Z) (rest : string) : string :=
  if y <? 10 then String (digit y) rest
  else if y <? 100 then String (digit (y / 10)) (String (digit (y mod 10)) rest)
  else if y <? 1000
       then String (digit (y / 100)) (String (digit (y / 10 mod 10))
            (String (digit (y mod 10)) rest))
  else String (digit (y / 1000)) (String (digit (y / 100 mod 10))
       (String (digit (y / 10 mod 10)) (String (digit (y mod 10)) rest))).

(** [strftime("%Y-%m-%d")]: the year as [%Y] prints it, then month and day
    with two digits each. *)
Definition strftime (d : date) : string :=
  let m := month d in
  let n := day d in
  year_text (year d)
    (String "-" (String (digit (m / 10)) (String (digit (m mod 10))
    (String "-" (String (digit (n / 10)) (String (digit (n mod 10))
    EmptyString)))))).

(** [%Y]: exactly four digits. *)
Definition parse_year (s : string) : option (Z * string) :=
  match s with
  | String a (String b (String c (String d rest))) =>
      match digit_value a, digit_value b, digit_value c, digit_value d with
      | Some a, Some b, Some c, Some d => Some (1000 * a + 100 * b + 10 * c + d, rest)
      | _, _, _, _ => None
      end
  | _ => None
  end.

(** [%m] followed by the dash of the format: [1[0-2]|0[1-9]|[1-9]]. *)
Definition parse_month (s : string) : option (Z * string) :=
  match s with
  | String a (String b rest) =>
      if is_dash b then
        match digit_value a with
        | Some x => if 1 <=? x then Some (x, rest) else None
        | None => None
        end
      else
        match digit_value a, digit_value b, rest with
        | Some x, Some y, String c rest' =>
            if is_dash c && (1 <=? 10 * x + y) && (10 * x + y <=? 12)
            then Some (10 * x + y, rest') else None
        | _, _, _ => None
        end
  | _ => None
  end.

(** [%d] at the end of the text: [3[0-1]|[1-2]\d|0[1-9]|[1-9]| [1-9]], with
    nothing left unconverted. *)
Definition parse_day (s : string) : option Z :=
  match s with
  | String a EmptyString =>
      match digit_value a with
      | Some x => if 1 <=? x then Some x else None
      | None => None
      end
  | String a (String b EmptyString) =>
      match digit_value b with
      | Some y =>
          if Ascii.eqb a " " then (if 1 <=? y then Some y else None)
          else match digit_value a with
               | Some x => if (1 <=? 10 * x + y) && (10 * x + y <=? 31)
                           then Some (10 * x + y) else None
               | None => None
               end
      | None => None
      end
  | _ => None
  end.

(** [datetime.strptime(s, "%Y-%m-%d")]; [None] is the [ValueError] for text
    that does not match or names no calendar day. *)
Definition strptime (s : string) : option date :=
  match parse_year s with
  | Some (y, String c s1) =>
      if is_dash c then
        match parse_month s1 with
        | Some (m, s2) =>
            match parse_day s2 with
            | Some n => let d := mkdate y m n in if valid d then Some d else None
            | None => None
            end
        | None => None
        end
      else None
  | _ => None
  end.

(** The text is a date in the form of the data model. *)
Definition is_iso (s : string) : bool :=
  match strptime s with
  | Some d => String.eqb (isoformat d) s
  | None => false
  end.

End Calendar.

(** ** Data *)

(** One element of a [breakdown] list:
    [{"date": ..., "views": ..., "comments": ..., "reactions": ...}], with the
    four keys it has whenever the script has written it and with values of
    the types the script writes.  (The script reads the four with
    [item[key]]; an element with a key missing, which only another writer
    can have made, is beyond this model.) *)
Module Daily.
Record t := mk { date : string; views : Z; comments : Z; reactions : Z }.

(** [{"date": date, "views": 0, "comments": 0, "reactions": 0}]. *)
Definition zero (date : string) : t := mk date 0 0 0.

(** The three [+=] of the aggregation: the counts of [item] added to [e]. *)
Definition add (e item : t) : t :=
  mk (date e) (views e + views item) (comments e + comments item)
     (reactions e + reactions item).
End Daily.

(** One value of the historical-analytics response.  Every level is read
    with [.get(key, default)], so every level may be missing. *)
Module Raw.
Record counter := mkcounter { total : option Z }.
Record t := mk {
  page_views : option counter;
  comments : option counter;
  reactions : option counter
}.
End Raw.

(** One element of the published-articles listing, reduced to what the
    script reads: [organization] is [article["organization"]["slug"]] and
    [user] is [article["user"]["username"]]. *)
Module Article.
Record t := mk {
  id : Z;
  slug : string;
  published_at : string;
  title : string;
  organization : option string;
  user : option string
}.
End Article.

(** A parsed [data/articles/<id>-<slug>.json].  Readers use
    [.get(key, default)], so a field may be missing. *)
Module ArticleData.
Record t := mk {
  title : option string;
  views : option Z;
  comments : option Z;
  reactions : option Z;
  org_username : option string;
  breakdown : option (list Daily.t)
}.
Definition with_breakdown (b : list Daily.t) (d : t) : t :=
  mk (title d) (views d) (comments d) (reactions d) (org_username d) (Some b).
End ArticleData.

(** [data/account.json]. *)
Module Account.
Record t := mk {
  articles : nat;
  views : Z;
  comments : Z;
  reactions : Z;
  username : option string;
  breakdown : list Daily.t
}.
End Account.

(** [data/top_articles.json]: an entry carries the metric of its ranking. *)
Module Ranked.
Record t := mk {
  slug : string;
  title : string;
  metric : Z;
  org_username : option string
}.
End Ranked.

Module TopArticles.
Record t := mk { by_reaction : list Ranked.t; by_views : list Ranked.t }.
End TopArticles.

(** The intermediate [article_stats] entries of [create_top_articles]. *)
Module Stat.
Record t := mk {
  slug : string;
  title : string;
  views : Z;
  reactions : Z;
  org_username : option string
}.
End Stat.

Global Instance counter_eq_dec : EqDecision Raw.counter.
Proof. solve_decision. Defined.
Global Instance raw_eq_dec : EqDecision Raw.t.
Proof. solve_decision. Defined.
Global Instance daily_eq_dec : EqDecision Daily.t.
Proof. solve_decision. Defined.

(** What a file of [data/articles] holds: nothing (size 0); bytes that are
    not text in the encoding [open] reads with, on which reading raises
    [UnicodeDecodeError]; text on which [json.load] raises
    [JSONDecodeError]; a JSON value that is not an object (a list, a number,
    [null], ...), which has no [.get]; or a document.  Documents are objects
    whose fields, when present, have the types the script writes them
    with. *)
Inductive file :=
| Empty
| Undecodable
| Malformed
| NotObject
| Json (data : ArticleData.t).

(** ** Effects

    The script reads and writes files, talks to the API, raises and exits.
    The state is the part of the world it changes; exceptions are an
    outcome. *)

Inductive exn :=
| RequestException
| JSONDecodeError
| UnicodeDecodeError
| AttributeError
| KeyError
| ValueError
| OverflowError
| SystemExit (code : Z).

(** [except Exception] catches everything but [SystemExit]. *)
Definition is_Exception (e : exn) : bool :=
  match e with
  | SystemExit _ => false
  | _ => true
  end.

Record world := mkworld {
  (** [data/articles/*.json] by stem, in the order [glob] enumerates them *)
  articles_dir : list (string * file);
  account_json : option Account.t;
  top_articles_json : option TopArticles.t;
  (** [self.username] *)
  username : option string;
  (** the analytics requests sent so far, oldest first *)
  requests : list (Z * string * string)
}.

(** [Unfinished]: the paging loop has not ended within the steps allowed. *)
Inductive outcome (A : Type) :=
| Val (a : A)
| Raise (e : exn)
| Unfinished.
Arguments Val {A} a.
Arguments Raise {A} e.
Arguments Unfinished {A}.

Definition M (A : Type) : Type := world -> outcome A * world.

Definition ret {A} (a : A) : M A := fun w => (Val a, w).
Definition raise {A} (e : exn) : M A := fun w => (Raise e, w).
Definition bind {A B} (m : M A) (k : A -> M B) : M B :=
  fun w =>
    match m w with
    | (Val a, w') => k a w'
    | (Raise e, w') => (Raise e, w')
    | (Unfinished, w') => (Unfinished, w')
    end.

Notation "x <- m ;; k" := (bind m (fun x => k))
  (at level 100, m at next level, right associativity).
Notation "m ;; k" := (bind m (fun _ => k))
  (at level 100, right associativity).

(** [try: m  except ...: h e]; [h] answers [None] for an exception no
    clause matches. *)
Definition try_except {A} (m : M A) (h : exn -> option (M A)) : M A :=
  fun w =>
    match m w with
    | (Raise e, w') =>
        match h e with
        | Some k => k w'
        | None => (Raise e, w')
        end
    | r => r
    end.

(** [for x in l: body x]. *)
Fixpoint for_each {A} (body : A -> M unit) (l : list A) : M unit :=
  match l with
  | [] => ret tt
  | x :: l' => body x ;; for_each body l'
  end.

(** [sys.exit(code)]. *)
Definition sys_exit {A} (code : Z) : M A := raise (SystemExit code).

(** A library call that raises [e] when it has no result. *)
Definition or_raise {A} (e : exn) (o : option A) : M A :=
  match o with
  | Some a => ret a
  | None => raise e
  end.

Definition get_world : M world := fun w => (Val w, w).

(** ** The API *)

Inductive http (A : Type) :=
| ConnectionError          (* [requests.get] raises *)
| HTTPError                (* [raise_for_status] raises *)
| InvalidJSON              (* [response.json] raises *)
| Body (a : A).
Arguments ConnectionError {A}.
Arguments HTTPError {A}.
Arguments InvalidJSON {A}.
Arguments Body {A} a.

(** A page of the listing is a JSON array of articles, or an object with an
    ["error"] key. *)
Inductive published_body :=
| ErrorObject
| Articles (l : list Article.t).

(** The server, as seen through the two endpoints; the first argument is the
    [api-key] header. *)
Record network := mknetwork {
  published : string -> Z -> http published_body;
  historical : string -> Z -> string -> string -> http (gmap string Raw.t)
}.

(** [requests.get(...)], [raise_for_status()], [json()]: all three raise
    subclasses of [RequestException].  (The error of [json()] is
    [requests.exceptions.JSONDecodeError], since version 2.27 of [requests]
    a [RequestException] as well as a [json.JSONDecodeError]; every handler
    of the script that could catch it names [RequestException] first.) *)
Definition http_json {A} (r : http A) : M A :=
  match r with
  | ConnectionError => raise RequestException
  | HTTPError => raise RequestException
  | InvalidJSON => raise RequestException
  | Body a => ret a
  end.

(** ** [DevToStatsFetcher] *)

(** The fields [__init__] sets and nothing changes afterwards. *)
Record fetcher := mkfetcher {
  api_key : string;
  today : string;
  from_second_last_day : bool
}.

(** [_load_api_key]: the last [API_KEY=] or [DEVTO_API_KEY=] line of [.env]
    wins; [dotenv] is [None] when the file does not exist. *)
Definition is_quote (c : ascii) : bool :=
  Ascii.eqb c (ascii_of_N 34) || Ascii.eqb c (ascii_of_N 39).

Definition key_of_line (line : string) : string :=
  match snd (Py.split1 "=" line) with
  | Some v => Py.strip_by is_quote v
  | None => EmptyString
  end.

Definition _load_api_key (dotenv : option (list string)) : M string :=
  match dotenv with
  | None => sys_exit 1
  | Some lines =>
      let api_key :=
        foldl (fun api_key line =>
                 let line := Py.strip line in
                 if Py.startswith line "API_KEY=" then Some (key_of_line line)
                 else if Py.startswith line "DEVTO_API_KEY=" then Some (key_of_line line)
                 else api_key)
              None lines in
      match api_key with
      | None => sys_exit 1
      | Some EmptyString => sys_exit 1
      | Some k => ret k
      end
  end.

(** [fetch_article_analytics]: one request; a transport error, an error
    status and a body that is not JSON all give the empty mapping. *)
Definition with_request (r : Z * string * string) (w : world) : world :=
  mkworld (articles_dir w) (account_json w) (top_articles_json w)
          (username w) (requests w ++ [r]).

Definition log_request (r : Z * string * string) : M unit :=
  fun w => (Val tt, with_request r w).

Definition fetch_article_analytics (self : fetcher) (net : network)
    (article_id : Z) (start_date end_date : string) : M (gmap string Raw.t) :=
  log_request (article_id, start_date, end_date) ;;
  try_except
    (http_json (historical net (api_key self) article_id start_date end_date))
    (fun e => match e with
              | RequestException => Some (ret ∅)
              | JSONDecodeError => Some (ret ∅)
              | _ => None
              end).

(** [fetch_published_articles]: pages 1, 2, ... until an empty page.  The
    loop has no bound of its own; [fuel] is the number of pages the model
    is willing to request. *)
Definition set_username (u : option string) : M unit :=
  fun w => (Val tt, mkworld (articles_dir w) (account_json w) (top_articles_json w)
                            u (requests w)).

Definition username_unset (u : option string) : bool :=
  match u with
  | None => true
  | Some EmptyString => true
  | Some _ => false
  end.

Fixpoint published_pages (self : fetcher) (net : network) (fuel : nat)
    (page : Z) (all_articles : list Article.t) : M (list Article.t) :=
  match fuel with
  | O => fun w => (Unfinished, w)
  | S fuel' =>
      r <- try_except
             (articles <- http_json (published net (api_key self) page) ;;
              match articles with
              | ErrorObject => sys_exit 1
              | Articles [] => ret None
              | Articles (first_article :: rest) =>
                  w <- get_world ;;
                  (if username_unset (username w)
                   then match Article.user first_article with
                        | Some u => set_username (Some u)
                        | None => ret tt
                        end
                   else ret tt) ;;
                  ret (Some (all_articles ++ first_article :: rest))
              end)
             (fun e => match e with
                       | RequestException => Some (sys_exit 1)
                       | _ => None
                       end) ;;
      match r with
      | None => ret all_articles
      | Some all_articles' => published_pages self net fuel' (page + 1) all_articles'
      end
  end.

Definition fetch_published_articles (self : fetcher) (net : network) (fuel : nat)
    : M (list Article.t) :=
  published_pages self net fuel 1 [].

(** [data.get(name, {}).get("total", 0)]. *)
Definition total_or_zero (c : option Raw.counter) : Z :=
  match c with
  | Some c => default 0 (Raw.total c)
  | None => 0
  end.

(** [process_analytics_data]: [daily_entry] is the body of its loop. *)
Definition daily_entry (date : string) (data : Raw.t) : Daily.t :=
  Daily.mk date
           (total_or_zero (Raw.page_views data))
           (total_or_zero (Raw.comments data))
           (total_or_zero (Raw.reactions data)).

Definition process_analytics_data (analytics : gmap string Raw.t) : list Daily.t :=
  let breakdown := (fun p => daily_entry (fst p) (snd p)) <$> map_to_list analytics in
  Py.sorted Py.str_le Daily.date breakdown.

(** [get_next_date]. *)
Definition get_next_date (date_str : string) : M string :=
  date_obj <- or_raise ValueError (Calendar.strptime date_str) ;;
  next_date <- or_raise OverflowError (Calendar.add_one_day date_obj) ;;
  ret (Calendar.strftime next_date).

(** *** [process_article] *)

(** [f"{article_id}-{slug}"], the stem of the article's file. *)
Definition article_stem (article_id : Z) (slug : string) : string :=
  String.append (NilZero.string_of_int (Z.to_int article_id))
                (String "-" slug).

(** [{"breakdown": []}]. *)
Definition no_history : ArticleData.t :=
  ArticleData.mk None None None None None (Some []).

(** [existing_data.get("breakdown", [])]. *)
Definition breakdown_of (data : ArticleData.t) : list Daily.t :=
  default [] (ArticleData.breakdown data).

(** [json.load] of a file that exists and is not empty, up to the first
    [.get] on its result: the three readers of the script all go on with a
    [.get], which a value that is not an object does not have. *)
Definition json_load (f : file) : M ArticleData.t :=
  match f with
  | Json data => ret data
  | NotObject => raise AttributeError
  | Malformed => raise JSONDecodeError
  | Undecodable => raise UnicodeDecodeError
  | Empty => raise JSONDecodeError
  end.

(** Lines 158-182: the request for an article whose file was read, and the
    history to merge into. *)
Definition continue_from_last (self : fetcher) (net : network) (article_id : Z)
    (published_at : string) (existing_data : ArticleData.t)
    : M (gmap string Raw.t * ArticleData.t) :=
  let breakdown := breakdown_of existing_data in
  match Py.max Py.str_le Daily.date breakdown with
  | Some last =>
      let last_date := Daily.date last in
      p <- (if from_second_last_day self then
              last_date_obj <- or_raise ValueError (Calendar.strptime last_date) ;;
              second_last <- or_raise OverflowError (Calendar.sub_one_day last_date_obj) ;;
              ret (Calendar.strftime second_last,
                   ArticleData.with_breakdown
                     (filter (fun item => Daily.date item <> last_date) breakdown)
                     existing_data)
            else
              next_date <- get_next_date last_date ;;
              ret (next_date, existing_data)) ;;
      let '(next_date, existing_data) := p in
      if Py.str_le next_date (today self) then
        analytics <- fetch_article_analytics self net article_id next_date (today self) ;;
        ret (analytics, existing_data)
      else ret (∅, existing_data)
  | None =>
      analytics <- fetch_article_analytics self net article_id published_at (today self) ;;
      ret (analytics, existing_data)
  end.

(** Lines 194-198: an empty (falsy) mapping gives no entries. *)
Definition new_breakdown_of (analytics : gmap string Raw.t) : list Daily.t :=
  if decide (analytics = ∅) then [] else process_analytics_data analytics.

(** Lines 200-208: concatenate, keep the last entry of every date, sort. *)
Definition unique_by_date (all_breakdown : list Daily.t) : list (string * Daily.t) :=
  foldl (fun unique_breakdown item => Py.setitem (Daily.date item) item unique_breakdown)
        [] all_breakdown.

Definition merge_breakdown (existing new_breakdown : list Daily.t) : list Daily.t :=
  let all_breakdown := existing ++ new_breakdown in
  Py.sorted Py.str_le Daily.date (Py.values (unique_by_date all_breakdown)).

(** [sum(item[field] for item in breakdown)]. *)
Definition sum_of (field : Daily.t -> Z) (breakdown : list Daily.t) : Z :=
  foldl (fun acc item => acc + field item) 0 breakdown.

Definition stat_file (stem : string) : M (option file) :=
  fun w => (Val (Py.get stem (articles_dir w)), w).

Definition with_article (stem : string) (data : ArticleData.t) (w : world) : world :=
  mkworld (Py.setitem stem (Json data) (articles_dir w))
          (account_json w) (top_articles_json w) (username w) (requests w).

Definition write_article (stem : string) (data : ArticleData.t) : M unit :=
  fun w => (Val tt, with_article stem data w).

(** Lines 210-223: the document written for a final breakdown. *)
Definition article_data_of (article : Article.t) (final_breakdown : list Daily.t)
    : ArticleData.t :=
  let total_views := sum_of Daily.views final_breakdown in
  let total_comments := sum_of Daily.comments final_breakdown in
  let total_reactions := sum_of Daily.reactions final_breakdown in
  ArticleData.mk (Some (Article.title article)) (Some total_views)
                 (Some total_comments) (Some total_reactions)
                 (match Article.organization article with
                  | Some org => Some org
                  | None => Article.user article
                  end)
                 (Some final_breakdown).

(** [published_at = article["published_at"].split("T")[0]]. *)
Definition published_date (article : Article.t) : string :=
  fst (Py.split1 "T" (Article.published_at article)).

Definition process_article (self : fetcher) (net : network) (article : Article.t)
    : M unit :=
  let article_id := Article.id article in
  let slug := Article.slug article in
  let published_at := published_date article in
  let file_path := article_stem article_id slug in
  f <- stat_file file_path ;;
  p <- match f with
       | Some Empty | None =>
           analytics <- fetch_article_analytics self net article_id published_at (today self) ;;
           ret (analytics, no_history)
       | Some content =>
           try_except
             (existing_data <- json_load content ;;
              continue_from_last self net article_id published_at existing_data)
             (fun e => match e with
                       | JSONDecodeError | KeyError =>
                           Some (analytics <- fetch_article_analytics
                                                self net article_id published_at (today self) ;;
                                 ret (analytics, no_history))
                       | _ => None
                       end)
       end ;;
  let '(analytics, existing_data) := p in
  let new_breakdown := new_breakdown_of analytics in
  let final_breakdown := merge_breakdown (breakdown_of existing_data) new_breakdown in
  let article_data := article_data_of article final_breakdown in
  write_article file_path article_data.

(** *** [update_account_stats] *)

(** The running totals and the concatenated breakdowns of the scan. *)
Record scan := mkscan {
  total_views : Z;
  total_comments : Z;
  total_reactions : Z;
  all_breakdowns : list Daily.t
}.

(** Lines 246-249: what a document adds. *)
Definition add_record (acc : scan) (data : ArticleData.t) : scan :=
  mkscan (total_views acc + default 0 (ArticleData.views data))
         (total_comments acc + default 0 (ArticleData.comments data))
         (total_reactions acc + default 0 (ArticleData.reactions data))
         (all_breakdowns acc ++ breakdown_of data).

(** The loop over [glob("*.json")] that both summaries start with: [step]
    is what is done to one file. *)
Fixpoint for_files {S} (step : S -> string * file -> M S) (acc : S)
    (dir : list (string * file)) : M S :=
  match dir with
  | [] => ret acc
  | entry :: dir' => acc' <- step acc entry ;; for_files step acc' dir'
  end.

(** Lines 241-252: a file of size 0 adds nothing; of the exceptions of
    reading a file, [JSONDecodeError] and [KeyError] are caught and the file
    adds nothing; any other exception ends the scan. *)
Definition scan_step (acc : scan) (entry : string * file) : M scan :=
  match snd entry with
  | Empty => ret acc
  | content =>
      try_except
        (data <- json_load content ;;
         ret (add_record acc data))
        (fun e => match e with
                  | JSONDecodeError | KeyError => Some (ret acc)
                  | _ => None
                  end)
  end.

(** What a scan that comes to its end has accumulated: the documents add
    their part, in the order of the listing. *)
Definition scan_file (acc : scan) (entry : string * file) : scan :=
  match snd entry with
  | Json data => add_record acc data
  | _ => acc
  end.

Definition scan_files (dir : list (string * file)) : scan :=
  foldl scan_file (mkscan 0 0 0 []) dir.

(** Lines 256-263: a date seen for the first time gets a zero entry, then
    the item is added to the entry of its date. *)
Definition aggregate_item (date_aggregates : list (string * Daily.t)) (item : Daily.t)
    : list (string * Daily.t) :=
  let date := Daily.date item in
  let date_aggregates :=
    match Py.get date date_aggregates with
    | None => Py.setitem date (Daily.zero date) date_aggregates
    | Some _ => date_aggregates
    end in
  match Py.get date date_aggregates with
  | Some e => Py.setitem date (Daily.add e item) date_aggregates
  | None => date_aggregates
  end.

Definition aggregate_by_date (all_breakdowns : list Daily.t) : list Daily.t :=
  let date_aggregates := foldl aggregate_item [] all_breakdowns in
  Py.sorted Py.str_le Daily.date (Py.values date_aggregates).

(** The account document of a directory whose scan comes to its end. *)
Definition account_data (dir : list (string * file)) (articles : list Article.t)
    (username : option string) : Account.t :=
  let total_articles := length articles in
  let s := scan_files dir in
  let combined_breakdown := aggregate_by_date (all_breakdowns s) in
  Account.mk total_articles (total_views s) (total_comments s) (total_reactions s)
             username combined_breakdown.

(** The document made from the scan [s]. *)
Definition account_of (s : scan) (articles : list Article.t) (username : option string)
    : Account.t :=
  let total_articles := length articles in
  let combined_breakdown := aggregate_by_date (all_breakdowns s) in
  Account.mk total_articles (total_views s) (total_comments s) (total_reactions s)
             username combined_breakdown.

Definition write_account (account_data : Account.t) : M unit :=
  fun w =>
    (Val tt, mkworld (articles_dir w) (Some account_data)
                     (top_articles_json w) (username w) (requests w)).

Definition update_account_stats (articles : list Article.t) : M unit :=
  w <- get_world ;;
  s <- for_files scan_step (mkscan 0 0 0 []) (articles_dir w) ;;
  write_account (account_of s articles (username w)).

(** *** [create_top_articles] *)

(** ["-".join(filename.split("-")[1:])]: what follows the first dash. *)
Definition slug_of_stem (filename : string) : string :=
  default EmptyString (snd (Py.split1 "-" filename)).

(** Lines 294-304: the entry made of a file name and its document. *)
Definition stat_of (filename : string) (data : ArticleData.t) : Stat.t :=
  let slug := slug_of_stem filename in
  Stat.mk slug
          (default (Py.title (Py.replace_char "-" " " slug))
                   (ArticleData.title data))
          (default 0 (ArticleData.views data))
          (default 0 (ArticleData.reactions data))
          (ArticleData.org_username data).

(** Lines 289-307, with the same handler as the scan of
    [update_account_stats]. *)
Definition stat_step (article_stats : list Stat.t) (entry : string * file)
    : M (list Stat.t) :=
  match snd entry with
  | Empty => ret article_stats
  | content =>
      try_except
        (data <- json_load content ;;
         ret (article_stats ++ [stat_of (fst entry) data]))
        (fun e => match e with
                  | JSONDecodeError | KeyError => Some (ret article_stats)
                  | _ => None
                  end)
  end.

(** The entry a file contributes to a scan that comes to its end. *)
Definition article_stat (entry : string * file) : option Stat.t :=
  match snd entry with
  | Json data => Some (stat_of (fst entry) data)
  | _ => None
  end.

Definition article_stats (dir : list (string * file)) : list Stat.t :=
  foldl (fun article_stats entry =>
           match article_stat entry with
           | Some item => article_stats ++ [item]
           | None => article_stats
           end)
        [] dir.

(** The sort key [(-x[metric], x["slug"])] and the order of such tuples. *)
Definition rank_key (x : Ranked.t) : Z * string := (- Ranked.metric x, Ranked.slug x).

Definition tuple_le (a b : Z * string) : bool :=
  (fst a <? fst b) || ((fst a =? fst b) && Py.str_le (snd a) (snd b)).

(** The two list comprehensions of lines 312 and 316. *)
Definition by_reaction_entry (item : Stat.t) : Ranked.t :=
  Ranked.mk (Stat.slug item) (Stat.title item) (Stat.reactions item)
            (Stat.org_username item).

Definition by_views_entry (item : Stat.t) : Ranked.t :=
  Ranked.mk (Stat.slug item) (Stat.title item) (Stat.views item)
            (Stat.org_username item).

(** Lines 310-319: the two rankings of the entries. *)
Definition rankings_of (article_stats : list Stat.t) : TopArticles.t :=
  TopArticles.mk
    (Py.sorted tuple_le rank_key (by_reaction_entry <$> article_stats))
    (Py.sorted tuple_le rank_key (by_views_entry <$> article_stats)).

(** The rankings of a directory whose scan comes to its end. *)
Definition top_articles (dir : list (string * file)) : TopArticles.t :=
  let article_stats := article_stats dir in
  TopArticles.mk
    (Py.sorted tuple_le rank_key (by_reaction_entry <$> article_stats))
    (Py.sorted tuple_le rank_key (by_views_entry <$> article_stats)).

Definition write_top_articles (top_articles : TopArticles.t) : M unit :=
  fun w =>
    (Val tt, mkworld (articles_dir w) (account_json w) (Some top_articles)
                     (username w) (requests w)).

Definition create_top_articles : M unit :=
  w <- get_world ;;
  article_stats <- for_files stat_step [] (articles_dir w) ;;
  write_top_articles (rankings_of article_stats).

(** *** [run] and the entry point *)

Definition run (self : fetcher) (net : network) (fuel : nat) : M unit :=
  try_except
    (articles <- fetch_published_articles self net fuel ;;
     for_each (process_article self net) articles ;;
     update_account_stats articles ;;
     create_top_articles)
    (fun e => if is_Exception e then Some (sys_exit 1) else None).

(** What the process finds when it starts: the lines of [.env] if the file
    exists, the current date as [datetime.now().strftime("%Y-%m-%d")], and
    the command-line flag. *)
Record host := mkhost {
  dotenv : option (list string);
  now : string;
  flag_from_second_last_day : bool
}.

(** [__init__] followed by [run], for a command line [argparse] has
    accepted and a [.env] that, if it exists, is text: [dotenv] holds its
    lines. *)
Definition main (h : host) (net : network) (fuel : nat) : M unit :=
  api_key <- _load_api_key (dotenv h) ;;
  let fetcher := mkfetcher api_key (now h) (flag_from_second_last_day h) in
  run fetcher net fuel.

(** The exit status of the process: 0 after a normal return, the argument of
    [sys.exit], 1 for an exception nobody caught; [None] while the paging
    loop is still running. *)
Definition exit_status {A} (o : outcome A) : option Z :=
  match o with
  | Val _ => Some 0
  | Raise (SystemExit code) => Some code
  | Raise _ => Some 1
  | Unfinished => None
  end.

(** ** The course of [process_article], without the effects

    Lines 151-191 end in one of three ways: a request from some start date
    with a history to merge into, no request, or an exception, of reading
    the file or of the date arithmetic.  [plan_of] computes which, as a
    function of the file. *)

Inductive plan :=
| Fetch (start_date : string) (existing_data : ArticleData.t)
| Skip (existing_data : ArticleData.t)
| Crash (e : exn).

Definition plan_of (self : fetcher) (published_at : string) (f : option file) : plan :=
  match f with
  | Some (Json existing_data) =>
      let breakdown := breakdown_of existing_data in
      match Py.max Py.str_le Daily.date breakdown with
      | Some last =>
          let last_date := Daily.date last in
          match Calendar.strptime last_date with
          | None => Crash ValueError
          | Some last_date_obj =>
              if from_second_last_day self then
                match Calendar.sub_one_day last_date_obj with
                | None => Crash OverflowError
                | Some second_last =>
                    let existing_data :=
                      ArticleData.with_breakdown
                        (filter (fun item => Daily.date item <> last_date) breakdown)
                        existing_data in
                    if Py.str_le (Calendar.strftime second_last) (today self)
                    then Fetch (Calendar.strftime second_last) existing_data
                    else Skip existing_data
                end
              else
                match Calendar.add_one_day last_date_obj with
                | None => Crash OverflowError
                | Some next_date =>
                    if Py.str_le (Calendar.strftime next_date) (today self)
                    then Fetch (Calendar.strftime next_date) existing_data
                    else Skip existing_data
                end
          end
      | None => Fetch published_at existing_data
      end
  | Some Undecodable => Crash UnicodeDecodeError
  | Some NotObject => Crash AttributeError
  | Some Malformed => Fetch published_at no_history
  | Some Empty => Fetch published_at no_history
  | None => Fetch published_at no_history
  end.


(** The exception that ends a scan of the directory, if there is one: that
    of the first file whose reading raises something the handler of the
    scans does not name. *)
Definition unreadable (f : file) : option exn :=
  match f with
  | Undecodable => Some UnicodeDecodeError
  | NotObject => Some AttributeError
  | _ => None
  end.

Fixpoint scan_error (dir : list (string * file)) : option exn :=
  match dir with
  | [] => None
  | entry :: dir' =>
      match unreadable (snd entry) with
      | Some e => Some e
      | None => scan_error dir'
      end
  end.

(** What [fetch_article_analytics] returns for a request. *)
Definition response_of (self : fetcher) (net : network) (article_id : Z)
    (start_date : string) : gmap string Raw.t :=
  match historical net (api_key self) article_id start_date (today self) with
  | Body analytics => analytics
  | _ => ∅
  end.

(** An ISO date with a day before it and a day after it in [datetime]. *)
Definition ordinary_date (s : string) : bool :=
  Calendar.is_iso s && negb (String.eqb s "0001-01-01") && negb (String.eqb s "9999-12-31").

(** The file, if there is one, can be read, and every date recorded in it
    is an ordinary date. *)
Definition well_dated (f : option file) : Prop :=
  match f with
  | Some (Json data) =>
      Forall (fun item => ordinary_date (Daily.date item) = true) (breakdown_of data)
  | Some Undecodable => False
  | Some NotObject => False
  | _ => True
  end.

Definition dir_well_dated (dir : list (string * file)) : Prop :=
  Forall (fun entry => well_dated (Some (snd entry))) dir.

(** The line of [.env] sets one of the two keys. *)
Definition names_key (line : string) : bool :=
  Py.startswith (Py.strip line) "API_KEY=" ||
  Py.startswith (Py.strip line) "DEVTO_API_KEY=".

(** What the listing endpoint can answer that ends the paging with an error,
    and a page with at least one article. *)
Definition listing_fails (r : http published_body) : Prop :=
  match r with
  | Body (Articles _) => False
  | _ => True
  end.

Definition page_of_articles (r : http published_body) : Prop :=
  match r with
  | Body (Articles (_ :: _)) => True
  | _ => False
  end.

(** What the analytics endpoint can answer that is a failed fetch. *)
Definition fetch_fails (r : http (gmap string Raw.t)) : Prop :=
  match r with
  | Body _ => False
  | _ => True
  end.

(** ** The design document's descriptions

    Definitions that follow the words of the design document rather than
    the code; the properties below compare the code with them. *)

(** "A mapping from date to DailyMetric seeded with every entry of the prior
    breakdown". *)
Definition seeded (prior : list Daily.t) : gmap string Daily.t :=
  foldl (fun m item => <[Daily.date item := item]> m) ∅ prior.

(** "... then overwrite (not add) with every entry from the freshly fetched
    data for the same date": a fetched date takes the fetched entry, every
    other date keeps what it had. *)
Definition overwritten (m : gmap string Daily.t) (fetched : gmap string Raw.t)
    : gmap string Daily.t :=
  map_imap (fun date data => Some (daily_entry date data)) fetched ∪ m.

(** "Emit the mapping's values sorted ascending by date." *)
Definition emitted (m : gmap string Daily.t) : list Daily.t :=
  Py.sorted Py.str_le Daily.date (snd <$> map_to_list m).

Definition merge_by_map (prior : list Daily.t) (fetched : gmap string Raw.t)
    : list Daily.t :=
  emitted (overwritten (seeded prior) fetched).

(** Every entry is filed under its own date. *)
Definition dated (m : gmap string Daily.t) : Prop :=
  forall k v, m !! k = Some v -> Daily.date v = k.

(** The records of a directory listing that parse. *)
Definition valid_records (dir : list (string * file)) : list ArticleData.t :=
  omap (fun entry => match snd entry with
                     | Json data => Some data
                     | _ => None
                     end) dir.


Definition holds_date (date : string) (data : ArticleData.t) : Prop :=
  date ∈ Daily.date <$> breakdown_of data.

Global Instance holds_date_dec (date : string) (data : ArticleData.t) :
  Decision (holds_date date data).
Proof. unfold holds_date. apply _. Defined.





(** "Union of all articles' daily entries". *)
Definition joined (records : list ArticleData.t) : list Daily.t :=
  foldr (fun data acc => breakdown_of data ++ acc) [] records.

(** "Sum over all valid ArticleHistory totals". *)
Definition total_of (get : ArticleData.t -> option Z) (records : list ArticleData.t) : Z :=
  foldr (fun data acc => default 0 (get data) + acc) 0 records.


(** Ascending by date with no date twice. *)
Definition ascending (breakdown : list Daily.t) : Prop :=
  StronglySorted (fun a b => Py.str_lt (Daily.date a) (Daily.date b) = true) breakdown.

(** The totals of a document are the sums over its breakdown. *)
Definition totals_consistent (data : ArticleData.t) : Prop :=
  default 0 (ArticleData.views data) = sum_of Daily.views (breakdown_of data) /\
  default 0 (ArticleData.comments data) = sum_of Daily.comments (breakdown_of data) /\
  default 0 (ArticleData.reactions data) = sum_of Daily.reactions (breakdown_of data).

(** ** The chart generators

    The parts of [generate_top_articles.py] and
    [generate_traffic_pie_chart.py] that select and label what a chart shows.
    The SVG text and its floating-point geometry are not modelled. *)

(** [x[:k]]: the first [k] elements, or all but the last [-k] when [k] is
    negative. *)
Module Slice.
Definition stop_of (k : Z) (len : nat) : nat :=
  if 0 <=? k then Z.to_nat k else Z.to_nat (Z.of_nat len + k).

Definition list_to {A} (k : Z) (l : list A) : list A :=
  take (stop_of k (length l)) l.

Definition str_to (k : Z) (s : string) : string :=
  String.substring 0 (stop_of k (String.length s)) s.
End Slice.

(** [truncate_title] of [generate_top_articles.py]. *)
Definition truncate_title (title : string) (max_length : Z) : string :=
  if Z.of_nat (String.length title) >? max_length
  then (Slice.str_to (max_length - 3) title ++ "...")%string
  else title.

(** [generate_top_articles_svg]: the articles shown, the value the bars are
    scaled by, and the link of an article.  An empty string and [None] are
    both false in a condition. *)
Inductive metric := Views | Reactions.




(** [get_top_referrers] of [generate_traffic_pie_chart.py].  An element of
    [account_data['referrers']] has a domain, which may be [null], and a
    count; the loop adds a colour and a display name.  (The loop updates the
    elements in place; the model returns the updated elements.) *)
Module Referrer.
Record t := mk {
  domain : option string;
  count : Z;
  color : option string;
  display_name : option string
}.
End Referrer.

Definition colors : list string :=
  ["#1f77b4"; "#ff7f0e"; "#2ca02c"; "#d62728"; "#9467bd"; "#8c564b";
   "#e377c2"; "#7f7f7f"; "#bcbd22"; "#17becf"; "#aec7e8"; "#ffbb78"].

(** The order of [sorted(..., reverse=True)] on the counts; the sort stays
    stable. *)
Definition count_ge (a b : Z) : bool := b <=? a.

(** The body of the loop over [enumerate(top_referrers)]. *)
Definition with_color (i : nat) (referrer : Referrer.t) : Referrer.t :=
  Referrer.mk (Referrer.domain referrer) (Referrer.count referrer)
              (colors !! (i mod length colors)%nat)
              (Some (match Referrer.domain referrer with
                     | None => "Direct Traffic"
                     | Some domain => domain
                     end)).

Definition get_top_referrers (referrers : list Referrer.t) (count : Z)
    : list Referrer.t :=
  let sorted_referrers := Py.sorted count_ge Referrer.count referrers in
  let top_referrers := Slice.list_to count sorted_referrers in
  imap with_color top_referrers.

(** The file of a name is a document in normal form: its breakdown is
    ascending by date with no date twice and its totals are the sums over
    the breakdown. *)
Definition normal_form_at (name : string) (dir : list (string * file)) : Prop :=
  exists data,
    Py.get name dir = Some (Json data) /\
    ascending (breakdown_of data) /\
    totals_consistent data.

(** The totals of an account document are the sums over its breakdown. *)
Definition account_consistent (account : Account.t) : Prop :=
  Account.views account = sum_of Daily.views (Account.breakdown account) /\
  Account.comments account = sum_of Daily.comments (Account.breakdown account) /\
  Account.reactions account = sum_of Daily.reactions (Account.breakdown account).

(** ** Sample data

    The scenarios of the design document: article B has a recorded history
    of two days; article A has none. *)

Module Sample.

Definition day (date : string) (views : Z) : Daily.t := Daily.mk date views 0 0.

Definition raw (views : Z) : Raw.t :=
  Raw.mk (Some (Raw.mkcounter (Some views))) None None.

Definition article_a : Article.t :=
  Article.mk 3 "article-a" "2024-01-01T08:00:00Z" "Article A" None (Some "author").

Definition article_b : Article.t :=
  Article.mk 7 "article-b" "2024-01-01T09:30:00Z" "Article B" None (Some "author").

Definition history_b : list Daily.t := [day "2024-01-01" 10; day "2024-01-02" 5].

Definition data_b : ArticleData.t := article_data_of article_b history_b.

Definition world_of (dir : list (string * file)) : world := mkworld dir None None None [].

Definition world_b : world := world_of [("7-article-b", Json data_b)].

(** A server whose listing has one page and whose analytics endpoint
    answers every request with the same mapping. *)
Definition serving (analytics : gmap string Raw.t) : network :=
  mknetwork (fun _ page => if page =? 1 then Body (Articles [article_a; article_b])
                           else Body (Articles []))
            (fun _ _ _ _ => Body analytics).

(** The same listing, with an analytics endpoint that cannot be reached. *)
Definition analytics_down : network :=
  mknetwork (fun _ page => if page =? 1 then Body (Articles [article_a; article_b])
                           else Body (Articles []))
            (fun _ _ _ _ => ConnectionError).

(** A listing that breaks on its second page. *)
Definition listing_breaks : network :=
  mknetwork (fun _ page => if page =? 1 then Body (Articles [article_a; article_b])
                           else HTTPError)
            (fun _ _ _ _ => Body ∅).

(** A host with a key in [.env], and one without. *)
Definition host_with_key : host := mkhost (Some ["# dev.to"; "API_KEY='secret'"]) "2024-01-02" false.
Definition host_without_key : host := mkhost (Some ["# dev.to"; "USER=me"]) "2024-01-02" false.
Definition host_without_dotenv : host := mkhost None "2024-01-02" false.

Definition normal (today : string) : fetcher := mkfetcher "secret" today false.
Definition refresh (today : string) : fetcher := mkfetcher "secret" today true.




(** A stored record with a repeated date, out of order, and totals that
    do not match. *)
Definition messy : ArticleData.t :=
  ArticleData.mk (Some "Article B") (Some 999) (Some 1) (Some 0) None
                 (Some [day "2024-01-02" 5; day "2024-01-01" 10; day "2024-01-02" 6]).

Definition world_messy : world := world_of [("7-article-b", Json messy)].


(** The file of article B holding bytes that are not text. *)
Definition world_undecodable : world := world_of [("7-article-b", Undecodable)].



(** Two records that share a date, in both orders. *)
Definition record (title : string) (breakdown : list Daily.t) : file :=
  Json (article_data_of (Article.mk 0 "" "" title None None) breakdown).

Definition pair : list (string * file) :=
  [("1-one", record "One" [day "2024-01-01" 10; day "2024-01-02" 5]);
   ("2-two", record "Two" [day "2024-01-02" 7])].


End Sample.

(** * Properties *)

(** ** Order of strings *)

Lemma ascii_compare_refl (c : ascii) : Ascii.compare c c = Eq.
Proof. unfold Ascii.compare. apply N.compare_refl. Qed.

Lemma ascii_compare_lt_trans (a b c : ascii) :
  Ascii.compare a b = Lt -> Ascii.compare b c = Lt -> Ascii.compare a c = Lt.
Proof.
  unfold Ascii.compare. rewrite !N.compare_lt_iff. lia.
Qed.

Lemma str_compare_refl (s : string) : String.compare s s = Eq.
Proof.
  induction s as [|c s IH]; simpl; [reflexivity|].
  rewrite ascii_compare_refl. exact IH.
Qed.

Lemma str_compare_lt_trans (a b c : string) :
  String.compare a b = Lt -> String.compare b c = Lt -> String.compare a c = Lt.
Proof.
  revert b c. induction a as [|x a IH]; intros [|y b] [|z c]; simpl; try congruence.
  destruct (Ascii.compare x y) eqn:Hxy; try congruence.
  - apply Ascii.compare_eq_iff in Hxy. subst y.
    destruct (Ascii.compare x z) eqn:Hxz; try congruence. apply IH.
  - destruct (Ascii.compare y z) eqn:Hyz; try congruence.
    + apply Ascii.compare_eq_iff in Hyz. subst z. rewrite Hxy. reflexivity.
    + rewrite (ascii_compare_lt_trans _ _ _ Hxy Hyz). reflexivity.
Qed.

Lemma str_le_compare (a b : string) :
  Py.str_le a b = true <-> String.compare a b <> Gt.
Proof.
  unfold Py.str_le, String.leb. destruct (String.compare a b); split; congruence.
Qed.

Lemma str_lt_compare (a b : string) :
  Py.str_lt a b = true <-> String.compare a b = Lt.
Proof.
  unfold Py.str_lt, String.ltb. destruct (String.compare a b); split; congruence.
Qed.

Lemma str_le_refl (a : string) : Py.str_le a a = true.
Proof. apply str_le_compare. rewrite str_compare_refl. congruence. Qed.

Lemma str_le_trans (a b c : string) :
  Py.str_le a b = true -> Py.str_le b c = true -> Py.str_le a c = true.
Proof.
  rewrite !str_le_compare. intros Hab Hbc.
  destruct (String.compare a b) eqn:E1; try congruence.
  - apply String.compare_eq_iff in E1. subst b. exact Hbc.
  - destruct (String.compare b c) eqn:E2; try congruence.
    + apply String.compare_eq_iff in E2. subst c. rewrite E1. congruence.
    + rewrite (str_compare_lt_trans _ _ _ E1 E2). congruence.
Qed.

Lemma str_le_false_lt (a b : string) :
  Py.str_le a b = false -> Py.str_lt b a = true.
Proof.
  unfold Py.str_le, Py.str_lt, String.leb, String.ltb.
  rewrite (String.compare_antisym a b).
  destruct (String.compare b a); simpl; congruence.
Qed.

Lemma str_lt_le (a b : string) : Py.str_lt a b = true -> Py.str_le a b = true.
Proof.
  unfold Py.str_le, Py.str_lt, String.leb, String.ltb.
  destruct (String.compare a b); congruence.
Qed.

Lemma str_lt_not_le (a b : string) : Py.str_lt a b = true -> Py.str_le b a = false.
Proof.
  unfold Py.str_le, Py.str_lt, String.leb, String.ltb.
  rewrite (String.compare_antisym a b).
  destruct (String.compare b a); simpl; congruence.
Qed.

Global Instance str_le_order : Py.KeyOrder Py.str_le.
Proof.
  split.
  - apply String.leb_total.
  - apply str_le_trans.
  - apply String.leb_antisym.
Qed.

Lemma tuple_le_iff (a b : Z * string) :
  tuple_le a b = true <->
  fst a < fst b \/ (fst a = fst b /\ Py.str_le (snd a) (snd b) = true).
Proof.
  unfold tuple_le. rewrite orb_true_iff, andb_true_iff, Z.ltb_lt, Z.eqb_eq. tauto.
Qed.

Global Instance tuple_le_order : Py.KeyOrder tuple_le.
Proof.
  split.
  - intros [x s] [y t]. rewrite !tuple_le_iff. simpl. unfold Py.str_le.
    destruct (Z.lt_trichotomy x y) as [?|[?|?]];
      destruct (String.leb_total s t); intuition auto with zarith.
  - intros [x s] [y t] [z u]. rewrite !tuple_le_iff. simpl.
    intros [?|[? ?]] [?|[? ?]]; try (left; lia).
    right. split; [lia|]. eapply str_le_trans; eassumption.
  - intros [x s] [y t]. rewrite !tuple_le_iff. simpl.
    intros [?|[? ?]] [?|[? ?]]; try lia.
    f_equal; [lia|]. apply String.leb_antisym; assumption.
Qed.

(** ** [sorted] *)

Section SortedFacts.
Context {A K : Type} (le : K -> K -> bool) `{Hord : !Py.KeyOrder le} (key : A -> K).
Local Abbreviation key_le := (Py.key_le le key).
Local Abbreviation key_lt := (Py.key_lt le key).

Global Instance key_le_trans : Transitive key_le.
  Proof. intros a b c. unfold key_le. apply Py.key_trans. Qed.

Global Instance key_lt_trans : Transitive key_lt.
  Proof.
    intros a b c [Hab Nab] [Hbc Nbc]. split.
    - eapply Py.key_trans; eassumption.
    - intros E. rewrite E in Hab. apply Nbc. apply Py.key_antisym; assumption.
  Qed.

Global Instance key_lt_antisym : AntiSymm (=) key_lt.
  Proof.
    intros a b [Hab Nab] [Hba _]. exfalso. apply Nab.
    apply Py.key_antisym; assumption.
  Qed.

Lemma insert_stable_Permutation (x : A) (l : list A) :
    Py.insert_stable le key x l ≡ₚ x :: l.
  Proof.
    induction l as [|y l IH]; simpl; [reflexivity|].
    destruct (le (key x) (key y)); [reflexivity|].
    rewrite IH. apply Permutation_swap.
  Qed.

Lemma sorted_Permutation (l : list A) : Py.sorted le key l ≡ₚ l.
  Proof.
    unfold Py.sorted. induction l as [|x l IH]; simpl; [reflexivity|].
    rewrite insert_stable_Permutation, IH. reflexivity.
  Qed.

Lemma insert_stable_Sorted (x : A) (l : list A) :
    Sorted key_le l -> Sorted key_le (Py.insert_stable le key x l).
  Proof.
    induction 1 as [|y l Hl IH Hhd]; simpl.
    - repeat constructor.
    - destruct (le (key x) (key y)) eqn:E.
      + constructor; [constructor; assumption|]. constructor. exact E.
      + constructor; [exact IH|].
        assert (Hyx : key_le y x).
        { destruct (Py.key_total (key x) (key y)) as [Hle|Hle]; [congruence|exact Hle]. }
        destruct Hhd as [|z l' Hyz]; simpl.
        * constructor. exact Hyx.
        * destruct (le (key x) (key z)); constructor; assumption.
  Qed.

Lemma sorted_Sorted (l : list A) : Sorted key_le (Py.sorted le key l).
  Proof.
    unfold Py.sorted. induction l as [|x l IH]; simpl; [constructor|].
    apply insert_stable_Sorted. exact IH.
  Qed.

Lemma sorted_StronglySorted (l : list A) : StronglySorted key_le (Py.sorted le key l).
  Proof. apply Sorted_StronglySorted; [apply _|apply sorted_Sorted]. Qed.

  (** A sorted list is left as it is. *)
Lemma sorted_id (l : list A) : Sorted key_le l -> Py.sorted le key l = l.
  Proof.
    unfold Py.sorted. induction 1 as [|x l Hl IH Hhd]; simpl; [reflexivity|].
    rewrite IH.
    destruct Hhd as [|y l' Hxy]; simpl; [reflexivity|].
    unfold key_le in Hxy. rewrite Hxy. reflexivity.
  Qed.

Lemma StronglySorted_strict (l : list A) :
    StronglySorted key_le l -> NoDup (key <$> l) -> StronglySorted key_lt l.
  Proof.
    induction 1 as [|x l Hl IH Hall]; intros Hnd; [constructor|].
    simpl in Hnd. apply NoDup_cons in Hnd as [Hx Hnd].
    constructor; [apply IH; exact Hnd|].
    rewrite Forall_forall in Hall |- *. intros y Hy. split; [apply Hall; exact Hy|].
    intros E. apply Hx. rewrite E. apply list_elem_of_fmap_2. exact Hy.
  Qed.

Lemma StronglySorted_strict_NoDup (l : list A) :
    StronglySorted key_lt l -> NoDup (key <$> l).
  Proof.
    induction 1 as [|x l Hl IH Hall]; simpl; constructor; [|exact IH].
    intros Hx. apply list_elem_of_fmap in Hx as (y & E & Hy).
    rewrite Forall_forall in Hall. destruct (Hall y Hy) as [_ N]. congruence.
  Qed.

Lemma sorted_strict (l : list A) :
    NoDup (key <$> l) -> StronglySorted key_lt (Py.sorted le key l).
  Proof.
    intros Hnd. apply StronglySorted_strict; [apply sorted_StronglySorted|].
    rewrite sorted_Permutation. exact Hnd.
  Qed.

  (** With distinct keys the result does not depend on the order of the
      input. *)
Lemma sorted_unique (l1 l2 : list A) :
    l1 ≡ₚ l2 -> NoDup (key <$> l1) -> Py.sorted le key l1 = Py.sorted le key l2.
  Proof.
    intros Hp Hnd.
    apply (StronglySorted_unique key_lt).
    - apply sorted_strict. exact Hnd.
    - apply sorted_strict. rewrite <- Hp. exact Hnd.
    - rewrite !sorted_Permutation. exact Hp.
  Qed.
End SortedFacts.

(** ** Insertion-ordered dictionaries *)

Section DictFacts.
Context {V : Type}.
Implicit Types (d : list (string * V)) (k : string) (v : V).

Lemma get_lookup d k : Py.get k d = (list_to_map d : gmap string V) !! k.
Proof.
  induction d as [|[k' v'] d IH]; simpl; [reflexivity|].
  destruct (String.eqb_spec k' k) as [->|Hne].
  - rewrite lookup_insert_eq. reflexivity.
  - rewrite lookup_insert_ne by exact Hne. exact IH.
Qed.

Lemma setitem_insert d k v :
  (list_to_map (Py.setitem k v d) : gmap string V) = <[k := v]> (list_to_map d).
Proof.
  induction d as [|[k' v'] d IH]; simpl; [reflexivity|].
  destruct (String.eqb_spec k' k) as [->|Hne]; simpl.
  - rewrite insert_insert_eq. reflexivity.
  - rewrite IH. apply insert_insert_ne. exact Hne.
Qed.

Lemma keys_setitem d k v :
  Py.keys (Py.setitem k v d) =
  match Py.get k d with
  | Some _ => Py.keys d
  | None => Py.keys d ++ [k]
  end.
Proof.
  unfold Py.keys. induction d as [|[k' v'] d IH]; csimpl; [reflexivity|].
  destruct (String.eqb_spec k' k) as [->|Hne]; csimpl; [reflexivity|].
  rewrite IH. destruct (Py.get k d); reflexivity.
Qed.

Lemma get_None_keys d k : Py.get k d = None <-> k ∉ Py.keys d.
Proof.
  unfold Py.keys. induction d as [|[k' v'] d IH]; csimpl.
  - split; [intros _; apply not_elem_of_nil|reflexivity].
  - rewrite not_elem_of_cons.
    destruct (String.eqb_spec k' k) as [->|Hne]; split.
    + discriminate.
    + intros [? _]. congruence.
    + intros H. split; [congruence|]. apply IH. exact H.
    + intros [_ H]. apply IH. exact H.
Qed.

Lemma NoDup_keys_setitem d k v :
  NoDup (Py.keys d) -> NoDup (Py.keys (Py.setitem k v d)).
Proof.
  intros Hnd. rewrite keys_setitem.
  destruct (Py.get k d) eqn:E; [exact Hnd|].
  apply NoDup_app. split; [exact Hnd|]. split.
  - intros x Hx Hk. apply list_elem_of_singleton in Hk. subst x.
    apply get_None_keys in E. contradiction.
  - apply NoDup_singleton.
Qed.

(** A dictionary lists exactly the entries of the map it stands for. *)
Lemma values_Permutation d :
  NoDup (Py.keys d) ->
  Py.values d ≡ₚ snd <$> map_to_list (list_to_map d : gmap string V).
Proof.
  intros Hnd. unfold Py.values.
  rewrite (map_to_list_to_map d) by exact Hnd. reflexivity.
Qed.
End DictFacts.

(** ** The merge of [process_article] *)

Lemma keyed_dates (d : list (string * Daily.t)) :
  Forall (fun p => Daily.date (snd p) = fst p) d ->
  Daily.date <$> (snd <$> d) = fst <$> d.
Proof.
  intros H. rewrite <- list_fmap_compose. apply Forall_fmap_ext.
  eapply Forall_impl; [exact H|]. intros [k v] E. exact E.
Qed.

Lemma dated_entries (m : gmap string Daily.t) :
  dated m -> Forall (fun p => Daily.date (snd p) = fst p) (map_to_list m).
Proof.
  intros Hm. apply Forall_forall. intros [k v] Hin.
  apply elem_of_map_to_list in Hin. simpl. apply Hm. exact Hin.
Qed.

Lemma foldl_seeded (l : list Daily.t) (m : gmap string Daily.t) :
  foldl (fun m item => <[Daily.date item := item]> m) m l = seeded l ∪ m.
Proof.
  unfold seeded. revert m. induction l as [|x l IH]; intros m; simpl.
  - rewrite (left_id_L ∅ (∪)). reflexivity.
  - rewrite IH. rewrite (IH (<[Daily.date x := x]> ∅)).
    rewrite <- map_union_assoc. f_equal.
    rewrite (insert_union_singleton_l m), insert_empty. reflexivity.
Qed.

Lemma seeded_app (a b : list Daily.t) : seeded (a ++ b) = seeded b ∪ seeded a.
Proof. unfold seeded at 1. rewrite foldl_app. apply foldl_seeded. Qed.

Lemma seeded_cons (x : Daily.t) (l : list Daily.t) :
  seeded (x :: l) = seeded l ∪ {[Daily.date x := x]}.
Proof.
  unfold seeded at 1. simpl. rewrite foldl_seeded.
  rewrite insert_empty. reflexivity.
Qed.

Lemma seeded_dated (l : list Daily.t) : dated (seeded l).
Proof.
  induction l as [|x l IH]; intros k v.
  - unfold seeded. simpl. rewrite lookup_empty. discriminate.
  - rewrite seeded_cons, lookup_union_Some_raw. intros [H|[_ H]].
    + apply IH. exact H.
    + apply lookup_singleton_Some in H as [<- <-]. reflexivity.
Qed.

Lemma seeded_lookup_None (l : list Daily.t) (k : string) :
  seeded l !! k = None <-> k ∉ Daily.date <$> l.
Proof.
  induction l as [|x l IH]; csimpl.
  - unfold seeded. simpl. rewrite lookup_empty. split; [intros _; apply not_elem_of_nil|reflexivity].
  - rewrite seeded_cons, lookup_union_None, IH, not_elem_of_cons, lookup_singleton_None.
    split; intros [? ?]; split; auto.
Qed.

(** Without a repeated date the map holds exactly the entries of the list. *)
Lemma seeded_lookup_Some (l : list Daily.t) (k : string) (v : Daily.t) :
  NoDup (Daily.date <$> l) ->
  seeded l !! k = Some v <-> v ∈ l /\ Daily.date v = k.
Proof.
  induction l as [|x l IH]; csimpl; intros Hnd.
  - unfold seeded. simpl. rewrite lookup_empty. split; [discriminate|].
    intros [H _]. apply elem_of_nil in H. contradiction.
  - apply NoDup_cons in Hnd as [Hx Hnd].
    rewrite seeded_cons, lookup_union_Some_raw, (IH Hnd), elem_of_cons.
    rewrite lookup_singleton_Some, seeded_lookup_None. split.
    + intros [[? ?]|[_ [<- <-]]]; auto.
    + intros [[->|Hin] <-].
      * right. auto.
      * left. auto.
Qed.

Lemma unique_by_date_fold (l : list Daily.t) (d : list (string * Daily.t)) :
  let step := fun unique_breakdown item =>
                Py.setitem (Daily.date item) item unique_breakdown in
  (list_to_map (foldl step d l) : gmap string Daily.t) = seeded l ∪ list_to_map d /\
  (NoDup (Py.keys d) -> NoDup (Py.keys (foldl step d l))) /\
  (Forall (fun p => Daily.date (snd p) = fst p) d ->
   Forall (fun p => Daily.date (snd p) = fst p) (foldl step d l)).
Proof.
  intros step. revert d. induction l as [|x l IH]; intros d; simpl.
  - split; [|split; auto]. unfold seeded. simpl. rewrite (left_id_L ∅ (∪)). reflexivity.
  - destruct (IH (step d x)) as (E & Hnd & Hk). split; [|split].
    + rewrite E. unfold step. rewrite setitem_insert, seeded_cons.
      rewrite <- map_union_assoc. f_equal.
      rewrite insert_union_singleton_l. reflexivity.
    + intros H. apply Hnd. apply NoDup_keys_setitem. exact H.
    + intros H. apply Hk. unfold step. clear -H.
      induction H as [|[k v] d Hkv H IHd]; simpl.
      * repeat constructor.
      * destruct (String.eqb_spec k (Daily.date x)) as [->|Hne];
          constructor; simpl; auto.
Qed.

Lemma unique_by_date_map (l : list Daily.t) :
  (list_to_map (unique_by_date l) : gmap string Daily.t) = seeded l.
Proof.
  destruct (unique_by_date_fold l []) as (E & _ & _).
  unfold unique_by_date. rewrite E. simpl. apply (right_id_L ∅ (∪)).
Qed.

Lemma unique_by_date_NoDup (l : list Daily.t) : NoDup (Py.keys (unique_by_date l)).
Proof.
  destruct (unique_by_date_fold l []) as (_ & H & _). apply H. constructor.
Qed.

Lemma unique_by_date_dates (l : list Daily.t) :
  Daily.date <$> Py.values (unique_by_date l) = Py.keys (unique_by_date l).
Proof.
  destruct (unique_by_date_fold l []) as (_ & _ & H).
  apply keyed_dates. apply H. constructor.
Qed.

(** The code's merge is the emission of the seeded map. *)
Lemma merge_breakdown_emitted (existing new_breakdown : list Daily.t) :
  merge_breakdown existing new_breakdown = emitted (seeded (existing ++ new_breakdown)).
Proof.
  unfold merge_breakdown, emitted. simpl.
  apply (sorted_unique Py.str_le).
  - rewrite values_Permutation by apply unique_by_date_NoDup.
    rewrite unique_by_date_map. reflexivity.
  - rewrite unique_by_date_dates. apply unique_by_date_NoDup.
Qed.

Lemma key_lt_str_lt (a b : Daily.t) :
  Py.key_lt Py.str_le Daily.date a b -> Py.str_lt (Daily.date a) (Daily.date b) = true.
Proof.
  intros [Hle Hne]. apply str_lt_compare. apply str_le_compare in Hle.
  destruct (String.compare (Daily.date a) (Daily.date b)) eqn:E; try congruence.
  apply String.compare_eq_iff in E. contradiction.
Qed.

Lemma str_lt_key_lt (a b : Daily.t) :
  Py.str_lt (Daily.date a) (Daily.date b) = true -> Py.key_lt Py.str_le Daily.date a b.
Proof.
  intros Hlt. split; [apply str_lt_le; exact Hlt|].
  intros E. apply str_lt_compare in Hlt. rewrite E, str_compare_refl in Hlt.
  discriminate.
Qed.

Lemma ascending_iff (l : list Daily.t) :
  ascending l <-> StronglySorted (Py.key_lt Py.str_le Daily.date) l.
Proof.
  unfold ascending. split; induction 1 as [|x l Hl IH Hall]; constructor; auto;
    (eapply Forall_impl; [exact Hall|]); intros y Hy.
  - apply str_lt_key_lt. exact Hy.
  - apply key_lt_str_lt. exact Hy.
Qed.

Lemma ascending_NoDup (l : list Daily.t) : ascending l -> NoDup (Daily.date <$> l).
Proof.
  rewrite ascending_iff. apply (StronglySorted_strict_NoDup Py.str_le).
Qed.

Lemma ascending_Sorted (l : list Daily.t) :
  ascending l -> Sorted (Py.key_le Py.str_le Daily.date) l.
Proof.
  intros H. apply StronglySorted_Sorted.
  induction H as [|x l Hl IH Hall]; constructor; auto.
  eapply Forall_impl; [exact Hall|]. intros y Hy. apply str_lt_le. exact Hy.
Qed.

Section EmittedFacts.
Context (m : gmap string Daily.t) (Hm : dated m).

Lemma emitted_Permutation : emitted m ≡ₚ snd <$> map_to_list m.
Proof. apply (sorted_Permutation Py.str_le). Qed.

Lemma entries_dates_NoDup : NoDup (Daily.date <$> (snd <$> map_to_list m)).
Proof.
  rewrite keyed_dates by (apply dated_entries; exact Hm).
  apply NoDup_fst_map_to_list.
Qed.

Lemma emitted_ascending : ascending (emitted m).
Proof.
  apply ascending_iff. apply (sorted_strict Py.str_le). apply entries_dates_NoDup.
Qed.

Lemma elem_of_emitted (v : Daily.t) : v ∈ emitted m <-> m !! Daily.date v = Some v.
Proof.
  rewrite emitted_Permutation, list_elem_of_fmap. split.
  - intros ([k v'] & -> & Hin). apply elem_of_map_to_list in Hin. simpl.
    rewrite (Hm _ _ Hin). exact Hin.
  - intros H. exists (Daily.date v, v). split; [reflexivity|].
    apply elem_of_map_to_list. exact H.
Qed.

(** Seeding a map with what a map emits gives the map back. *)
Lemma seeded_emitted : seeded (emitted m) = m.
Proof.
  apply map_eq. intros k. apply option_eq. intros v.
  rewrite seeded_lookup_Some by (apply ascending_NoDup, emitted_ascending).
  rewrite elem_of_emitted. split.
  - intros [H <-]. exact H.
  - intros H. rewrite (Hm _ _ H). auto.
Qed.
End EmittedFacts.

Lemma union_dated (m1 m2 : gmap string Daily.t) :
  dated m1 -> dated m2 -> dated (m1 ∪ m2).
Proof.
  intros H1 H2 k v. rewrite lookup_union_Some_raw. intros [H|[_ H]]; eauto.
Qed.

(** Merging the same entries a second time changes nothing. *)
Lemma merge_breakdown_again (existing new_breakdown : list Daily.t) :
  merge_breakdown (merge_breakdown existing new_breakdown) new_breakdown =
  merge_breakdown existing new_breakdown.
Proof.
  rewrite !merge_breakdown_emitted. f_equal.
  rewrite (seeded_app (emitted _)), seeded_emitted by apply seeded_dated.
  rewrite seeded_app, map_union_assoc, map_union_idemp. reflexivity.
Qed.

Lemma merge_breakdown_ascending (existing new_breakdown : list Daily.t) :
  ascending (merge_breakdown existing new_breakdown).
Proof.
  rewrite merge_breakdown_emitted. apply emitted_ascending, seeded_dated.
Qed.

(** What was fetched, as a map of entries. *)
Lemma imap_dated (fetched : gmap string Raw.t) :
  dated (map_imap (fun date data => Some (daily_entry date data)) fetched).
Proof.
  intros k v. rewrite map_lookup_imap.
  destruct (fetched !! k) as [data|]; simpl; [|discriminate].
  intros [= <-]. reflexivity.
Qed.

Lemma process_analytics_data_emitted (fetched : gmap string Raw.t) :
  process_analytics_data fetched =
  emitted (map_imap (fun date data => Some (daily_entry date data)) fetched).
Proof.
  unfold process_analytics_data, emitted. simpl.
  apply (sorted_unique Py.str_le).
  - apply NoDup_Permutation.
    + apply (NoDup_fmap_1 Daily.date). rewrite <- list_fmap_compose.
      simpl. apply NoDup_fst_map_to_list.
    + apply (NoDup_fmap_1 Daily.date). apply entries_dates_NoDup, imap_dated.
    + intros v. rewrite !list_elem_of_fmap. split.
      * intros ([k data] & -> & Hin). apply elem_of_map_to_list in Hin.
        exists (k, daily_entry k data). split; [reflexivity|].
        apply elem_of_map_to_list. rewrite map_lookup_imap, Hin. reflexivity.
      * intros ([k v'] & -> & Hin). apply elem_of_map_to_list in Hin.
        rewrite map_lookup_imap in Hin.
        destruct (fetched !! k) as [data|] eqn:E; simpl in Hin; [|discriminate].
        injection Hin as <-. exists (k, data). split; [reflexivity|].
        apply elem_of_map_to_list. exact E.
  - rewrite <- list_fmap_compose. simpl. apply NoDup_fst_map_to_list.
Qed.

(** The order in which [analytics.items()] yields the pairs does not matter:
    whatever list of pairs with distinct keys stands for the mapping, sorting
    its entries gives the same breakdown. *)
Lemma process_analytics_data_any_order (items : list (string * Raw.t))
    (analytics : gmap string Raw.t) :
  NoDup (fst <$> items) -> list_to_map items = analytics ->
  Py.sorted Py.str_le Daily.date ((fun p => daily_entry (fst p) (snd p)) <$> items) =
  process_analytics_data analytics.
Proof.
  intros Hnd <-. unfold process_analytics_data. simpl.
  apply (sorted_unique Py.str_le).
  - rewrite (map_to_list_to_map items) by exact Hnd. reflexivity.
  - rewrite <- list_fmap_compose. exact Hnd.
Qed.

Lemma new_breakdown_of_emitted (fetched : gmap string Raw.t) :
  new_breakdown_of fetched =
  emitted (map_imap (fun date data => Some (daily_entry date data)) fetched).
Proof.
  unfold new_breakdown_of. destruct (decide (fetched = ∅)) as [->|_].
  - reflexivity.
  - apply process_analytics_data_emitted.
Qed.

Lemma merge_breakdown_by_map (prior : list Daily.t) (fetched : gmap string Raw.t) :
  merge_breakdown prior (new_breakdown_of fetched) = merge_by_map prior fetched.
Proof.
  rewrite merge_breakdown_emitted. unfold merge_by_map, overwritten. f_equal.
  rewrite seeded_app, new_breakdown_of_emitted, seeded_emitted by apply imap_dated.
  reflexivity.
Qed.

(** ** Totals *)

Section SumFacts.
Context (field : Daily.t -> Z).

Lemma sum_of_from (acc : Z) (l : list Daily.t) :
  foldl (fun acc item => acc + field item) acc l = acc + sum_of field l.
Proof.
  unfold sum_of. revert acc. induction l as [|x l IH]; intros acc; simpl; [lia|].
  rewrite IH, (IH (0 + field x)). lia.
Qed.

Lemma sum_of_cons (x : Daily.t) (l : list Daily.t) :
  sum_of field (x :: l) = field x + sum_of field l.
Proof. unfold sum_of at 1. simpl. rewrite sum_of_from. lia. Qed.

Lemma sum_of_app (a b : list Daily.t) :
  sum_of field (a ++ b) = sum_of field a + sum_of field b.
Proof.
  induction a as [|x a IH]; simpl; [reflexivity|].
  rewrite !sum_of_cons, IH. lia.
Qed.

Lemma sum_of_Permutation (a b : list Daily.t) :
  a ≡ₚ b -> sum_of field a = sum_of field b.
Proof.
  induction 1 as [|x a b _ IH|x y a|a b c _ IH1 _ IH2];
    rewrite ?sum_of_cons; try congruence; lia.
Qed.
End SumFacts.

Lemma article_data_of_consistent (article : Article.t) (breakdown : list Daily.t) :
  totals_consistent (article_data_of article breakdown).
Proof. repeat split. Qed.

(** ** The course of [process_article] *)

Lemma fetch_article_analytics_eq (self : fetcher) (net : network) (article_id : Z)
    (start_date end_date : string) (w : world) :
  fetch_article_analytics self net article_id start_date end_date w =
  (Val (match historical net (api_key self) article_id start_date end_date with
        | Body analytics => analytics
        | _ => ∅
        end),
   with_request (article_id, start_date, end_date) w).
Proof.
  unfold fetch_article_analytics, bind, log_request, try_except, http_json.
  destruct (historical net (api_key self) article_id start_date end_date); reflexivity.
Qed.

(** [process_article] is its plan followed by the merge and the write. *)
Lemma process_article_eq (self : fetcher) (net : network) (article : Article.t) (w : world) :
  let stem := article_stem (Article.id article) (Article.slug article) in
  process_article self net article w =
  match plan_of self (published_date article) (Py.get stem (articles_dir w)) with
  | Fetch start_date existing_data =>
      (Val tt,
       with_article stem
         (article_data_of article
            (merge_breakdown (breakdown_of existing_data)
               (new_breakdown_of (response_of self net (Article.id article) start_date))))
         (with_request (Article.id article, start_date, today self) w))
  | Skip existing_data =>
      (Val tt,
       with_article stem
         (article_data_of article (merge_breakdown (breakdown_of existing_data) [])) w)
  | Crash e => (Raise e, w)
  end.
Proof.
  intros stem. unfold process_article. fold stem.
  unfold bind at 1. unfold stat_file.
  destruct (Py.get stem (articles_dir w)) as [[| | | |data]|]; simpl;
    try (unfold bind, try_except; simpl; rewrite ?fetch_article_analytics_eq;
         reflexivity).
  unfold try_except, bind at 1 2. simpl. unfold continue_from_last.
  destruct (Py.max Py.str_le Daily.date (breakdown_of data)) as [last|]; simpl.
  - unfold get_next_date.
    destruct (Calendar.strptime (Daily.date last)) as [d|];
      [|destruct (from_second_last_day self); reflexivity].
    destruct (from_second_last_day self); simpl.
    + unfold bind at 1 2 3. simpl.
      destruct (Calendar.sub_one_day d) as [dp|]; simpl; [|reflexivity].
      destruct (Py.str_le (Calendar.strftime dp) (today self)); simpl;
        [|reflexivity].
      unfold bind. rewrite fetch_article_analytics_eq. reflexivity.
    + unfold bind at 1 2 3 4. simpl.
      destruct (Calendar.add_one_day d) as [dn|]; simpl; [|reflexivity].
      destruct (Py.str_le (Calendar.strftime dn) (today self)); simpl;
        [|reflexivity].
      unfold bind. rewrite fetch_article_analytics_eq. reflexivity.
  - unfold bind. rewrite fetch_article_analytics_eq. reflexivity.
Qed.

(** ** Calendar dates and their text *)

Lemma strptime_valid (s : string) (d : Calendar.date) :
  Calendar.strptime s = Some d -> Calendar.valid d = true.
Proof.
  unfold Calendar.strptime.
  destruct (Calendar.parse_year s) as [[y [|c s1]]|]; try discriminate.
  destruct (Calendar.is_dash c); try discriminate.
  destruct (Calendar.parse_month s1) as [[m s2]|]; try discriminate.
  destruct (Calendar.parse_day s2) as [n|]; try discriminate.
  destruct (Calendar.valid (Calendar.mkdate y m n)) eqn:E; try discriminate.
  intros [= <-]. exact E.
Qed.

Lemma is_iso_inv (s : string) :
  Calendar.is_iso s = true ->
  exists d, Calendar.strptime s = Some d /\ Calendar.valid d = true /\
            Calendar.isoformat d = s.
Proof.
  unfold Calendar.is_iso. destruct (Calendar.strptime s) as [d|] eqn:E; [|discriminate].
  intros H. apply String.eqb_eq in H. exists d.
  split; [reflexivity|]. split; [eapply strptime_valid; exact E|exact H].
Qed.

Lemma valid_inv (d : Calendar.date) :
  Calendar.valid d = true ->
  1 <= Calendar.year d <= 9999 /\ 1 <= Calendar.month d <= 12 /\
  1 <= Calendar.day d <= Calendar.days_in_month (Calendar.year d) (Calendar.month d).
Proof. unfold Calendar.valid. rewrite !andb_true_iff, !Z.leb_le. lia. Qed.

Lemma days_in_month_bounds (y m : Z) : 28 <= Calendar.days_in_month y m <= 31.
Proof.
  unfold Calendar.days_in_month.
  destruct (m =? 2); [destruct (Calendar.is_leap y); lia|].
  destruct ((m =? 4) || (m =? 6) || (m =? 9) || (m =? 11)); lia.
Qed.

Lemma digit_compare (x y : Z) :
  0 <= x <= 9 -> 0 <= y <= 9 ->
  Ascii.compare (Calendar.digit x) (Calendar.digit y) = (x ?= y).
Proof.
  intros Hx Hy. unfold Ascii.compare, Calendar.digit.
  rewrite !N_ascii_embedding by lia.
  rewrite <- N2Z.inj_compare, !N2Z.inj_add, !Z2N.id by lia.
  apply Z.add_compare_mono_l.
Qed.

(** Comparing two numbers digit by digit, most significant first. *)
Lemma compare_four_digits (y y' : Z) :
  0 <= y <= 9999 -> 0 <= y' <= 9999 ->
  (y ?= y') =
  match y / 1000 ?= y' / 1000 with
  | Eq => match y / 100 mod 10 ?= y' / 100 mod 10 with
          | Eq => match y / 10 mod 10 ?= y' / 10 mod 10 with
                  | Eq => y mod 10 ?= y' mod 10
                  | c => c
                  end
          | c => c
          end
  | c => c
  end.
Proof.
  intros Hy Hy'.
  destruct (Z.compare_spec (y / 1000) (y' / 1000));
    [destruct (Z.compare_spec (y / 100 mod 10) (y' / 100 mod 10));
       [destruct (Z.compare_spec (y / 10 mod 10) (y' / 10 mod 10));
          [destruct (Z.compare_spec (y mod 10) (y' mod 10))|..]|..]|..];
    first [apply Z.compare_eq_iff | apply Z.compare_lt_iff | apply Z.compare_gt_iff];
    Z.div_mod_to_equations; lia.
Qed.

Lemma compare_two_digits (m m' : Z) :
  0 <= m <= 99 -> 0 <= m' <= 99 ->
  (m ?= m') =
  match m / 10 ?= m' / 10 with
  | Eq => m mod 10 ?= m' mod 10
  | c => c
  end.
Proof.
  intros Hm Hm'.
  destruct (Z.compare_spec (m / 10) (m' / 10));
    [destruct (Z.compare_spec (m mod 10) (m' mod 10))|..];
    first [apply Z.compare_eq_iff | apply Z.compare_lt_iff | apply Z.compare_gt_iff];
    Z.div_mod_to_equations; lia.
Qed.

(** On dates in ISO form the order of the texts is the order of the days. *)
Lemma isoformat_compare (a b : Calendar.date) :
  Calendar.valid a = true -> Calendar.valid b = true ->
  String.compare (Calendar.isoformat a) (Calendar.isoformat b) = Calendar.compare a b.
Proof.
  intros Ha Hb. apply valid_inv in Ha, Hb.
  pose proof (days_in_month_bounds (Calendar.year a) (Calendar.month a)).
  pose proof (days_in_month_bounds (Calendar.year b) (Calendar.month b)).
  unfold Calendar.isoformat, Calendar.compare. cbn [String.compare].
  rewrite !digit_compare by (Z.div_mod_to_equations; lia).
  rewrite !ascii_compare_refl.
  rewrite (compare_four_digits (Calendar.year a) (Calendar.year b)) by lia.
  rewrite (compare_two_digits (Calendar.month a) (Calendar.month b)) by lia.
  rewrite (compare_two_digits (Calendar.day a) (Calendar.day b)) by lia.
  repeat match goal with
         | |- context [match ?c with Eq => _ | Lt => _ | Gt => _ end] =>
             is_var c; destruct c
         | |- context [?x ?= ?y] =>
             let c := fresh "c" in set (c := x ?= y); clearbody c
         end; reflexivity.
Qed.

Lemma calendar_compare_lt_iff (a b : Calendar.date) :
  Calendar.compare a b = Lt <->
  Calendar.year a < Calendar.year b \/
  (Calendar.year a = Calendar.year b /\
   (Calendar.month a < Calendar.month b \/
    (Calendar.month a = Calendar.month b /\ Calendar.day a < Calendar.day b))).
Proof.
  unfold Calendar.compare.
  destruct (Z.compare_spec (Calendar.year a) (Calendar.year b));
    [destruct (Z.compare_spec (Calendar.month a) (Calendar.month b));
       [rewrite Z.compare_lt_iff|..]|..];
    split; try discriminate; try reflexivity; lia.
Qed.

Lemma calendar_compare_le_iff (a b : Calendar.date) :
  Calendar.compare a b <> Gt <->
  Calendar.year a < Calendar.year b \/
  (Calendar.year a = Calendar.year b /\
   (Calendar.month a < Calendar.month b \/
    (Calendar.month a = Calendar.month b /\ Calendar.day a <= Calendar.day b))).
Proof.
  unfold Calendar.compare.
  destruct (Z.compare_spec (Calendar.year a) (Calendar.year b));
    [destruct (Z.compare_spec (Calendar.month a) (Calendar.month b));
       [rewrite Z.compare_le_iff|..]|..];
    split; try discriminate; try congruence; lia.
Qed.

Lemma valid_iff (d : Calendar.date) :
  Calendar.valid d = true <->
  1 <= Calendar.year d <= 9999 /\ 1 <= Calendar.month d <= 12 /\
  1 <= Calendar.day d <= Calendar.days_in_month (Calendar.year d) (Calendar.month d).
Proof. unfold Calendar.valid. rewrite !andb_true_iff, !Z.leb_le. lia. Qed.

Lemma add_one_day_spec (d t : Calendar.date) :
  Calendar.valid d = true -> Calendar.valid t = true ->
  Calendar.compare d t = Lt ->
  exists n, Calendar.add_one_day d = Some n /\ Calendar.valid n = true /\
            Calendar.compare n t <> Gt.
Proof.
  rewrite !valid_iff, calendar_compare_lt_iff. intros Vd Vt Hlt.
  destruct d as [y m n], t as [y' m' n']. cbn in Vd, Vt, Hlt.
  pose proof (days_in_month_bounds y m).
  pose proof (days_in_month_bounds y (m + 1)).
  pose proof (days_in_month_bounds (y + 1) 1).
  assert (y = y' -> m = m' ->
          Calendar.days_in_month y' m' = Calendar.days_in_month y m)
    by (intros; subst; reflexivity).
  unfold Calendar.add_one_day. cbn [Calendar.year Calendar.month Calendar.day].
  destruct (Z.ltb_spec n (Calendar.days_in_month y m));
    [|destruct (Z.ltb_spec m 12); [|destruct (Z.ltb_spec y 9999); [|lia]]];
    (eexists; split; [reflexivity|]);
    rewrite valid_iff, calendar_compare_le_iff;
    cbn [Calendar.year Calendar.month Calendar.day]; lia.
Qed.


(** Ordinary dates parse, and have both neighbours. *)
Lemma ordinary_date_inv (s : string) :
  ordinary_date s = true ->
  exists d n p, Calendar.strptime s = Some d /\ Calendar.valid d = true /\
                Calendar.isoformat d = s /\
                Calendar.add_one_day d = Some n /\ Calendar.sub_one_day d = Some p.
Proof.
  unfold ordinary_date. rewrite !andb_true_iff, !negb_true_iff, !String.eqb_neq.
  intros [[Hiso Hmin] Hmax].
  destruct (is_iso_inv _ Hiso) as (d & Hp & Hv & Hf).
  pose proof (valid_inv _ Hv) as V.
  pose proof (days_in_month_bounds (Calendar.year d) (Calendar.month d)).
  destruct d as [y m n]. simpl in *.
  assert (Hn : exists x, Calendar.add_one_day (Calendar.mkdate y m n) = Some x).
  { unfold Calendar.add_one_day. simpl.
    destruct (Z.ltb_spec n (Calendar.days_in_month y m)); [eauto|].
    destruct (Z.ltb_spec m 12); [eauto|].
    destruct (Z.ltb_spec y 9999); [eauto|].
    exfalso. apply Hmax. rewrite <- Hf.
    assert (y = 9999) as -> by lia. assert (m = 12) as -> by lia.
    change (Calendar.days_in_month 9999 12) with 31 in *.
    assert (n = 31) as -> by lia. reflexivity. }
  assert (Hb : exists x, Calendar.sub_one_day (Calendar.mkdate y m n) = Some x).
  { unfold Calendar.sub_one_day. simpl.
    destruct (Z.ltb_spec 1 n); [eauto|].
    destruct (Z.ltb_spec 1 m); [eauto|].
    destruct (Z.ltb_spec 1 y); [eauto|].
    exfalso. apply Hmin. rewrite <- Hf.
    assert (y = 1) as -> by lia. assert (m = 1) as -> by lia.
    assert (n = 1) as -> by lia. reflexivity. }
  destruct Hn as [x Hx], Hb as [x' Hx']. exists (Calendar.mkdate y m n), x, x'. auto.
Qed.

Lemma digit_value_digit (k : Z) :
  0 <= k <= 9 -> Calendar.digit_value (Calendar.digit k) = Some k.
Proof.
  intros Hk. unfold Calendar.digit_value, Calendar.digit.
  rewrite N_ascii_embedding by lia.
  replace ((48 <=? 48 + Z.to_N k)%N && (48 + Z.to_N k <=? 57)%N) with true.
  - f_equal. lia.
  - symmetry. apply andb_true_iff. split; apply N.leb_le; lia.
Qed.

Lemma digit_not_dash (k : Z) : 0 <= k <= 9 -> Calendar.is_dash (Calendar.digit k) = false.
Proof.
  intros Hk. assert (H : k = 0 \/ k = 1 \/ k = 2 \/ k = 3 \/ k = 4 \/ k = 5 \/
                         k = 6 \/ k = 7 \/ k = 8 \/ k = 9) by lia.
  repeat (destruct H as [->|H]; [reflexivity|]). subst. reflexivity.
Qed.

Lemma digit_not_space (k : Z) : 0 <= k <= 9 -> Ascii.eqb (Calendar.digit k) " " = false.
Proof.
  intros Hk. assert (H : k = 0 \/ k = 1 \/ k = 2 \/ k = 3 \/ k = 4 \/ k = 5 \/
                         k = 6 \/ k = 7 \/ k = 8 \/ k = 9) by lia.
  repeat (destruct H as [->|H]; [reflexivity|]). subst. reflexivity.
Qed.

(** The text of the data model for a day, [strptime] reads back as that
    day. *)
Lemma strptime_isoformat (d : Calendar.date) :
  Calendar.valid d = true -> Calendar.strptime (Calendar.isoformat d) = Some d.
Proof.
  intros Hv. pose proof (proj1 (valid_iff d) Hv) as V.
  pose proof (days_in_month_bounds (Calendar.year d) (Calendar.month d)).
  destruct d as [y m n]. cbn [Calendar.year Calendar.month Calendar.day] in *.
  unfold Calendar.strptime, Calendar.isoformat, Calendar.parse_year.
  cbn [Calendar.year Calendar.month Calendar.day].
  rewrite !digit_value_digit by (Z.div_mod_to_equations; lia).
  change (Calendar.is_dash "-") with true. cbv iota.
  unfold Calendar.parse_month.
  rewrite (digit_not_dash (m mod 10)) by (Z.div_mod_to_equations; lia).
  rewrite !digit_value_digit by (Z.div_mod_to_equations; lia).
  change (Calendar.is_dash "-") with true. cbn [andb].
  replace (10 * (m / 10) + m mod 10) with m by (Z.div_mod_to_equations; lia).
  replace ((1 <=? m) && (m <=? 12)) with true
    by (symmetry; apply andb_true_iff; split; apply Z.leb_le; lia).
  cbv iota. unfold Calendar.parse_day.
  rewrite !digit_value_digit by (Z.div_mod_to_equations; lia).
  rewrite (digit_not_space (n / 10)) by (Z.div_mod_to_equations; lia).
  replace (10 * (n / 10) + n mod 10) with n by (Z.div_mod_to_equations; lia).
  replace ((1 <=? n) && (n <=? 31)) with true
    by (symmetry; apply andb_true_iff; split; apply Z.leb_le; lia).
  replace (1000 * (y / 1000) + 100 * (y / 100 mod 10) + 10 * (y / 10 mod 10) + y mod 10)
    with y by (Z.div_mod_to_equations; lia).
  rewrite Hv. reflexivity.
Qed.

Lemma isoformat_is_iso (d : Calendar.date) :
  Calendar.valid d = true -> Calendar.is_iso (Calendar.isoformat d) = true.
Proof.
  intros Hv. unfold Calendar.is_iso. rewrite strptime_isoformat by exact Hv.
  apply String.eqb_refl.
Qed.

Lemma add_one_day_None (d : Calendar.date) :
  Calendar.valid d = true ->
  Calendar.add_one_day d = None -> d = Calendar.mkdate 9999 12 31.
Proof.
  rewrite valid_iff. intros V. destruct d as [y m n]. cbn in V.
  unfold Calendar.add_one_day. cbn [Calendar.year Calendar.month Calendar.day].
  destruct (Z.ltb_spec n (Calendar.days_in_month y m)); [discriminate|].
  destruct (Z.ltb_spec m 12); [discriminate|].
  destruct (Z.ltb_spec y 9999); [discriminate|]. intros _.
  assert (y = 9999) as -> by lia. assert (m = 12) as -> by lia.
  change (Calendar.days_in_month 9999 12) with 31 in *.
  assert (n = 31) as -> by lia. reflexivity.
Qed.

Lemma add_one_day_later (d n : Calendar.date) :
  Calendar.valid d = true -> Calendar.add_one_day d = Some n -> Calendar.compare d n = Lt.
Proof.
  rewrite valid_iff, calendar_compare_lt_iff. intros V. destruct d as [y m k]. cbn in V.
  unfold Calendar.add_one_day. cbn [Calendar.year Calendar.month Calendar.day].
  destruct (Z.ltb_spec k (Calendar.days_in_month y m));
    [|destruct (Z.ltb_spec m 12); [|destruct (Z.ltb_spec y 9999)]];
    intros [= <-]; cbn [Calendar.year Calendar.month Calendar.day]; lia.
Qed.

Lemma add_one_day_valid (d n : Calendar.date) :
  Calendar.valid d = true -> Calendar.add_one_day d = Some n -> Calendar.valid n = true.
Proof.
  rewrite !valid_iff. intros Vd. destruct d as [y m k]. cbn in Vd.
  pose proof (days_in_month_bounds y (m + 1)).
  pose proof (days_in_month_bounds (y + 1) 1).
  unfold Calendar.add_one_day. cbn [Calendar.year Calendar.month Calendar.day].
  destruct (Z.ltb_spec k (Calendar.days_in_month y m));
    [|destruct (Z.ltb_spec m 12); [|destruct (Z.ltb_spec y 9999)]];
    intros [= <-]; cbn [Calendar.year Calendar.month Calendar.day]; lia.
Qed.

(** From year 1000 on, [strftime] prints the form of the data model. *)
Lemma strftime_isoformat (d : Calendar.date) :
  1000 <= Calendar.year d -> Calendar.strftime d = Calendar.isoformat d.
Proof.
  intros H. unfold Calendar.strftime, Calendar.year_text, Calendar.isoformat.
  destruct (Z.ltb_spec (Calendar.year d) 10); [lia|].
  destruct (Z.ltb_spec (Calendar.year d) 100); [lia|].
  destruct (Z.ltb_spec (Calendar.year d) 1000); [lia|]. reflexivity.
Qed.

(** Before year 1000 its text begins with a digit other than 0, where the
    data model has a 0. *)
Lemma strftime_early_head (d : Calendar.date) :
  Calendar.valid d = true -> Calendar.year d < 1000 ->
  exists k rest, 1 <= k <= 9 /\ Calendar.strftime d = String (Calendar.digit k) rest.
Proof.
  intros Hv Hy. apply valid_inv in Hv as (Y & _).
  unfold Calendar.strftime, Calendar.year_text.
  destruct (Z.ltb_spec (Calendar.year d) 10).
  { eexists _, _. split; [|reflexivity]. lia. }
  destruct (Z.ltb_spec (Calendar.year d) 100).
  { eexists _, _. split; [|reflexivity]. Z.div_mod_to_equations. lia. }
  destruct (Z.ltb_spec (Calendar.year d) 1000); [|lia].
  eexists _, _. split; [|reflexivity]. Z.div_mod_to_equations. lia.
Qed.

Lemma isoformat_early_head (d : Calendar.date) :
  Calendar.valid d = true -> Calendar.year d < 1000 ->
  exists rest, Calendar.isoformat d = String (Calendar.digit 0) rest.
Proof.
  intros Hv Hy. apply valid_inv in Hv as (Y & _). unfold Calendar.isoformat.
  replace (Calendar.year d / 1000) with 0 by (Z.div_mod_to_equations; lia).
  eexists. reflexivity.
Qed.

Lemma add_one_day_year (d n : Calendar.date) :
  Calendar.add_one_day d = Some n -> Calendar.year d <= Calendar.year n.
Proof.
  unfold Calendar.add_one_day.
  destruct (_ <? _); [intros [= <-]; simpl; lia|].
  destruct (_ <? _); [intros [= <-]; simpl; lia|].
  destruct (_ <? _); [intros [= <-]; simpl; lia|discriminate].
Qed.

(** A day in the form of the data model sorts, as text, before what
    [strftime] prints for a later day, whatever the years. *)
Lemma isoformat_lt_strftime (a b : Calendar.date) :
  Calendar.valid a = true -> Calendar.valid b = true ->
  Calendar.compare a b = Lt ->
  Py.str_lt (Calendar.isoformat a) (Calendar.strftime b) = true.
Proof.
  intros Ha Hb Hlt. apply str_lt_compare.
  destruct (Z.lt_ge_cases (Calendar.year b) 1000) as [Hy|Hy].
  - assert (Hya : Calendar.year a < 1000).
    { apply calendar_compare_lt_iff in Hlt. lia. }
    destruct (isoformat_early_head a Ha Hya) as (ra & ->).
    destruct (strftime_early_head b Hb Hy) as (k & rb & Hk & ->).
    cbn [String.compare]. rewrite digit_compare by lia.
    destruct (Z.compare_spec 0 k); try lia. reflexivity.
  - rewrite strftime_isoformat by lia. rewrite isoformat_compare by assumption.
    exact Hlt.
Qed.

(** What [strftime] prints for a year below 1000, [strptime] does not
    read. *)
Lemma strptime_strftime_early (d : Calendar.date) :
  Calendar.valid d = true -> Calendar.year d < 1000 ->
  Calendar.strptime (Calendar.strftime d) = None.
Proof.
  intros Hv Hy. apply valid_inv in Hv as (Y & _).
  unfold Calendar.strftime, Calendar.year_text.
  set (y := Calendar.year d) in *.
  destruct (Z.ltb_spec y 10); [|destruct (Z.ltb_spec y 100);
    [|destruct (Z.ltb_spec y 1000); [|lia]]];
    unfold Calendar.strptime, Calendar.parse_year.
  - rewrite (digit_value_digit y) by lia. reflexivity.
  - rewrite (digit_value_digit (y / 10)), (digit_value_digit (y mod 10))
      by (Z.div_mod_to_equations; lia).
    reflexivity.
  - rewrite (digit_value_digit (y / 100)), (digit_value_digit (y / 10 mod 10)),
      (digit_value_digit (y mod 10)) by (Z.div_mod_to_equations; lia).
    reflexivity.
Qed.

Lemma strptime_strftime_late (d : Calendar.date) :
  Calendar.valid d = true -> 1000 <= Calendar.year d ->
  Calendar.strptime (Calendar.strftime d) = Some d.
Proof.
  intros Hv Hy. rewrite strftime_isoformat by exact Hy. apply strptime_isoformat, Hv.
Qed.

(** ** [max] *)

Section MaxFacts.
Context {A K : Type} (le : K -> K -> bool) `{Hord : !Py.KeyOrder le} (key : A -> K).

Lemma max_from_spec (best : A) (l : list A) :
  let r := Py.max_from le key best l in
  r ∈ best :: l /\ Forall (fun y => le (key y) (key r) = true) (best :: l).
Proof.
  revert best. induction l as [|x l IH]; intros best; simpl.
  - split; [apply list_elem_of_here|]. constructor; [|constructor].
    destruct (Py.key_total (key best) (key best)); assumption.
  - destruct (le (key x) (key best)) eqn:E.
    + destruct (IH best) as [Hin Hall]. split.
      * apply elem_of_cons in Hin as [->|Hin]; [apply list_elem_of_here|].
        apply list_elem_of_further, list_elem_of_further. exact Hin.
      * apply Forall_cons in Hall as [Hb Hall].
        constructor; [exact Hb|]. constructor; [|exact Hall].
        eapply Py.key_trans; eassumption.
    + destruct (IH x) as [Hin Hall]. split.
      * apply list_elem_of_further. exact Hin.
      * apply Forall_cons in Hall as [Hx Hall].
        constructor; [|constructor; assumption].
        eapply Py.key_trans; [|exact Hx].
        destruct (Py.key_total (key x) (key best)) as [Hle|Hle]; [congruence|exact Hle].
Qed.

(** [max] returns an element no other element exceeds. *)
Lemma max_spec (l : list A) (x : A) :
  Py.max le key l = Some x ->
  x ∈ l /\ forall y, y ∈ l -> le (key y) (key x) = true.
Proof.
  destruct l as [|a l]; simpl; [discriminate|]. intros [= <-].
  destruct (max_from_spec a l) as [Hin Hall]. split; [exact Hin|].
  apply Forall_forall. exact Hall.
Qed.

Lemma max_None (l : list A) : Py.max le key l = None <-> l = [].
Proof. destruct l; simpl; split; congruence. Qed.
End MaxFacts.

(** ** The planner *)

Section PlanFacts.
Context (self : fetcher) (published_at : string) (data : ArticleData.t)
        (last : Daily.t) (d : Calendar.date).
Context (Hlast : Py.max Py.str_le Daily.date (breakdown_of data) = Some last).
Context (Hd : Calendar.strptime (Daily.date last) = Some d).
Context (Hiso : Calendar.is_iso (Daily.date last) = true).
Context (Htoday : Calendar.is_iso (today self) = true).




End PlanFacts.

(** ** The aggregation of [update_account_stats] *)

Lemma get_setitem_eq {V} (d : list (string * V)) (k : string) (v : V) :
  Py.get k (Py.setitem k v d) = Some v.
Proof. rewrite get_lookup, setitem_insert. apply lookup_insert_eq. Qed.

Lemma sum_values_setitem (field : Daily.t -> Z) (d : list (string * Daily.t))
    (k : string) (v : Daily.t) :
  sum_of field (Py.values (Py.setitem k v d)) =
  sum_of field (Py.values d)
  - match Py.get k d with Some e => field e | None => 0 end
  + field v.
Proof.
  unfold Py.values. induction d as [|[k' v'] d IH]; csimpl.
  - rewrite sum_of_cons. unfold sum_of. simpl. lia.
  - destruct (String.eqb_spec k' k) as [->|Hne]; csimpl; rewrite !sum_of_cons.
    + lia.
    + rewrite IH. lia.
Qed.

Section FieldFacts.
Context (field : Daily.t -> Z).
Context (field_zero : forall date, field (Daily.zero date) = 0).
Context (field_add : forall e item, field (Daily.add e item) = field e + field item).

Lemma sum_aggregate_item (agg : list (string * Daily.t)) (item : Daily.t) :
  sum_of field (Py.values (aggregate_item agg item)) =
  sum_of field (Py.values agg) + field item.
Proof using field_zero field_add.
  unfold aggregate_item.
  destruct (Py.get (Daily.date item) agg) as [e|] eqn:E.
  - rewrite E, sum_values_setitem, E, field_add. lia.
  - rewrite get_setitem_eq, !sum_values_setitem, get_setitem_eq, E.
    rewrite field_add, field_zero. lia.
Qed.

Lemma sum_aggregate_fold (l : list Daily.t) (agg : list (string * Daily.t)) :
  sum_of field (Py.values (foldl aggregate_item agg l)) =
  sum_of field (Py.values agg) + sum_of field l.
Proof using field_zero field_add.
  revert agg. induction l as [|x l IH]; intros agg; simpl.
  - unfold sum_of at 3. simpl. lia.
  - rewrite IH, sum_aggregate_item, sum_of_cons. lia.
Qed.

(** Aggregation keeps the grand total of every count. *)
Lemma sum_aggregate_by_date (l : list Daily.t) :
  sum_of field (aggregate_by_date l) = sum_of field l.
Proof using field_zero field_add.
  unfold aggregate_by_date. simpl.
  rewrite (sum_of_Permutation field _ _ (sorted_Permutation Py.str_le Daily.date _)).
  rewrite sum_aggregate_fold. reflexivity.
Qed.
End FieldFacts.














(** The scan, as sums and a union over the records that parse. *)
Lemma scan_files_from (dir : list (string * file)) (acc : scan) :
  foldl scan_file acc dir =
  mkscan (total_views acc + total_of ArticleData.views (valid_records dir))
         (total_comments acc + total_of ArticleData.comments (valid_records dir))
         (total_reactions acc + total_of ArticleData.reactions (valid_records dir))
         (all_breakdowns acc ++ joined (valid_records dir)).
Proof.
  revert acc. induction dir as [|[name f] dir IH]; intros [tv tc tr all]; simpl.
  - rewrite !Z.add_0_r, app_nil_r. reflexivity.
  - rewrite IH. unfold scan_file. destruct f as [| | | |data]; csimpl; try reflexivity.
    rewrite <- app_assoc. f_equal; lia.
Qed.

Lemma scan_files_eq (dir : list (string * file)) :
  scan_files dir =
  mkscan (total_of ArticleData.views (valid_records dir))
         (total_of ArticleData.comments (valid_records dir))
         (total_of ArticleData.reactions (valid_records dir))
         (joined (valid_records dir)).
Proof. unfold scan_files. rewrite scan_files_from. reflexivity. Qed.

(** The scan of the code ends at the first file it cannot read, and
    otherwise accumulates the documents. *)
Lemma for_files_scan_step (dir : list (string * file)) (acc : scan) (w : world) :
  for_files scan_step acc dir w =
  match scan_error dir with
  | Some e => (Raise e, w)
  | None => (Val (foldl scan_file acc dir), w)
  end.
Proof.
  revert acc. induction dir as [|[name f] dir IH]; intros acc; [reflexivity|].
  cbn [for_files scan_error foldl]. unfold bind.
  destruct f; unfold scan_step, scan_file, try_except, bind; simpl;
    try apply IH; reflexivity.
Qed.

Lemma update_account_stats_eq (articles : list Article.t) (w : world) :
  update_account_stats articles w =
  match scan_error (articles_dir w) with
  | Some e => (Raise e, w)
  | None =>
      (Val tt, mkworld (articles_dir w)
                       (Some (account_data (articles_dir w) articles (username w)))
                       (top_articles_json w) (username w) (requests w))
  end.
Proof.
  unfold update_account_stats, bind, get_world. rewrite for_files_scan_step.
  destruct (scan_error (articles_dir w)); reflexivity.
Qed.







Lemma total_of_consistent (records : list ArticleData.t) :
  Forall totals_consistent records ->
  total_of ArticleData.views records = sum_of Daily.views (joined records) /\
  total_of ArticleData.comments records = sum_of Daily.comments (joined records) /\
  total_of ArticleData.reactions records = sum_of Daily.reactions (joined records).
Proof.
  induction 1 as [|data records (Hv & Hc & Hr) _ (IHv & IHc & IHr)]; simpl.
  - repeat split.
  - rewrite !sum_of_app. repeat split; congruence.
Qed.

(** ** The rankings of [create_top_articles] *)

Lemma article_stats_from (dir : list (string * file)) (acc : list Stat.t) :
  foldl (fun article_stats entry =>
           match article_stat entry with
           | Some item => article_stats ++ [item]
           | None => article_stats
           end) acc dir = acc ++ omap article_stat dir.
Proof.
  revert acc. induction dir as [|entry dir IH]; intros acc; csimpl.
  - rewrite app_nil_r. reflexivity.
  - rewrite IH. destruct (article_stat entry); [|reflexivity].
    rewrite <- app_assoc. reflexivity.
Qed.

Lemma for_files_stat_step (dir : list (string * file)) (acc : list Stat.t) (w : world) :
  for_files stat_step acc dir w =
  match scan_error dir with
  | Some e => (Raise e, w)
  | None => (Val (acc ++ omap article_stat dir), w)
  end.
Proof.
  revert acc. induction dir as [|[name f] dir IH]; intros acc.
  - simpl. rewrite app_nil_r. reflexivity.
  - cbn [for_files scan_error]. unfold bind.
    destruct f; unfold stat_step, try_except, bind; simpl;
      try apply IH; try reflexivity.
    rewrite IH. destruct (scan_error dir); [reflexivity|].
    unfold article_stat at 2. csimpl. rewrite <- app_assoc. reflexivity.
Qed.

Lemma create_top_articles_eq (w : world) :
  create_top_articles w =
  match scan_error (articles_dir w) with
  | Some e => (Raise e, w)
  | None =>
      (Val tt, mkworld (articles_dir w) (account_json w)
                       (Some (top_articles (articles_dir w)))
                       (username w) (requests w))
  end.
Proof.
  unfold create_top_articles, bind, get_world. rewrite for_files_stat_step.
  destruct (scan_error (articles_dir w)); [reflexivity|].
  unfold top_articles, article_stats. rewrite article_stats_from. reflexivity.
Qed.






(** ** Failed fetches, unreadable files, normalisation *)

Lemma response_of_fails (self : fetcher) (net : network) (article_id : Z)
    (start_date : string) :
  fetch_fails (historical net (api_key self) article_id start_date (today self)) ->
  response_of self net article_id start_date = ∅.
Proof.
  unfold response_of, fetch_fails.
  destruct (historical net (api_key self) article_id start_date (today self));
    intros H; try reflexivity. contradiction.
Qed.

(** With ordinary dates the date arithmetic of the planner succeeds. *)
Lemma plan_of_well_dated (self : fetcher) (published_at : string) (f : option file) :
  well_dated f -> forall e, plan_of self published_at f <> Crash e.
Proof.
  intros Hw e. unfold plan_of.
  destruct f as [[| | | |data]|]; try discriminate; try contradiction.
  simpl in Hw.
  destruct (Py.max Py.str_le Daily.date (breakdown_of data)) as [last|] eqn:E;
    [|discriminate].
  apply (max_spec Py.str_le Daily.date) in E as [Hin _].
  rewrite Forall_forall in Hw.
  destruct (ordinary_date_inv _ (Hw _ Hin)) as (d & n & p & -> & _ & _ & -> & ->).
  simpl. destruct (from_second_last_day self).
  - destruct (Py.str_le (Calendar.strftime p) (today self)); discriminate.
  - destruct (Py.str_le (Calendar.strftime n) (today self)); discriminate.
Qed.

(** In normal mode the history merged into is the stored one. *)
Lemma plan_of_normal (self : fetcher) (published_at : string) (data : ArticleData.t) :
  from_second_last_day self = false ->
  match plan_of self published_at (Some (Json data)) with
  | Fetch _ existing_data => existing_data = data
  | Skip existing_data => existing_data = data
  | Crash _ => True
  end.
Proof.
  intros Hmode. unfold plan_of. rewrite Hmode.
  destruct (Py.max Py.str_le Daily.date (breakdown_of data)); [|reflexivity].
  simpl. destruct (Calendar.strptime _); [|exact I].
  destruct (Calendar.add_one_day _); [|exact I].
  destruct (Py.str_le _ _); reflexivity.
Qed.

(** An ascending breakdown is its own normal form. *)
Lemma emitted_seeded_ascending (l : list Daily.t) : ascending l -> emitted (seeded l) = l.
Proof.
  intros Ha. pose proof (ascending_NoDup l Ha) as Hn.
  rewrite <- (sorted_id Py.str_le Daily.date l) at 2 by (apply ascending_Sorted; exact Ha).
  unfold emitted. symmetry. apply (sorted_unique Py.str_le); [|exact Hn].
  apply NoDup_Permutation.
  - apply (NoDup_fmap_1 Daily.date). exact Hn.
  - apply (NoDup_fmap_1 Daily.date). apply entries_dates_NoDup, seeded_dated.
  - intros v. rewrite list_elem_of_fmap. split.
    + intros Hin. exists (Daily.date v, v). split; [reflexivity|].
      apply elem_of_map_to_list. apply seeded_lookup_Some; auto.
    + intros ([k v'] & -> & Hin). apply elem_of_map_to_list in Hin.
      apply seeded_lookup_Some in Hin as [Hin _]; auto.
Qed.

Lemma merge_nothing (l : list Daily.t) : merge_breakdown l [] = emitted (seeded l).
Proof. rewrite merge_breakdown_emitted, app_nil_r. reflexivity. Qed.

(** Normal mode keeps an ascending history through a failed fetch. *)
Lemma failed_fetch_keeps_history (self : fetcher) (net : network) (article : Article.t)
    (w : world) (data : ArticleData.t) :
  let stem := article_stem (Article.id article) (Article.slug article) in
  from_second_last_day self = false ->
  Py.get stem (articles_dir w) = Some (Json data) ->
  well_dated (Some (Json data)) ->
  ascending (breakdown_of data) ->
  (forall start_date,
      fetch_fails (historical net (api_key self) (Article.id article) start_date (today self))) ->
  fst (process_article self net article w) = Val tt /\
  Py.get stem (articles_dir (snd (process_article self net article w))) =
  Some (Json (article_data_of article (breakdown_of data))).
Proof.
  intros stem Hmode Hfile Hw Ha Hfail.
  rewrite process_article_eq. fold stem. rewrite Hfile.
  pose proof (plan_of_well_dated self (published_date article) _ Hw) as Hc.
  pose proof (plan_of_normal self (published_date article) data Hmode) as Hn.
  destruct (plan_of self (published_date article) (Some (Json data))) as [s ex|ex|e];
    [subst ex|subst ex|exfalso; eapply Hc; reflexivity]; simpl.
  - rewrite response_of_fails by apply Hfail.
    change (new_breakdown_of ∅) with (@nil Daily.t).
    rewrite merge_nothing, emitted_seeded_ascending by exact Ha.
    split; [reflexivity|apply get_setitem_eq].
  - rewrite merge_nothing, emitted_seeded_ascending by exact Ha.
    split; [reflexivity|apply get_setitem_eq].
Qed.

(** ** Exit statuses *)

Lemma load_api_key_state (dotenv : option (list string)) (w : world) :
  snd (_load_api_key dotenv w) = w.
Proof.
  unfold _load_api_key. destruct dotenv as [lines|]; [|reflexivity].
  destruct (foldl _ None lines) as [[|c k]|]; reflexivity.
Qed.

Lemma load_api_key_outcome (dotenv : option (list string)) (w : world) :
  (exists key, fst (_load_api_key dotenv w) = Val key) \/
  fst (_load_api_key dotenv w) = Raise (SystemExit 1).
Proof.
  unfold _load_api_key. destruct dotenv as [lines|]; [|right; reflexivity].
  destruct (foldl _ None lines) as [[|c k]|]; simpl; eauto.
Qed.

Lemma load_api_key_no_key (lines : list string) (w : world) :
  Forall (fun line => names_key line = false) lines ->
  _load_api_key (Some lines) w = (Raise (SystemExit 1), w).
Proof.
  intros Hall. unfold _load_api_key.
  assert (E : forall acc,
             foldl (fun api_key line =>
                      let line := Py.strip line in
                      if Py.startswith line "API_KEY=" then Some (key_of_line line)
                      else if Py.startswith line "DEVTO_API_KEY=" then Some (key_of_line line)
                      else api_key) acc lines = acc).
  { induction Hall as [|line lines Hline _ IH]; intros acc; simpl; [reflexivity|].
    unfold names_key in Hline. apply orb_false_iff in Hline as [-> ->]. apply IH. }
  rewrite E. reflexivity.
Qed.

Lemma main_without_key (h : host) (net : network) (fuel : nat) (w : world) :
  fst (_load_api_key (dotenv h) w) = Raise (SystemExit 1) ->
  main h net fuel w = (Raise (SystemExit 1), w).
Proof.
  intros H. unfold main, bind.
  pose proof (load_api_key_state (dotenv h) w) as Hs.
  destruct (_load_api_key (dotenv h) w) as [o w']. simpl in *. subst. reflexivity.
Qed.

Lemma main_with_key (h : host) (net : network) (fuel : nat) (w : world) (key : string) :
  fst (_load_api_key (dotenv h) w) = Val key ->
  main h net fuel w = run (mkfetcher key (now h) (flag_from_second_last_day h)) net fuel w.
Proof.
  intros H. unfold main, bind.
  pose proof (load_api_key_state (dotenv h) w) as Hs.
  destruct (_load_api_key (dotenv h) w) as [o w']. simpl in *. subst. reflexivity.
Qed.

Lemma published_pages_fails (self : fetcher) (net : network) (n : nat) :
  forall (fuel : nat) (page : Z) (all_articles : list Article.t) (w : world),
    (n < fuel)%nat ->
    (forall i : nat, (i < n)%nat ->
       page_of_articles (published net (api_key self) (page + Z.of_nat i))) ->
    listing_fails (published net (api_key self) (page + Z.of_nat n)) ->
    exists e w',
      published_pages self net fuel page all_articles w = (Raise e, w') /\
      (e = SystemExit 1 \/ e = JSONDecodeError).
Proof.
  induction n as [|n IH]; intros [|fuel] page all_articles w Hfuel Hpages Hfail;
    try lia.
  - rewrite Z.add_0_r in Hfail. cbn [published_pages].
    unfold bind, try_except, http_json, listing_fails in *.
    destruct (published net (api_key self) page) as [| | |[|l]]; simpl;
      try contradiction; eauto.
  - pose proof (Hpages O ltac:(lia)) as H0. rewrite Z.add_0_r in H0.
    assert (Hrest : forall w1 all1,
               exists e w', published_pages self net fuel (page + 1) all1 w1 = (Raise e, w') /\
                            (e = SystemExit 1 \/ e = JSONDecodeError)).
    { intros w1 all1. apply IH; [lia| |].
      - intros i Hi. replace (page + 1 + Z.of_nat i) with (page + Z.of_nat (S i)) by lia.
        apply Hpages. lia.
      - replace (page + 1 + Z.of_nat n) with (page + Z.of_nat (S n)) by lia. exact Hfail. }
    cbn [published_pages].
    unfold bind, try_except, http_json, page_of_articles, get_world, set_username in *.
    destruct (published net (api_key self) page) as [| | |[|[|first rest]]];
      try contradiction. simpl.
    destruct (username_unset (username w)); [destruct (Article.user first)|];
      simpl; apply Hrest.
Qed.

Lemma run_listing_fails (self : fetcher) (net : network) (fuel : nat) (w : world)
    (e : exn) (w' : world) :
  fetch_published_articles self net fuel w = (Raise e, w') ->
  e = SystemExit 1 \/ e = JSONDecodeError ->
  run self net fuel w = (Raise (SystemExit 1), w').
Proof.
  intros H He. unfold run, try_except, bind. rewrite H.
  destruct He as [-> | ->]; reflexivity.
Qed.

(** ** A run whose analytics requests all fail *)

Lemma dir_well_dated_get (dir : list (string * file)) (k : string) :
  dir_well_dated dir -> well_dated (Py.get k dir).
Proof.
  unfold dir_well_dated. induction 1 as [|[k' f] dir Hf _ IH]; simpl; [exact I|].
  destruct (String.eqb k' k); [exact Hf|exact IH].
Qed.

Lemma dir_well_dated_scan_error (dir : list (string * file)) :
  dir_well_dated dir -> scan_error dir = None.
Proof.
  unfold dir_well_dated. induction 1 as [|[k f] dir Hf _ IH]; [reflexivity|].
  simpl. destruct f; simpl in *; try contradiction; exact IH.
Qed.

Lemma dir_well_dated_setitem (dir : list (string * file)) (k : string) (f : file) :
  dir_well_dated dir -> well_dated (Some f) -> dir_well_dated (Py.setitem k f dir).
Proof.
  unfold dir_well_dated. intros H Hf.
  induction H as [|[k' f'] dir Hf' Hdir IH]; simpl.
  - repeat constructor. exact Hf.
  - destruct (String.eqb k' k); constructor; simpl; assumption.
Qed.

Lemma seeded_lookup_elem (l : list Daily.t) (k : string) (v : Daily.t) :
  seeded l !! k = Some v -> v ∈ l.
Proof.
  induction l as [|x l IH].
  - unfold seeded. simpl. rewrite lookup_empty. discriminate.
  - rewrite seeded_cons, lookup_union_Some_raw. intros [H|[_ H]].
    + apply list_elem_of_further, IH. exact H.
    + apply lookup_singleton_Some in H as [_ <-]. apply list_elem_of_here.
Qed.

Lemma merge_nothing_subset (l : list Daily.t) (x : Daily.t) :
  x ∈ merge_breakdown l [] -> x ∈ l.
Proof.
  rewrite merge_nothing. intros H.
  apply (elem_of_emitted _ (seeded_dated l)) in H.
  eapply seeded_lookup_elem. exact H.
Qed.

(** The history the planner hands on holds stored entries only. *)
Lemma plan_of_existing (self : fetcher) (published_at : string) (f : option file)
    (existing_data : ArticleData.t) :
  (exists start_date, plan_of self published_at f = Fetch start_date existing_data) \/
  plan_of self published_at f = Skip existing_data ->
  well_dated f -> well_dated (Some (Json existing_data)).
Proof.
  intros Hplan Hw. unfold plan_of in Hplan.
  assert (Hno : well_dated (Some (Json no_history))) by constructor.
  destruct f as [[| | | |data]|];
    try (destruct Hplan as [[s [= _ <-]]|[=]]; exact Hno).
  destruct (Py.max Py.str_le Daily.date (breakdown_of data)) as [last|];
    [|destruct Hplan as [[s [= _ <-]]|[=]]; exact Hw].
  simpl in Hplan. destruct (Calendar.strptime (Daily.date last)) as [d|];
    [|destruct Hplan as [[s [=]]|[=]]].
  destruct (from_second_last_day self).
  - destruct (Calendar.sub_one_day d) as [p|]; [|destruct Hplan as [[s [=]]|[=]]].
    assert (Hsub : well_dated
              (Some (Json (ArticleData.with_breakdown
                             (filter (fun item => Daily.date item <> Daily.date last)
                                     (breakdown_of data)) data)))).
    { simpl in *. unfold breakdown_of at 1. simpl.
      apply Forall_forall. intros x Hx. apply list_elem_of_filter in Hx as [_ Hx].
      rewrite Forall_forall in Hw. apply Hw. exact Hx. }
    destruct (Py.str_le (Calendar.strftime p) (today self));
      destruct Hplan as [[s [= _ <-]]|[= <-]]; exact Hsub.
  - destruct (Calendar.add_one_day d) as [n|]; [|destruct Hplan as [[s [=]]|[=]]].
    destruct (Py.str_le (Calendar.strftime n) (today self));
      destruct Hplan as [[s [= _ <-]]|[= <-]]; exact Hw.
Qed.

Section Offline.
Context (self : fetcher) (net : network).
Context (Hdown : forall article_id start_date end_date,
            fetch_fails (historical net (api_key self) article_id start_date end_date)).

Lemma process_article_offline (article : Article.t) (w : world) :
  dir_well_dated (articles_dir w) ->
  exists w', process_article self net article w = (Val tt, w') /\
             dir_well_dated (articles_dir w').
Proof using Hdown.
  intros Hdir. rewrite process_article_eq.
  set (stem := article_stem (Article.id article) (Article.slug article)).
  pose proof (dir_well_dated_get _ stem Hdir) as Hw.
  pose proof (plan_of_well_dated self (published_date article) _ Hw) as Hc.
  pose proof (fun ex => plan_of_existing self (published_date article)
                          (Py.get stem (articles_dir w)) ex) as Hex.
  assert (Hout : forall ex, well_dated (Some (Json ex)) ->
             well_dated (Some (Json (article_data_of article
                                       (merge_breakdown (breakdown_of ex) []))))).
  { intros ex H. simpl in *. unfold breakdown_of at 1. simpl.
    apply Forall_forall. intros x Hx. apply merge_nothing_subset in Hx.
    rewrite Forall_forall in H. apply H. exact Hx. }
  destruct (plan_of self (published_date article) (Py.get stem (articles_dir w)))
    as [s ex|ex|e]; [| |exfalso; eapply Hc; reflexivity];
    eexists; (split; [reflexivity|]); simpl.
  - rewrite response_of_fails by apply Hdown.
    apply dir_well_dated_setitem; [exact Hdir|].
    apply Hout, Hex; [left; eauto|exact Hw].
  - apply dir_well_dated_setitem; [exact Hdir|].
    apply Hout, Hex; [right; reflexivity|exact Hw].
Qed.

Lemma for_each_offline (articles : list Article.t) (w : world) :
  dir_well_dated (articles_dir w) ->
  exists w', for_each (process_article self net) articles w = (Val tt, w') /\
             dir_well_dated (articles_dir w').
Proof using Hdown.
  revert w. induction articles as [|article articles IH]; intros w Hdir; simpl.
  - eexists. split; [reflexivity|exact Hdir].
  - destruct (process_article_offline article w Hdir) as (w1 & E & Hdir1).
    unfold bind at 1. rewrite E. apply IH. exact Hdir1.
Qed.
End Offline.

Lemma published_pages_dir (self : fetcher) (net : network) (fuel : nat) :
  forall (page : Z) (all_articles : list Article.t) (w : world),
    articles_dir (snd (published_pages self net fuel page all_articles w)) =
    articles_dir w.
Proof.
  induction fuel as [|fuel IH]; intros page all_articles w; [reflexivity|].
  cbn [published_pages].
  unfold bind, try_except, http_json, get_world, set_username.
  destruct (published net (api_key self) page) as [| | |[|[|first rest]]];
    try reflexivity. simpl.
  destruct (username_unset (username w)); [destruct (Article.user first)|];
    simpl; rewrite IH; reflexivity.
Qed.

Lemma run_offline (self : fetcher) (net : network) (fuel : nat) (w w1 : world)
    (articles : list Article.t) :
  (forall article_id start_date end_date,
      fetch_fails (historical net (api_key self) article_id start_date end_date)) ->
  fetch_published_articles self net fuel w = (Val articles, w1) ->
  dir_well_dated (articles_dir w) ->
  exists w', run self net fuel w = (Val tt, w').
Proof.
  intros Hdown Hlist Hdir.
  assert (Hdir1 : dir_well_dated (articles_dir w1)).
  { pose proof (published_pages_dir self net fuel 1 [] w) as E.
    unfold fetch_published_articles in Hlist. rewrite Hlist in E. simpl in E.
    rewrite E. exact Hdir. }
  destruct (for_each_offline self net Hdown articles w1 Hdir1) as (w2 & E & Hdir2).
  apply dir_well_dated_scan_error in Hdir2.
  unfold run, try_except, bind. rewrite Hlist, E.
  rewrite update_account_stats_eq, Hdir2, create_top_articles_eq. simpl.
  rewrite Hdir2. eexists. reflexivity.
Qed.

(** * Properties of the code, function by function *)

(** ** Dates written and read back *)

Lemma get_next_date_eq (date_str : string) (w : world) :
  get_next_date date_str w =
  match Calendar.strptime date_str with
  | None => (Raise ValueError, w)
  | Some d =>
      match Calendar.add_one_day d with
      | None => (Raise OverflowError, w)
      | Some n => (Val (Calendar.strftime n), w)
      end
  end.
Proof.
  unfold get_next_date, bind, or_raise.
  destruct (Calendar.strptime date_str) as [d|]; [|reflexivity]. simpl.
  destruct (Calendar.add_one_day d); reflexivity.
Qed.

(** X1 ([get_next_date], outcomes).  [get_next_date] changes nothing in the
    world.  It returns what [strftime] prints for the day after the one its
    argument names, also when the argument is not zero padded; from year 1000
    on that is the date in the form of the data model, which [strptime] reads
    back as that day, and before year 1000 it is a text [strptime] rejects.
    It raises [ValueError] exactly for text [strptime] rejects and
    [OverflowError] exactly for the last day [datetime] has. *)
Theorem get_next_date_outcome (date_str : string) (w : world) :
  snd (get_next_date date_str w) = w /\
  match fst (get_next_date date_str w) with
  | Val next =>
      exists d n, Calendar.strptime date_str = Some d /\
                  Calendar.add_one_day d = Some n /\
                  Calendar.compare d n = Lt /\
                  next = Calendar.strftime n /\
                  (1000 <= Calendar.year n ->
                   Calendar.is_iso next = true /\ Calendar.strptime next = Some n) /\
                  (Calendar.year n < 1000 -> Calendar.strptime next = None)
  | Raise e =>
      (e = ValueError /\ Calendar.strptime date_str = None) \/
      (e = OverflowError /\
       Calendar.strptime date_str = Some (Calendar.mkdate 9999 12 31))
  | Unfinished => False
  end.
Proof.
  rewrite get_next_date_eq.
  destruct (Calendar.strptime date_str) as [d|] eqn:Hd; [|simpl; auto].
  pose proof (strptime_valid _ _ Hd) as Hv.
  destruct (Calendar.add_one_day d) as [n|] eqn:Hn; simpl.
  - pose proof (add_one_day_valid _ _ Hv Hn) as Hvn.
    split; [reflexivity|]. exists d, n.
    split; [reflexivity|]. split; [exact Hn|].
    split; [apply add_one_day_later; assumption|]. split; [reflexivity|]. split.
    + intros Hy. rewrite strftime_isoformat by exact Hy.
      split; [apply isoformat_is_iso|apply strptime_isoformat]; exact Hvn.
    + intros Hy. apply strptime_strftime_early; assumption.
  - split; [reflexivity|]. right. split; [reflexivity|].
    rewrite (add_one_day_None d Hv Hn). reflexivity.
Qed.

(** X2 ([get_next_date], successor).  For a date in the form of the data
    model, of year 1000 or later and other than 9999-12-31, [get_next_date]
    returns a date in that form that is later as text, and no date in that
    form lies strictly between the two. *)
Theorem get_next_date_successor (date_str : string) (w : world) :
  Calendar.is_iso date_str = true -> date_str <> "9999-12-31" ->
  Py.str_le "1000-01-01" date_str = true ->
  exists next,
    get_next_date date_str w = (Val next, w) /\
    Calendar.is_iso next = true /\
    Py.str_lt date_str next = true /\
    forall t, Calendar.is_iso t = true -> Py.str_lt date_str t = true ->
              Py.str_le next t = true.
Proof.
  intros Hiso Hlast Hmil. destruct (is_iso_inv _ Hiso) as (d & Hd & Hv & Hf).
  assert (Hyear : 1000 <= Calendar.year d).
  { apply str_le_compare in Hmil.
    change "1000-01-01" with (Calendar.isoformat (Calendar.mkdate 1000 1 1)) in Hmil.
    rewrite <- Hf, isoformat_compare in Hmil by (reflexivity || assumption).
    apply calendar_compare_le_iff in Hmil. simpl in Hmil. lia. }
  rewrite get_next_date_eq, Hd.
  destruct (Calendar.add_one_day d) as [n|] eqn:Hn.
  - pose proof (add_one_day_valid _ _ Hv Hn) as Hvn.
    pose proof (add_one_day_year _ _ Hn) as Hyn.
    rewrite strftime_isoformat by lia.
    exists (Calendar.isoformat n). split; [reflexivity|].
    split; [apply isoformat_is_iso; exact Hvn|]. split.
    + apply str_lt_compare. rewrite <- Hf, isoformat_compare by assumption.
      apply add_one_day_later; assumption.
    + intros t Ht Hlt. destruct (is_iso_inv _ Ht) as (dt & _ & Hvt & Hft).
      apply str_lt_compare in Hlt. rewrite <- Hf, <- Hft in Hlt.
      rewrite isoformat_compare in Hlt by assumption.
      destruct (add_one_day_spec d dt Hv Hvt Hlt) as (n' & Hn' & _ & Hle).
      assert (n' = n) as -> by congruence.
      apply str_le_compare. rewrite <- Hft, isoformat_compare by assumption.
      exact Hle.
  - exfalso. apply Hlast. rewrite <- Hf, (add_one_day_None d Hv Hn). reflexivity.
Qed.

Lemma get_next_date_successor_witness :
  Calendar.is_iso "2024-02-28" = true /\
  "2024-02-28" <> "9999-12-31" /\
  Py.str_le "1000-01-01" "2024-02-28" = true /\
  exists next,
    get_next_date "2024-02-28" (Sample.world_of []) = (Val next, Sample.world_of []) /\
    Calendar.is_iso next = true /\
    Py.str_lt "2024-02-28" next = true /\
    forall t, Calendar.is_iso t = true -> Py.str_lt "2024-02-28" t = true ->
              Py.str_le next t = true.
Proof.
  assert (Hne : "2024-02-28" <> "9999-12-31") by discriminate.
  split; [reflexivity|]. split; [exact Hne|]. split; [reflexivity|].
  exact (get_next_date_successor "2024-02-28" (Sample.world_of []) eq_refl Hne eq_refl).
Defined.

(** ** The key of [.env] *)

Lemma load_api_key_fold_tail (lines : list string) (acc : option string) :
  Forall (fun line => names_key line = false) lines ->
  foldl (fun api_key line =>
           let line := Py.strip line in
           if Py.startswith line "API_KEY=" then Some (key_of_line line)
           else if Py.startswith line "DEVTO_API_KEY=" then Some (key_of_line line)
           else api_key) acc lines = acc.
Proof.
  intros Hall. revert acc.
  induction Hall as [|line lines Hline _ IH]; intros acc; simpl; [reflexivity|].
  unfold names_key in Hline. apply orb_false_iff in Hline as [-> ->]. apply IH.
Qed.

Lemma lstrip_by_head (p : ascii -> bool) (s : string) (c : ascii) (r : string) :
  Py.lstrip_by p s = String c r -> p c = false.
Proof.
  induction s as [|a s IH]; simpl; [discriminate|].
  destruct (p a) eqn:E; [exact IH|]. intros [= <- _]. exact E.
Qed.

Lemma rstrip_by_head (p : ascii -> bool) (c : ascii) (s : string) :
  p c = false -> exists r, Py.rstrip_by p (String c s) = String c r.
Proof.
  intros E. simpl. destruct (Py.rstrip_by p s); [rewrite E|]; eauto.
Qed.

Lemma rstrip_by_last (p : ascii -> bool) (s init : string) (c : ascii) :
  Py.rstrip_by p s = (init ++ String c EmptyString)%string -> p c = false.
Proof.
  revert init. induction s as [|a s IH]; intros init; simpl.
  - destruct init; discriminate.
  - destruct (Py.rstrip_by p s) as [|b r] eqn:E.
    + destruct (p a) eqn:Ea; [destruct init; discriminate|].
      destruct init as [|i init]; simpl; [intros [= <-]; exact Ea|].
      destruct init; discriminate.
    + destruct init as [|i init]; simpl; [discriminate|].
      intros [= _ H]. apply (IH init). exact H.
Qed.

(** What [strip(chars)] returns neither starts nor ends with one of the
    characters. *)
Lemma strip_by_ends (p : ascii -> bool) (s : string) :
  (forall c r, Py.strip_by p s = String c r -> p c = false) /\
  (forall init c, Py.strip_by p s = (init ++ String c EmptyString)%string -> p c = false).
Proof.
  unfold Py.strip_by. split.
  - intros c r. destruct (Py.lstrip_by p s) as [|a t] eqn:E; [discriminate|].
    pose proof (lstrip_by_head p s a t E) as Ha.
    destruct (rstrip_by_head p a t Ha) as (r' & ->). intros [= <- _]. exact Ha.
  - intros init c. apply rstrip_by_last.
Qed.

(** X3 ([_load_api_key], which line counts).  The key is taken from the last
    line of [.env] that sets one of the two names; the lines before it,
    whatever they set, and the lines after it play no part.  When that line
    gives an empty key the process exits with status 1, even if an earlier line
    gave a key. *)
Theorem load_api_key_last_line (before after : list string) (line : string) (w : world) :
  names_key line = true ->
  Forall (fun l => names_key l = false) after ->
  _load_api_key (Some (before ++ line :: after)) w =
  (match key_of_line (Py.strip line) with
   | EmptyString => Raise (SystemExit 1)
   | key => Val key
   end, w).
Proof.
  intros Hline Hafter. unfold _load_api_key.
  rewrite foldl_app. cbn [foldl].
  rewrite load_api_key_fold_tail by exact Hafter.
  unfold names_key in Hline.
  destruct (Py.startswith (Py.strip line) "API_KEY=");
    [|simpl in Hline; rewrite Hline];
    destruct (key_of_line (Py.strip line)); reflexivity.
Qed.

Lemma load_api_key_last_line_witness :
  let w := Sample.world_of [] in
  names_key "  DEVTO_API_KEY='second'" = true /\
  Forall (fun l => names_key l = false) ["# API_KEY=third"] /\
  _load_api_key (Some ["API_KEY=first"; "  DEVTO_API_KEY='second'"; "# API_KEY=third"]) w =
  (Val "second", w) /\
  names_key "API_KEY=" = true /\
  _load_api_key (Some ["API_KEY=first"; "API_KEY="]) w = (Raise (SystemExit 1), w).
Proof.
  intros w.
  assert (H : Forall (fun l => names_key l = false) ["# API_KEY=third"])
    by (repeat constructor).
  split; [reflexivity|]. split; [exact H|]. split; [|split; [reflexivity|]].
  - exact (load_api_key_last_line ["API_KEY=first"] ["# API_KEY=third"]
             "  DEVTO_API_KEY='second'" w eq_refl H).
  - exact (load_api_key_last_line ["API_KEY=first"] [] "API_KEY=" w eq_refl
             (Forall_nil_2 _)).
Defined.

(** X4 ([_load_api_key], the key returned).  A key that [_load_api_key]
    returns is not empty and neither starts nor ends with a quote character. *)
Theorem load_api_key_unquoted (dotenv : option (list string)) (w : world) (key : string) :
  fst (_load_api_key dotenv w) = Val key ->
  key <> EmptyString /\
  (forall c rest, key = String c rest -> is_quote c = false) /\
  (forall init c, key = (init ++ String c EmptyString)%string -> is_quote c = false).
Proof.
  unfold _load_api_key. destruct dotenv as [lines|]; [|discriminate].
  set (step := fun (api_key : option string) (line : string) => _).
  assert (Hinv : forall acc,
             (forall k, acc = Some k -> exists v, k = Py.strip_by is_quote v) ->
             forall k, foldl step acc lines = Some k ->
                       exists v, k = Py.strip_by is_quote v).
  { induction lines as [|line lines IH]; intros acc Hacc; simpl; [exact Hacc|].
    apply IH. unfold step at 1.
    assert (Hk : forall k, Some (key_of_line (Py.strip line)) = Some k ->
                           exists v, k = Py.strip_by is_quote v).
    { intros k [= <-]. unfold key_of_line.
      destruct (snd (Py.split1 "=" (Py.strip line))) as [v|]; [eauto|].
      exists EmptyString. reflexivity. }
    destruct (Py.startswith _ "API_KEY="); [exact Hk|].
    destruct (Py.startswith _ "DEVTO_API_KEY="); [exact Hk|exact Hacc]. }
  destruct (foldl step None lines) as [k|] eqn:E; [|discriminate].
  destruct (Hinv None ltac:(discriminate) k E) as (v & ->).
  destruct (Py.strip_by is_quote v) as [|c r] eqn:Ev; [discriminate|].
  simpl. intros [= <-]. split; [discriminate|].
  rewrite <- Ev. apply strip_by_ends.
Qed.

Lemma load_api_key_unquoted_witness :
  let dotenv := Some ["API_KEY='secret'"] in
  fst (_load_api_key dotenv (Sample.world_of [])) = Val "secret" /\
  "secret" <> EmptyString /\
  (forall c rest, "secret" = String c rest -> is_quote c = false) /\
  (forall init c, "secret" = (init ++ String c EmptyString)%string -> is_quote c = false).
Proof.
  intros dotenv. split; [reflexivity|].
  exact (load_api_key_unquoted dotenv (Sample.world_of []) "secret" eq_refl).
Defined.

(** ** The listing of published articles *)

(** The paging touches nothing but [self.username]. *)
Lemma published_pages_frame (self : fetcher) (net : network) (fuel : nat) :
  forall (page : Z) (all_articles : list Article.t) (w : world),
    let w' := snd (published_pages self net fuel page all_articles w) in
    articles_dir w' = articles_dir w /\
    account_json w' = account_json w /\
    top_articles_json w' = top_articles_json w /\
    requests w' = requests w /\
    (username_unset (username w) = false -> username w' = username w).
Proof.
  induction fuel as [|fuel IH]; intros page all_articles w; [simpl; auto|].
  cbn [published_pages].
  unfold bind, try_except, http_json, get_world, set_username.
  destruct (published net (api_key self) page) as [| | |[|[|first rest]]];
    try (simpl; auto; fail). simpl.
  destruct (username_unset (username w)) eqn:Hu; [destruct (Article.user first)|]; simpl.
  - destruct (IH (page + 1) (all_articles ++ first :: rest)
                (mkworld (articles_dir w) (account_json w) (top_articles_json w)
                         (Some s) (requests w))) as (H1 & H2 & H3 & H4 & _).
    repeat split; try assumption. discriminate.
  - destruct (IH (page + 1) (all_articles ++ first :: rest) w) as (H1 & H2 & H3 & H4 & _).
    repeat split; try assumption. discriminate.
  - destruct (IH (page + 1) (all_articles ++ first :: rest) w) as (H1 & H2 & H3 & H4 & H5).
    repeat split; try assumption. intros _. apply H5. exact Hu.
Qed.

Lemma published_pages_collects (self : fetcher) (net : network) (n : nat) :
  forall (fuel : nat) (page : Z) (all_articles : list Article.t) (w : world)
         (pages : nat -> list Article.t),
    (n < fuel)%nat ->
    (forall i : nat, (i < n)%nat ->
       pages i <> [] /\
       published net (api_key self) (page + Z.of_nat i) = Body (Articles (pages i))) ->
    published net (api_key self) (page + Z.of_nat n) = Body (Articles []) ->
    fst (published_pages self net fuel page all_articles w) =
    Val (all_articles ++ mjoin (pages <$> seq 0 n)).
Proof.
  induction n as [|n IH]; intros [|fuel] page all_articles w pages Hfuel Hpages Hend;
    try lia.
  - rewrite Z.add_0_r in Hend. cbn [published_pages].
    unfold bind, try_except, http_json. rewrite Hend. simpl.
    rewrite app_nil_r. reflexivity.
  - destruct (Hpages O ltac:(lia)) as [Hne H0]. rewrite Z.add_0_r in H0.
    assert (Hrest : forall w1,
               fst (published_pages self net fuel (page + 1) (all_articles ++ pages O) w1) =
               Val ((all_articles ++ pages O) ++ mjoin ((fun i => pages (S i)) <$> seq 0 n))).
    { intros w1. apply IH; [lia| |].
      - intros i Hi. replace (page + 1 + Z.of_nat i) with (page + Z.of_nat (S i)) by lia.
        apply Hpages. lia.
      - replace (page + 1 + Z.of_nat n) with (page + Z.of_nat (S n)) by lia. exact Hend. }
    assert (Hjoin : all_articles ++ mjoin (pages <$> seq 0 (S n)) =
                    (all_articles ++ pages O) ++ mjoin ((fun i => pages (S i)) <$> seq 0 n)).
    { cbn [seq]. rewrite fmap_cons. simpl mjoin. rewrite <- app_assoc.
      rewrite <- fmap_S_seq, <- list_fmap_compose. reflexivity. }
    rewrite Hjoin. cbn [published_pages].
    unfold bind, try_except, http_json, get_world, set_username. rewrite H0.
    destruct (pages O) as [|first rest]; [contradiction|]. simpl.
    destruct (username_unset (username w)); [destruct (Article.user first)|];
      simpl; apply Hrest.
Qed.

(** X5 ([fetch_published_articles], the result).  When pages 1 to [n] of the
    listing hold articles and page [n+1] is empty, the method returns the
    articles of pages 1 to [n], in the order of the pages and in the order
    within each page; what the server would answer for later pages does not
    matter.  The files, the two summary documents and the record of analytics
    requests are as before. *)
Theorem fetch_published_articles_pages (self : fetcher) (net : network) (fuel n : nat)
    (w : world) (pages : nat -> list Article.t) :
  (n < fuel)%nat ->
  (forall i : nat, (i < n)%nat ->
     pages i <> [] /\
     published net (api_key self) (1 + Z.of_nat i) = Body (Articles (pages i))) ->
  published net (api_key self) (1 + Z.of_nat n) = Body (Articles []) ->
  let result := fetch_published_articles self net fuel w in
  fst result = Val (mjoin (pages <$> seq 0 n)) /\
  articles_dir (snd result) = articles_dir w /\
  account_json (snd result) = account_json w /\
  top_articles_json (snd result) = top_articles_json w /\
  requests (snd result) = requests w.
Proof.
  intros Hfuel Hpages Hend result. subst result. unfold fetch_published_articles.
  split.
  - rewrite (published_pages_collects self net n fuel 1 [] w pages Hfuel Hpages Hend).
    reflexivity.
  - destruct (published_pages_frame self net fuel 1 [] w) as (H1 & H2 & H3 & H4 & _).
    auto.
Qed.

Lemma fetch_published_articles_pages_witness :
  let result := fetch_published_articles (Sample.normal "2024-01-02") (Sample.serving ∅)
                                         5 Sample.world_b in
  fst result = Val [Sample.article_a; Sample.article_b] /\
  articles_dir (snd result) = articles_dir Sample.world_b.
Proof.
  intros result.
  assert (Hpages : forall i : nat, (i < 1)%nat ->
            (fun _ : nat => [Sample.article_a; Sample.article_b]) i <> [] /\
            published (Sample.serving ∅) (api_key (Sample.normal "2024-01-02"))
                      (1 + Z.of_nat i) =
            Body (Articles ((fun _ : nat => [Sample.article_a; Sample.article_b]) i))).
  { intros [|i] Hi; [split; [discriminate|reflexivity]|lia]. }
  destruct (fetch_published_articles_pages (Sample.normal "2024-01-02") (Sample.serving ∅)
              5 1 Sample.world_b (fun _ => [Sample.article_a; Sample.article_b])
              ltac:(lia) Hpages eq_refl) as (Hv & Hd & _).
  split; [exact Hv|exact Hd].
Defined.

Lemma published_pages_unbounded (self : fetcher) (net : network) (fuel : nat) :
  forall (page : Z) (all_articles : list Article.t) (w : world),
    (forall p, page <= p -> page_of_articles (published net (api_key self) p)) ->
    fst (published_pages self net fuel page all_articles w) = Unfinished.
Proof.
  induction fuel as [|fuel IH]; intros page all_articles w Hpages; [reflexivity|].
  pose proof (Hpages page ltac:(lia)) as H0.
  assert (Hrest : forall all1 w1,
             fst (published_pages self net fuel (page + 1) all1 w1) = Unfinished).
  { intros all1 w1. apply IH. intros p Hp. apply Hpages. lia. }
  cbn [published_pages].
  unfold bind, try_except, http_json, page_of_articles, get_world, set_username in *.
  destruct (published net (api_key self) page) as [| | |[|[|first rest]]];
    try contradiction. simpl.
  destruct (username_unset (username w)); [destruct (Article.user first)|];
    simpl; apply Hrest.
Qed.

(** X6 ([fetch_published_articles], no bound).  The paging loop ends only on
    an empty page or an error: against a server that answers every page
    number with at least one article, no number of requests completes the
    listing. *)
Theorem fetch_published_articles_unbounded (self : fetcher) (net : network) (w : world) :
  (forall page, 1 <= page -> page_of_articles (published net (api_key self) page)) ->
  forall fuel, fst (fetch_published_articles self net fuel w) = Unfinished.
Proof.
  intros Hpages fuel. apply published_pages_unbounded. exact Hpages.
Qed.

Lemma fetch_published_articles_unbounded_witness :
  let net := mknetwork (fun _ _ => Body (Articles [Sample.article_a]))
                       (fun _ _ _ _ => Body ∅) in
  (forall page, 1 <= page ->
     page_of_articles (published net (api_key (Sample.normal "2024-01-02")) page)) /\
  fst (fetch_published_articles (Sample.normal "2024-01-02") net 1000 Sample.world_b) =
  Unfinished.
Proof.
  intros net.
  assert (H : forall page, 1 <= page ->
            page_of_articles (published net (api_key (Sample.normal "2024-01-02")) page))
    by (intros page _; exact I).
  split; [exact H|].
  exact (fetch_published_articles_unbounded (Sample.normal "2024-01-02") net
           Sample.world_b H 1000%nat).
Defined.

(** X7 ([fetch_published_articles], the username).  Whatever the outcome, the
    listing changes nothing but [self.username].  A username that is set is
    kept; one that is not set is taken from the first article of the first
    page when that article names a user. *)
Theorem fetch_published_articles_username (self : fetcher) (net : network) (fuel : nat)
    (w : world) :
  let w' := snd (fetch_published_articles self net fuel w) in
  articles_dir w' = articles_dir w /\
  account_json w' = account_json w /\
  top_articles_json w' = top_articles_json w /\
  requests w' = requests w /\
  (username_unset (username w) = false -> username w' = username w) /\
  (forall first rest u,
      (0 < fuel)%nat -> username_unset (username w) = true ->
      published net (api_key self) 1 = Body (Articles (first :: rest)) ->
      Article.user first = Some u -> u <> EmptyString ->
      username w' = Some u).
Proof.
  intros w'. subst w'. unfold fetch_published_articles.
  destruct (published_pages_frame self net fuel 1 [] w) as (H1 & H2 & H3 & H4 & H5).
  repeat split; try assumption.
  intros first rest u Hfuel Hunset Hpage Huser Hu.
  destruct fuel as [|fuel]; [lia|]. cbn [published_pages].
  unfold bind, try_except, http_json, get_world, set_username.
  rewrite Hpage. simpl. rewrite Hunset, Huser. simpl.
  destruct (published_pages_frame self net fuel (1 + 1) ([] ++ first :: rest)
              (mkworld (articles_dir w) (account_json w) (top_articles_json w)
                       (Some u) (requests w))) as (_ & _ & _ & _ & Hkeep).
  apply Hkeep. simpl. destruct u; [contradiction|reflexivity].
Qed.

(** ** Entries of a response, and merging in general *)

(** X8 ([process_analytics_data]).  The breakdown made of a response is in
    ascending order of date, holds one entry for every date of the response
    and nothing else, each entry being the one the loop body builds for its
    date; and the guard around the call (an empty response gives no entries)
    does not change the value. *)
Theorem process_analytics_data_entries (analytics : gmap string Raw.t) :
  let breakdown := process_analytics_data analytics in
  ascending breakdown /\
  (forall item,
      item ∈ breakdown <->
      exists data, analytics !! Daily.date item = Some data /\
                   item = daily_entry (Daily.date item) data) /\
  length breakdown = size analytics /\
  new_breakdown_of analytics = breakdown.
Proof.
  intros breakdown. subst breakdown. split; [|split; [|split]].
  - rewrite process_analytics_data_emitted. apply emitted_ascending, imap_dated.
  - intros item. rewrite process_analytics_data_emitted.
    rewrite (elem_of_emitted _ (imap_dated analytics)), map_lookup_imap.
    destruct (analytics !! Daily.date item) as [data|]; simpl.
    + split; [intros [= <-]; eauto|]. intros (data' & [= <-] & ->). reflexivity.
    + split; [discriminate|]. intros (data' & [=] & _).
  - unfold process_analytics_data.
    rewrite (Permutation_length (sorted_Permutation Py.str_le Daily.date _)).
    rewrite length_fmap. apply length_map_to_list.
  - rewrite new_breakdown_of_emitted, process_analytics_data_emitted. reflexivity.
Qed.

Lemma seeded_lookup_dates (l : list Daily.t) (k : string) :
  is_Some (seeded l !! k) <-> k ∈ Daily.date <$> l.
Proof.
  rewrite <- not_eq_None_Some, seeded_lookup_None.
  destruct (decide (k ∈ Daily.date <$> l)); tauto.
Qed.

Lemma elem_of_merge_breakdown (a b : list Daily.t) (item : Daily.t) :
  item ∈ merge_breakdown a b <->
  seeded b !! Daily.date item = Some item \/
  (seeded b !! Daily.date item = None /\ seeded a !! Daily.date item = Some item).
Proof.
  rewrite merge_breakdown_emitted, (elem_of_emitted _ (seeded_dated _)).
  rewrite seeded_app, lookup_union_Some_raw. reflexivity.
Qed.

Lemma merge_breakdown_has_date (a b : list Daily.t) (date : string) :
  date ∈ Daily.date <$> merge_breakdown a b <->
  date ∈ Daily.date <$> a \/ date ∈ Daily.date <$> b.
Proof.
  rewrite <- (seeded_lookup_dates a), <- (seeded_lookup_dates b), list_elem_of_fmap.
  split.
  - intros (item & -> & H). apply elem_of_merge_breakdown in H as [H|[_ H]];
      rewrite H; eauto.
  - intros H.
    assert (Hs : is_Some ((seeded b ∪ seeded a) !! date)).
    { apply lookup_union_is_Some. tauto. }
    destruct Hs as [v Hv]. exists v.
    pose proof (union_dated _ _ (seeded_dated b) (seeded_dated a) _ _ Hv) as E.
    split; [symmetry; exact E|].
    rewrite merge_breakdown_emitted, (elem_of_emitted _ (seeded_dated _)).
    rewrite seeded_app, E. exact Hv.
Qed.

(** X9 (lines 200-208, what the merge holds).  The merged breakdown has the
    dates of the two lists and no other; every entry of it is an entry of one
    of the lists; for a date of the new list the entry is one of the new
    list; and the merged breakdown is no longer than the two lists
    together. *)
Theorem merge_breakdown_content (existing new_breakdown : list Daily.t) :
  let result := merge_breakdown existing new_breakdown in
  (forall date,
      date ∈ Daily.date <$> result <->
      date ∈ Daily.date <$> existing \/ date ∈ Daily.date <$> new_breakdown) /\
  (forall item, item ∈ result -> item ∈ existing \/ item ∈ new_breakdown) /\
  (forall item,
      item ∈ result -> Daily.date item ∈ Daily.date <$> new_breakdown ->
      item ∈ new_breakdown) /\
  (length result <= length existing + length new_breakdown)%nat.
Proof.
  intros result. subst result. split; [|split; [|split]].
  - apply merge_breakdown_has_date.
  - intros item H. apply elem_of_merge_breakdown in H as [H|[_ H]];
      apply seeded_lookup_elem in H; auto.
  - intros item H Hd. apply elem_of_merge_breakdown in H as [H|[H _]].
    + eapply seeded_lookup_elem. exact H.
    + apply seeded_lookup_None in H. contradiction.
  - unfold merge_breakdown.
    rewrite (Permutation_length (sorted_Permutation Py.str_le Daily.date _)).
    unfold Py.values. rewrite length_fmap.
    rewrite <- length_app. generalize (existing ++ new_breakdown). intros l.
    unfold unique_by_date.
    assert (H : forall d : list (string * Daily.t),
               (length (foldl (fun u item => Py.setitem (Daily.date item) item u) d l)
                <= length d + length l)%nat).
    { induction l as [|x l IH]; intros d; simpl; [lia|].
      etransitivity; [apply IH|].
      assert (Hs : (length (Py.setitem (Daily.date x) x d) <= S (length d))%nat).
      { clear. induction d as [|[k v] d IHd]; simpl; [lia|].
        destruct (String.eqb k (Daily.date x)); simpl; lia. }
      lia. }
    apply (H []).
Qed.

(** X10 (lines 200-208, merging in steps).  Merging one list of new entries
    and then another gives what merging the two lists in one step gives; and
    when the two lists share no date the order of the two steps does not
    matter. *)
Theorem merge_breakdown_compose (existing first second : list Daily.t) :
  merge_breakdown (merge_breakdown existing first) second =
  merge_breakdown existing (first ++ second) /\
  ((forall date, date ∈ Daily.date <$> first -> date ∈ Daily.date <$> second -> False) ->
   merge_breakdown (merge_breakdown existing first) second =
   merge_breakdown (merge_breakdown existing second) first).
Proof.
  assert (E : forall a b c,
             seeded (merge_breakdown a b ++ c) = seeded c ∪ seeded b ∪ seeded a).
  { intros a b c. rewrite merge_breakdown_emitted.
    rewrite (seeded_app (emitted _)), seeded_emitted by apply seeded_dated.
    rewrite seeded_app, map_union_assoc. reflexivity. }
  split.
  - rewrite (merge_breakdown_emitted (merge_breakdown _ _)), E.
    rewrite merge_breakdown_emitted, !seeded_app. reflexivity.
  - intros Hdisj.
    rewrite (merge_breakdown_emitted (merge_breakdown _ _)), E.
    rewrite (merge_breakdown_emitted (merge_breakdown _ _)), E.
    f_equal. f_equal. apply map_union_comm. apply map_disjoint_spec.
    intros k x y Hx Hy. apply (Hdisj k); apply seeded_lookup_dates; eauto.
Qed.

Lemma seeded_filter (l : list Daily.t) (D : string) :
  seeded (filter (fun item => Daily.date item <> D) l) = delete D (seeded l).
Proof.
  induction l as [|x l IH].
  - unfold seeded. simpl. rewrite delete_empty. reflexivity.
  - rewrite filter_cons, (seeded_cons x l), delete_union.
    destruct (decide (Daily.date x <> D)) as [Hne|Heq].
    + rewrite seeded_cons, IH, delete_singleton_ne by congruence. reflexivity.
    + apply dec_stable in Heq. rewrite IH, Heq, delete_singleton.
      rewrite decide_True by reflexivity.
      rewrite (right_id_L ∅ (∪)). reflexivity.
Qed.

(** Leaving out the entries of a date that the new entries cover does not
    change the merge. *)
Lemma merge_breakdown_filter (l new_breakdown : list Daily.t) (D : string) :
  D ∈ Daily.date <$> new_breakdown ->
  merge_breakdown (filter (fun item => Daily.date item <> D) l) new_breakdown =
  merge_breakdown l new_breakdown.
Proof.
  intros HD. rewrite !merge_breakdown_emitted, !seeded_app, seeded_filter.
  f_equal. apply map_eq. intros k. rewrite !lookup_union.
  destruct (decide (k = D)) as [->|Hne].
  - apply seeded_lookup_dates in HD as [v Hv]. rewrite Hv, lookup_delete_eq.
    destruct (seeded l !! D); reflexivity.
  - rewrite lookup_delete_ne by congruence. reflexivity.
Qed.

(** ** What [process_article] changes and what it keeps *)

Lemma get_setitem_ne {V} (d : list (string * V)) (k k' : string) (v : V) :
  k <> k' -> Py.get k' (Py.setitem k v d) = Py.get k' d.
Proof.
  intros Hne. rewrite !get_lookup, setitem_insert. apply lookup_insert_ne. exact Hne.
Qed.

Lemma setitem_get_id {V} (d : list (string * V)) (k : string) (v : V) :
  Py.get k d = Some v -> Py.setitem k v d = d.
Proof.
  induction d as [|[k' v'] d IH]; simpl; [discriminate|].
  destruct (String.eqb k' k); [intros [= ->]; reflexivity|].
  intros H. rewrite IH by exact H. reflexivity.
Qed.

Lemma new_breakdown_of_dates (fetched : gmap string Raw.t) (date : string) :
  date ∈ Daily.date <$> new_breakdown_of fetched <-> is_Some (fetched !! date).
Proof.
  rewrite new_breakdown_of_emitted, list_elem_of_fmap. split.
  - intros (item & -> & H). apply (elem_of_emitted _ (imap_dated fetched)) in H.
    rewrite map_lookup_imap in H. destruct (fetched !! Daily.date item); [eauto|discriminate].
  - intros [data H]. exists (daily_entry date data). split; [reflexivity|].
    apply (elem_of_emitted _ (imap_dated fetched)). simpl.
    rewrite map_lookup_imap, H. reflexivity.
Qed.

(** The history the planner hands on holds every stored entry, except, in
    refresh mode, those of the last date. *)
Lemma plan_of_keeps (self : fetcher) (published_at : string) (data existing_data : ArticleData.t)
    (item : Daily.t) :
  (exists start_date,
      plan_of self published_at (Some (Json data)) = Fetch start_date existing_data) \/
  plan_of self published_at (Some (Json data)) = Skip existing_data ->
  item ∈ breakdown_of data ->
  from_second_last_day self = false \/
  (forall last, Py.max Py.str_le Daily.date (breakdown_of data) = Some last ->
                Daily.date item <> Daily.date last) ->
  item ∈ breakdown_of existing_data.
Proof.
  intros Hplan Hin Hkeep. unfold plan_of in Hplan.
  destruct (Py.max Py.str_le Daily.date (breakdown_of data)) as [last|] eqn:Hmax;
    [|destruct Hplan as [[s [= _ <-]]|[=]]; exact Hin].
  simpl in Hplan. destruct (Calendar.strptime (Daily.date last)) as [d|];
    [|destruct Hplan as [[s [=]]|[=]]].
  destruct (from_second_last_day self).
  - destruct Hkeep as [[=]|Hkeep]. specialize (Hkeep last eq_refl).
    destruct (Calendar.sub_one_day d) as [p|]; [|destruct Hplan as [[s [=]]|[=]]].
    assert (Hsub : item ∈ breakdown_of
              (ArticleData.with_breakdown
                 (filter (fun item => Daily.date item <> Daily.date last)
                         (breakdown_of data)) data)).
    { unfold breakdown_of at 1. simpl. apply list_elem_of_filter. auto. }
    destruct (Py.str_le (Calendar.strftime p) (today self));
      destruct Hplan as [[s [= _ <-]]|[= <-]]; exact Hsub.
  - destruct (Calendar.add_one_day d) as [n|]; [|destruct Hplan as [[s [=]]|[=]]].
    destruct (Py.str_le (Calendar.strftime n) (today self));
      destruct Hplan as [[s [= _ <-]]|[= <-]]; exact Hin.
Qed.

(** X11 ([process_article], nothing lost).  When [process_article] returns
    normally for an article with a stored history, the file it has written
    holds an entry for every stored date: for all of them in normal mode, and
    in refresh mode for all but the last one.  Whether the fetch succeeded
    plays no part. *)
Theorem stored_dates_kept (self : fetcher) (net : network) (article : Article.t)
    (w : world) (data : ArticleData.t) (item : Daily.t) :
  let stem := article_stem (Article.id article) (Article.slug article) in
  let result := process_article self net article w in
  Py.get stem (articles_dir w) = Some (Json data) ->
  fst result = Val tt ->
  item ∈ breakdown_of data ->
  from_second_last_day self = false \/
  (exists later, later ∈ breakdown_of data /\
                 Py.str_lt (Daily.date item) (Daily.date later) = true) ->
  exists data',
    Py.get stem (articles_dir (snd result)) = Some (Json data') /\
    Daily.date item ∈ Daily.date <$> breakdown_of data'.
Proof.
  intros stem result Hfile Hval Hin Hkeep. subst result. revert Hval.
  rewrite process_article_eq. fold stem. rewrite Hfile.
  assert (Hk : from_second_last_day self = false \/
               (forall last, Py.max Py.str_le Daily.date (breakdown_of data) = Some last ->
                             Daily.date item <> Daily.date last)).
  { destruct Hkeep as [H|(later & Hl & Hlt)]; [left; exact H|right].
    intros last Hmax E. apply (max_spec Py.str_le Daily.date) in Hmax as [_ Hmax].
    specialize (Hmax later Hl). rewrite <- E in Hmax.
    apply str_lt_not_le in Hlt. congruence. }
  pose proof (fun ex H => plan_of_keeps self (published_date article) data ex item H Hin Hk)
    as Hex.
  destruct (plan_of self (published_date article) (Some (Json data))) as [s ex|ex|e];
    simpl; intros Hval; [| |discriminate];
    (eexists; split; [apply get_setitem_eq|]);
    unfold breakdown_of at 1; simpl;
    apply merge_breakdown_has_date; left;
    apply list_elem_of_fmap; exists item; (split; [reflexivity|]); apply Hex; eauto.
Qed.

Lemma stored_dates_kept_witness :
  let self := Sample.refresh "2024-01-02" in
  let result := process_article self Sample.analytics_down Sample.article_b Sample.world_b in
  Py.get "7-article-b" (articles_dir Sample.world_b) = Some (Json Sample.data_b) /\
  fst result = Val tt /\
  exists data',
    Py.get "7-article-b" (articles_dir (snd result)) = Some (Json data') /\
    "2024-01-01" ∈ Daily.date <$> breakdown_of data'.
Proof.
  intros self result. split; [reflexivity|]. split; [reflexivity|].
  refine (stored_dates_kept self Sample.analytics_down Sample.article_b Sample.world_b
            Sample.data_b (Sample.day "2024-01-01" 10) eq_refl eq_refl _ _).
  - apply list_elem_of_here.
  - right. exists (Sample.day "2024-01-02" 5). split; [|reflexivity].
    apply list_elem_of_further, list_elem_of_here.
Defined.

(** X12 ([process_article], refresh mode with the last day covered).  In
    refresh mode, when the response holds the last stored date, removing that
    date from the history before the merge makes no difference: the file
    written is the one that merging the response into the complete stored
    history gives. *)
Theorem refresh_covered_last_day (self : fetcher) (net : network) (article : Article.t)
    (w : world) (data : ArticleData.t) (last : Daily.t) (d p : Calendar.date) :
  let stem := article_stem (Article.id article) (Article.slug article) in
  let start := Calendar.strftime p in
  let fetched := response_of self net (Article.id article) start in
  from_second_last_day self = true ->
  Py.get stem (articles_dir w) = Some (Json data) ->
  Py.max Py.str_le Daily.date (breakdown_of data) = Some last ->
  Calendar.strptime (Daily.date last) = Some d ->
  Calendar.sub_one_day d = Some p ->
  Py.str_le start (today self) = true ->
  is_Some (fetched !! Daily.date last) ->
  process_article self net article w =
  (Val tt,
   with_article stem
     (article_data_of article
        (merge_breakdown (breakdown_of data) (new_breakdown_of fetched)))
     (with_request (Article.id article, start, today self) w)).
Proof.
  intros stem start fetched Hmode Hfile Hmax Hd Hp Hle Hcov.
  rewrite process_article_eq. fold stem. rewrite Hfile.
  unfold plan_of. rewrite Hmax. cbv zeta. rewrite Hd, Hmode, Hp. fold start.
  rewrite Hle. fold fetched. unfold breakdown_of at 1. simpl.
  rewrite merge_breakdown_filter; [reflexivity|].
  apply new_breakdown_of_dates. exact Hcov.
Qed.

Lemma refresh_covered_last_day_witness :
  let self := Sample.refresh "2024-01-02" in
  let net := Sample.serving {["2024-01-02" := Sample.raw 8]} in
  process_article self net Sample.article_b Sample.world_b =
  (Val tt,
   mkworld [("7-article-b",
             Json (article_data_of Sample.article_b
                     [Sample.day "2024-01-01" 10; Sample.day "2024-01-02" 8]))]
           None None None [(7, "2024-01-01", "2024-01-02")]).
Proof.
  intros self net.
  refine (eq_trans
            (refresh_covered_last_day self net Sample.article_b Sample.world_b
               Sample.data_b (Sample.day "2024-01-02" 5)
               (Calendar.mkdate 2024 1 2) (Calendar.mkdate 2024 1 1)
               eq_refl eq_refl eq_refl eq_refl eq_refl eq_refl _) _).
  - exists (Sample.raw 8). reflexivity.
  - vm_compute. reflexivity.
Defined.

(** X13 ([process_article], the frame).  [process_article] leaves the two
    summary documents, the username and every file but the article's own as
    they are; it sends no request or one, for the article's identifier and
    ending today; and when it raises [ValueError], [OverflowError] or
    [UnicodeDecodeError], the exceptions of reading the file as text and of
    the date arithmetic, all of lines 153-173, it has written nothing and
    sent nothing.  (A [KeyError] of lines 211-213, for a stored entry without
    one of the three counts, would come after the request; such entries are
    not among the documents of the model.) *)
Theorem process_article_frame (self : fetcher) (net : network) (article : Article.t)
    (w : world) :
  let stem := article_stem (Article.id article) (Article.slug article) in
  let result := process_article self net article w in
  account_json (snd result) = account_json w /\
  top_articles_json (snd result) = top_articles_json w /\
  username (snd result) = username w /\
  (forall name, name <> stem ->
     Py.get name (articles_dir (snd result)) = Py.get name (articles_dir w)) /\
  (requests (snd result) = requests w \/
   exists start_date,
     requests (snd result) = requests w ++ [(Article.id article, start_date, today self)]) /\
  (forall e,
      fst result = Raise e ->
      e = ValueError \/ e = OverflowError \/ e = UnicodeDecodeError ->
      snd result = w).
Proof.
  intros stem result. subst result. rewrite process_article_eq. fold stem.
  destruct (plan_of self (published_date article) (Py.get stem (articles_dir w)))
    as [s ex|ex|e]; simpl; repeat split; eauto;
    try (intros name Hne; apply get_setitem_ne; congruence);
    try (intros e' H; discriminate).
Qed.

(** X14 ([process_article], a file that is up to date).  In normal mode, an
    article whose file is the document written for an ascending breakdown
    ending today or later is left exactly as it is: no request is sent and
    the file written is the file read. *)
Theorem up_to_date_unchanged (self : fetcher) (net : network) (article : Article.t)
    (w : world) (breakdown : list Daily.t) (last : Daily.t) :
  let stem := article_stem (Article.id article) (Article.slug article) in
  from_second_last_day self = false ->
  Py.get stem (articles_dir w) = Some (Json (article_data_of article breakdown)) ->
  ascending breakdown ->
  Py.max Py.str_le Daily.date breakdown = Some last ->
  Calendar.is_iso (Daily.date last) = true ->
  Daily.date last <> "9999-12-31" ->
  Py.str_le (today self) (Daily.date last) = true ->
  process_article self net article w = (Val tt, w).
Proof.
  intros stem Hmode Hfile Hasc Hmax Hiso Hend Htoday.
  rewrite process_article_eq. fold stem. rewrite Hfile.
  destruct (is_iso_inv _ Hiso) as (d & Hd & Hv & Hf).
  destruct (Calendar.add_one_day d) as [n|] eqn:Hn;
    [|exfalso; apply Hend; rewrite <- Hf, (add_one_day_None d Hv Hn); reflexivity].
  assert (Hlater : Py.str_lt (Daily.date last) (Calendar.strftime n) = true).
  { rewrite <- Hf. apply isoformat_lt_strftime; eauto using add_one_day_valid.
    apply add_one_day_later; assumption. }
  assert (Hskip : Py.str_le (Calendar.strftime n) (today self) = false).
  { destruct (Py.str_le (Calendar.strftime n) (today self)) eqn:E; [|reflexivity].
    pose proof (str_le_trans _ _ _ E Htoday) as H.
    apply str_lt_not_le in Hlater. congruence. }
  unfold plan_of. change (breakdown_of (article_data_of article breakdown)) with breakdown.
  rewrite Hmax. cbv zeta. rewrite Hd, Hmode, Hn, Hskip.
  change (breakdown_of (article_data_of article breakdown)) with breakdown.
  rewrite merge_nothing, emitted_seeded_ascending by exact Hasc.
  unfold with_article. rewrite setitem_get_id by exact Hfile.
  destruct w; reflexivity.
Qed.

Lemma up_to_date_unchanged_witness :
  ascending Sample.history_b /\
  process_article (Sample.normal "2024-01-02") (Sample.serving ∅) Sample.article_b
                  Sample.world_b = (Val tt, Sample.world_b).
Proof.
  assert (H : ascending Sample.history_b).
  { repeat constructor. }
  split; [exact H|].
  refine (up_to_date_unchanged (Sample.normal "2024-01-02") (Sample.serving ∅)
            Sample.article_b Sample.world_b Sample.history_b (Sample.day "2024-01-02" 5)
            eq_refl eq_refl H eq_refl eq_refl _ eq_refl).
  discriminate.
Defined.

(** ** File names and rankings *)

Lemma split1_digits (u : Decimal.uint) (rest : string) :
  Py.split1 "-" (NilZero.string_of_uint u ++ String "-" rest) =
  (NilZero.string_of_uint u, Some rest).
Proof.
  assert (H : forall v, Py.split1 "-" (NilEmpty.string_of_uint v ++ String "-" rest) =
                        (NilEmpty.string_of_uint v, Some rest)).
  { induction v as [|v IH|v IH|v IH|v IH|v IH|v IH|v IH|v IH|v IH|v IH]; simpl;
      try rewrite IH; reflexivity. }
  destruct u; try apply H. reflexivity.
Qed.

(** X15 (file name and slug).  For an article with a non-negative
    identifier, the slug [create_top_articles] reads off the file name is the
    article's slug, dashes included; and the entry it builds from the file
    [process_article] writes carries the article's slug and title, the
    organisation if there is one and the user otherwise, and the sums over
    the breakdown. *)
Theorem slug_round_trip (article : Article.t) (breakdown : list Daily.t) :
  0 <= Article.id article ->
  let stem := article_stem (Article.id article) (Article.slug article) in
  slug_of_stem stem = Article.slug article /\
  article_stat (stem, Json (article_data_of article breakdown)) =
  Some (Stat.mk (Article.slug article) (Article.title article)
                (sum_of Daily.views breakdown) (sum_of Daily.reactions breakdown)
                (match Article.organization article with
                 | Some org => Some org
                 | None => Article.user article
                 end)).
Proof.
  intros Hid stem.
  assert (E : slug_of_stem stem = Article.slug article).
  { subst stem. unfold slug_of_stem, article_stem.
    destruct (Article.id article) as [|p|p]; try lia; simpl Z.to_int;
      unfold NilZero.string_of_int; rewrite split1_digits; reflexivity. }
  split; [exact E|]. unfold article_stat, stat_of. cbn [snd fst]. rewrite E.
  reflexivity.
Qed.

Lemma slug_round_trip_witness :
  0 <= Article.id Sample.article_b /\
  slug_of_stem (article_stem 7 "article-b") = "article-b".
Proof.
  assert (H : 0 <= Article.id Sample.article_b) by (simpl; lia).
  split; [exact H|].
  exact (proj1 (slug_round_trip Sample.article_b [] H)).
Defined.

Lemma article_stats_eq (dir : list (string * file)) :
  article_stats dir = omap article_stat dir.
Proof. unfold article_stats. rewrite article_stats_from. reflexivity. Qed.




(** X17 (files the scans skip, and files they do not).  A file of size 0,
    or one on which [json.load] raises [JSONDecodeError], wherever it stands
    in the listing, changes nothing in what [update_account_stats] and
    [create_top_articles] do: the outcome, the account document and the
    rankings are those of the listing without the file.  A file whose bytes
    are not text, or whose JSON value is not an object, is not skipped: both
    scans raise and write nothing. *)
Theorem unreadable_file_ignored (before after : list (string * file)) (name : string)
    (f : file) (articles : list Article.t) (w : world) :
  let at_dir dir :=
    mkworld dir (account_json w) (top_articles_json w) (username w) (requests w) in
  let present := at_dir (before ++ (name, f) :: after) in
  let absent := at_dir (before ++ after) in
  (f = Empty \/ f = Malformed ->
   fst (update_account_stats articles present) = fst (update_account_stats articles absent) /\
   account_json (snd (update_account_stats articles present)) =
   account_json (snd (update_account_stats articles absent)) /\
   fst (create_top_articles present) = fst (create_top_articles absent) /\
   top_articles_json (snd (create_top_articles present)) =
   top_articles_json (snd (create_top_articles absent))) /\
  (f = Undecodable \/ f = NotObject ->
   exists e, (e = UnicodeDecodeError \/ e = AttributeError) /\
             update_account_stats articles present = (Raise e, present) /\
             create_top_articles present = (Raise e, present)).
Proof.
  intros at_dir present absent. subst present absent at_dir.
  rewrite !update_account_stats_eq, !create_top_articles_eq.
  cbn [articles_dir account_json top_articles_json username].
  assert (Happ : forall dir1 dir2,
             scan_error (dir1 ++ dir2) =
             match scan_error dir1 with Some e => Some e | None => scan_error dir2 end).
  { intros dir1 dir2. induction dir1 as [|[k g] dir1 IH]; [reflexivity|].
    simpl. destruct (unreadable g); [reflexivity|exact IH]. }
  split.
  - intros Hf.
    assert (He : scan_error (before ++ (name, f) :: after) = scan_error (before ++ after)).
    { rewrite !Happ. destruct Hf as [-> | ->]; reflexivity. }
    assert (Hr : valid_records (before ++ (name, f) :: after) =
                 valid_records (before ++ after)).
    { unfold valid_records. rewrite !omap_app. destruct Hf as [-> | ->]; reflexivity. }
    assert (Hs : article_stats (before ++ (name, f) :: after) =
                 article_stats (before ++ after)).
    { rewrite !article_stats_eq, !omap_app. destruct Hf as [-> | ->]; reflexivity. }
    assert (Ha : account_data (before ++ (name, f) :: after) articles (username w) =
                 account_data (before ++ after) articles (username w)).
    { unfold account_data. rewrite !scan_files_eq, Hr. reflexivity. }
    assert (Ht : top_articles (before ++ (name, f) :: after) =
                 top_articles (before ++ after)).
    { unfold top_articles. rewrite Hs. reflexivity. }
    rewrite He, Ha, Ht. destruct (scan_error (before ++ after)); auto.
  - intros Hf.
    assert (He : exists e, (e = UnicodeDecodeError \/ e = AttributeError) /\
                           scan_error (before ++ (name, f) :: after) = Some e).
    { rewrite Happ. clear Happ.
      induction before as [|[k g] before IH]; simpl.
      - destruct Hf as [-> | ->]; simpl; eauto.
      - destruct g; simpl; eauto. }
    destruct He as (e & He & ->). exists e. auto.
Qed.

Lemma unreadable_file_ignored_witness :
  let present := Sample.world_of (("0-draft", Malformed) :: Sample.pair) in
  let absent := Sample.world_of Sample.pair in
  let broken := Sample.world_of (("0-draft", Undecodable) :: Sample.pair) in
  account_json (snd (update_account_stats [] present)) =
  account_json (snd (update_account_stats [] absent)) /\
  top_articles_json (snd (create_top_articles present)) =
  top_articles_json (snd (create_top_articles absent)) /\
  exists e, update_account_stats [] broken = (Raise e, broken) /\
            create_top_articles broken = (Raise e, broken).
Proof.
  intros present absent broken.
  destruct (proj1 (unreadable_file_ignored [] Sample.pair "0-draft" Malformed []
                     (Sample.world_of [])) (or_intror eq_refl)) as (_ & Ha & _ & Ht).
  destruct (proj2 (unreadable_file_ignored [] Sample.pair "0-draft" Undecodable []
                     (Sample.world_of [])) (or_introl eq_refl)) as (e & _ & Hu & Hc).
  split; [exact Ha|]. split; [exact Ht|]. exists e. split; [exact Hu|exact Hc].
Defined.

(** ** A whole run *)

Lemma plan_of_crash (self : fetcher) (published_at : string) (f : option file) (e : exn) :
  plan_of self published_at f = Crash e ->
  e = ValueError \/ e = OverflowError \/ e = UnicodeDecodeError \/ e = AttributeError.
Proof.
  unfold plan_of. destruct f as [[| | | |data]|]; try discriminate;
    try (intros [= <-]; auto; fail).
  destruct (Py.max Py.str_le Daily.date (breakdown_of data)); [|discriminate].
  simpl. destruct (Calendar.strptime _); [|intros [= <-]; auto].
  destruct (from_second_last_day self).
  - destruct (Calendar.sub_one_day _); [|intros [= <-]; auto].
    destruct (Py.str_le _ _); discriminate.
  - destruct (Calendar.add_one_day _); [|intros [= <-]; auto].
    destruct (Py.str_le _ _); discriminate.
Qed.

(** [process_article] returns, or raises an error of reading the file or
    of the date arithmetic and leaves everything as it was. *)
Lemma process_article_outcome (self : fetcher) (net : network) (article : Article.t)
    (w : world) :
  (exists w', process_article self net article w = (Val tt, w')) \/
  (exists e, process_article self net article w = (Raise e, w) /\
             is_Exception e = true).
Proof.
  rewrite process_article_eq.
  destruct (plan_of self (published_date article) _) as [s ex|ex|e] eqn:E; eauto.
  right. exists e. split; [reflexivity|].
  destruct (plan_of_crash _ _ _ _ E) as [-> | [-> | [-> | ->]]]; reflexivity.
Qed.

(** The loop over the articles: an invariant of the body is an invariant of
    the loop, and the loop ends as the body does. *)
Lemma for_each_invariant (P : world -> Prop) (self : fetcher) (net : network)
    (articles : list Article.t) (w : world) :
  (forall article w0, P w0 -> P (snd (process_article self net article w0))) ->
  P w -> P (snd (for_each (process_article self net) articles w)).
Proof.
  intros Hstep. revert w. induction articles as [|a l IH]; intros w Hw; simpl; [exact Hw|].
  unfold bind. pose proof (Hstep a w Hw) as H1.
  destruct (process_article self net a w) as [[[]|e|] w1]; simpl in *; auto.
Qed.

Lemma for_each_outcome (self : fetcher) (net : network) (articles : list Article.t)
    (w : world) :
  fst (for_each (process_article self net) articles w) = Val tt \/
  (exists e, fst (for_each (process_article self net) articles w) = Raise e /\
             is_Exception e = true).
Proof.
  revert w. induction articles as [|a l IH]; intros w; simpl; [left; reflexivity|].
  unfold bind.
  destruct (process_article_outcome self net a w) as [(w1 & ->)|(e & -> & He)].
  - apply IH.
  - right. exists e. split; [reflexivity|exact He].
Qed.

Lemma published_pages_outcome (self : fetcher) (net : network) (fuel : nat) :
  forall (page : Z) (all_articles : list Article.t) (w : world),
    match fst (published_pages self net fuel page all_articles w) with
    | Val _ => True
    | Raise e => e = SystemExit 1
    | Unfinished => True
    end.
Proof.
  induction fuel as [|fuel IH]; intros page all_articles w; [exact I|].
  cbn [published_pages].
  unfold bind, try_except, http_json, get_world, set_username.
  destruct (published net (api_key self) page) as [| | |[|[|first rest]]];
    simpl; auto.
  destruct (username_unset (username w)); [destruct (Article.user first)|];
    simpl; apply IH.
Qed.

Lemma scan_error_kind (dir : list (string * file)) (e : exn) :
  scan_error dir = Some e -> e = UnicodeDecodeError \/ e = AttributeError.
Proof.
  induction dir as [|[k f] dir IH]; simpl; [discriminate|].
  destruct f; simpl; try exact IH; intros [= <-]; auto.
Qed.

(** [run], stage by stage. *)
Lemma run_eq (self : fetcher) (net : network) (fuel : nat) (w : world) :
  run self net fuel w =
  match fetch_published_articles self net fuel w with
  | (Val articles, w1) =>
      match for_each (process_article self net) articles w1 with
      | (Val _, w2) =>
          match scan_error (articles_dir w2) with
          | None =>
              (Val tt,
               mkworld (articles_dir w2)
                       (Some (account_data (articles_dir w2) articles (username w2)))
                       (Some (top_articles (articles_dir w2)))
                       (username w2) (requests w2))
          | Some _ => (Raise (SystemExit 1), w2)
          end
      | (Raise e, w2) => (Raise (if is_Exception e then SystemExit 1 else e), w2)
      | (Unfinished, w2) => (Unfinished, w2)
      end
  | (Raise e, w1) => (Raise (if is_Exception e then SystemExit 1 else e), w1)
  | (Unfinished, w1) => (Unfinished, w1)
  end.
Proof.
  unfold run, try_except, bind.
  destruct (fetch_published_articles self net fuel w) as [[articles|e|] w1];
    [|destruct (is_Exception e); reflexivity|reflexivity].
  destruct (for_each (process_article self net) articles w1) as [[[]|e|] w2];
    [|destruct (is_Exception e); reflexivity|reflexivity].
  rewrite update_account_stats_eq.
  destruct (scan_error (articles_dir w2)) as [e|] eqn:E.
  - destruct (scan_error_kind _ _ E) as [-> | ->]; reflexivity.
  - rewrite create_top_articles_eq. cbn [articles_dir]. rewrite E. reflexivity.
Qed.

Lemma for_each_summaries (self : fetcher) (net : network) (articles : list Article.t)
    (w : world) :
  let w' := snd (for_each (process_article self net) articles w) in
  account_json w' = account_json w /\
  top_articles_json w' = top_articles_json w /\
  username w' = username w.
Proof.
  apply (for_each_invariant
           (fun w' => account_json w' = account_json w /\
                      top_articles_json w' = top_articles_json w /\
                      username w' = username w)); [|auto].
  intros article w0 (H1 & H2 & H3). rewrite process_article_eq.
  destruct (plan_of self (published_date article) _); simpl; auto.
Qed.

(** X18 ([run], exit statuses).  Whatever the files and the server hold,
    [run] returns normally or ends in [sys.exit(1)]: every exception raised
    while listing, processing or summarising is turned into status 1, and no
    other status is used.  (The third case is the paging loop still
    running.) *)
Theorem run_exit_status (self : fetcher) (net : network) (fuel : nat) (w : world) :
  fst (run self net fuel w) = Val tt \/
  fst (run self net fuel w) = Raise (SystemExit 1) \/
  fst (run self net fuel w) = Unfinished.
Proof.
  rewrite run_eq.
  pose proof (published_pages_outcome self net fuel 1 [] w) as Hlist.
  unfold fetch_published_articles.
  destruct (published_pages self net fuel 1 [] w) as [[articles|e|] w1]; simpl in Hlist.
  - pose proof (for_each_outcome self net articles w1) as Hloop.
    destruct (for_each (process_article self net) articles w1) as [[[]|e|] w2];
      simpl in *.
    + destruct (scan_error (articles_dir w2)); auto.
    + destruct Hloop as [[=]|(e' & [= <-] & ->)]. auto.
    + destruct Hloop as [[=]|(e' & [=] & _)].
  - subst e. auto.
  - auto.
Qed.

(** X19 ([run], a failed run).  A run that does not return normally has
    written neither [account.json] nor [top_articles.json]: both are as they
    were before the run. *)
Theorem failed_run_keeps_summaries (self : fetcher) (net : network) (fuel : nat)
    (w : world) :
  fst (run self net fuel w) <> Val tt ->
  account_json (snd (run self net fuel w)) = account_json w /\
  top_articles_json (snd (run self net fuel w)) = top_articles_json w.
Proof.
  rewrite run_eq. unfold fetch_published_articles.
  destruct (published_pages_frame self net fuel 1 [] w) as (_ & Ha & Ht & _).
  destruct (published_pages self net fuel 1 [] w) as [[articles|e|] w1]; simpl in *;
    [|auto|auto].
  destruct (for_each_summaries self net articles w1) as (Ha2 & Ht2 & _).
  destruct (for_each (process_article self net) articles w1) as [[[]|e|] w2];
    simpl in *; [destruct (scan_error (articles_dir w2))| |];
    simpl; intros H; try contradiction; split; congruence.
Qed.

Lemma failed_run_keeps_summaries_witness :
  let result := run (Sample.normal "2024-01-02") Sample.listing_breaks 5 Sample.world_b in
  fst result <> Val tt /\
  account_json (snd result) = None /\
  top_articles_json (snd result) = None.
Proof.
  intros result.
  assert (H : fst result <> Val tt) by (vm_compute; discriminate).
  split; [exact H|].
  exact (failed_run_keeps_summaries (Sample.normal "2024-01-02") Sample.listing_breaks 5
           Sample.world_b H).
Defined.

(** X20 ([run], the summary documents).  After a run that returns normally,
    [account.json] is the account document of the directory as the run leaves
    it, counting the articles the listing returned and naming the username
    the listing left; and [top_articles.json] holds the rankings of that
    same directory. *)
Theorem run_writes_summaries (self : fetcher) (net : network) (fuel : nat)
    (w w' : world) :
  run self net fuel w = (Val tt, w') ->
  exists articles w1,
    fetch_published_articles self net fuel w = (Val articles, w1) /\
    username w' = username w1 /\
    account_json w' = Some (account_data (articles_dir w') articles (username w')) /\
    top_articles_json w' = Some (top_articles (articles_dir w')) /\
    (forall account, account_json w' = Some account ->
                     Account.articles account = length articles).
Proof.
  rewrite run_eq.
  destruct (fetch_published_articles self net fuel w) as [[articles|e|] w1];
    [|discriminate|discriminate].
  destruct (for_each_summaries self net articles w1) as (_ & _ & Hu).
  destruct (for_each (process_article self net) articles w1) as [[[]|e|] w2];
    [|discriminate|discriminate].
  destruct (scan_error (articles_dir w2)); [discriminate|].
  simpl in Hu. intros [= <-]. exists articles, w1. simpl.
  repeat split; try assumption. intros account [= <-]. reflexivity.
Qed.

Lemma run_writes_summaries_witness :
  let result := run (Sample.normal "2024-01-02") (Sample.serving ∅) 5 Sample.world_b in
  fst result = Val tt /\
  exists articles w1,
    fetch_published_articles (Sample.normal "2024-01-02") (Sample.serving ∅) 5
                             Sample.world_b = (Val articles, w1) /\
    username (snd result) = username w1 /\
    account_json (snd result) =
    Some (account_data (articles_dir (snd result)) articles (username (snd result))) /\
    top_articles_json (snd result) = Some (top_articles (articles_dir (snd result))) /\
    (forall account, account_json (snd result) = Some account ->
                     Account.articles account = length articles).
Proof.
  intros result.
  assert (E : result = (Val tt, snd result)) by (vm_compute; reflexivity).
  split; [rewrite E; reflexivity|].
  exact (run_writes_summaries (Sample.normal "2024-01-02") (Sample.serving ∅) 5
           Sample.world_b (snd result) E).
Defined.

Lemma for_each_requests (self : fetcher) (net : network) (articles : list Article.t) :
  forall w : world,
    exists sent : list (Article.t * string),
      (fst <$> sent) `sublist_of` articles /\
      requests (snd (for_each (process_article self net) articles w)) =
      requests w ++ ((fun p => (Article.id p.1, p.2, today self)) <$> sent).
Proof.
  induction articles as [|a l IH]; intros w; cbn [for_each].
  - exists []. split; [constructor|]. simpl. rewrite app_nil_r. reflexivity.
  - unfold bind. rewrite process_article_eq.
    destruct (plan_of self (published_date a) _) as [s ex|ex|e].
    + match goal with |- context [for_each _ l ?w1] =>
        destruct (IH w1) as (sent & Hsub & E) end.
      exists ((a, s) :: sent). split; [apply sublist_skip; exact Hsub|].
      rewrite E. simpl. rewrite <- app_assoc. reflexivity.
    + match goal with |- context [for_each _ l ?w1] =>
        destruct (IH w1) as (sent & Hsub & E) end.
      exists sent. split; [apply sublist_cons; exact Hsub|].
      rewrite E. reflexivity.
    + exists []. split; [apply sublist_nil_l|]. simpl. rewrite app_nil_r. reflexivity.
Qed.

(** X21 ([run], the analytics requests).  The analytics requests of a run
    go, in the order of the listing, to some of the articles the listing
    returned, one request for each of those and none for the others: an
    article listed once is asked for at most once.  Each request is for the
    article's identifier and ends today.  A run whose listing does not
    return sends none. *)
Theorem run_requests (self : fetcher) (net : network) (fuel : nat) (w : world) :
  exists sent : list (Article.t * string),
    requests (snd (run self net fuel w)) =
    requests w ++ ((fun p => (Article.id p.1, p.2, today self)) <$> sent) /\
    match fst (fetch_published_articles self net fuel w) with
    | Val articles => (fst <$> sent) `sublist_of` articles
    | _ => sent = []
    end.
Proof.
  rewrite run_eq. unfold fetch_published_articles.
  destruct (published_pages_frame self net fuel 1 [] w) as (_ & _ & _ & Hr & _).
  destruct (published_pages self net fuel 1 [] w) as [[articles|e|] w1]; simpl in Hr.
  - destruct (for_each_requests self net articles w1) as (sent & Hsub & E).
    exists sent. rewrite <- Hr. split; [|exact Hsub].
    destruct (for_each (process_article self net) articles w1) as [[[]|e|] w2];
      [destruct (scan_error (articles_dir w2))| |]; exact E.
  - exists []. simpl. rewrite app_nil_r. auto.
  - exists []. simpl. rewrite app_nil_r. auto.
Qed.

Lemma process_article_normal_form (self : fetcher) (net : network) (article : Article.t)
    (w : world) :
  let stem := article_stem (Article.id article) (Article.slug article) in
  let result := process_article self net article w in
  (fst result = Val tt -> normal_form_at stem (articles_dir (snd result))) /\
  (forall name, normal_form_at name (articles_dir w) ->
                normal_form_at name (articles_dir (snd result))).
Proof.
  intros stem result. subst result. rewrite process_article_eq. fold stem.
  assert (Hnew : forall a b w0,
             normal_form_at stem
               (articles_dir (with_article stem
                                (article_data_of article (merge_breakdown a b)) w0))).
  { intros a b w0. eexists. split; [apply get_setitem_eq|]. split.
    - apply merge_breakdown_ascending.
    - apply article_data_of_consistent. }
  assert (Hold : forall data w0 name,
             normal_form_at stem (articles_dir (with_article stem data w0)) ->
             normal_form_at name (articles_dir w0) ->
             normal_form_at name (articles_dir (with_article stem data w0))).
  { intros data w0 name Hs Hn. destruct (decide (stem = name)) as [<-|Hne]; [exact Hs|].
    destruct Hn as (d & Hg & Hd). exists d. split; [|exact Hd].
    simpl. rewrite get_setitem_ne by exact Hne. exact Hg. }
  destruct (plan_of self (published_date article) _) as [s ex|ex|e]; simpl fst; simpl snd.
  - split; [intros _; apply Hnew|intros name H; apply Hold; [apply Hnew|exact H]].
  - split; [intros _; apply Hnew|intros name H; apply Hold; [apply Hnew|exact H]].
  - split; [discriminate|auto].
Qed.

Lemma for_each_normal_form (self : fetcher) (net : network) (articles : list Article.t) :
  forall w : world,
    let result := for_each (process_article self net) articles w in
    (forall name, normal_form_at name (articles_dir w) ->
                  normal_form_at name (articles_dir (snd result))) /\
    (fst result = Val tt ->
     forall article, article ∈ articles ->
       normal_form_at (article_stem (Article.id article) (Article.slug article))
                      (articles_dir (snd result))).
Proof.
  induction articles as [|a l IH]; intros w; simpl.
  - split; [auto|]. intros _ article H. apply elem_of_nil in H. contradiction.
  - unfold bind.
    destruct (process_article_normal_form self net a w) as [Hnew Hold].
    destruct (process_article self net a w) as [[[]|e|] w1]; simpl in *.
    + destruct (IH w1) as [Hkeep Hall]. split.
      * intros name H. apply Hkeep, Hold, H.
      * intros Hval article Hin. apply elem_of_cons in Hin as [->|Hin].
        -- apply Hkeep, Hnew. reflexivity.
        -- apply Hall; assumption.
    + split; [exact Hold|discriminate].
    + split; [exact Hold|discriminate].
Qed.

(** X22 ([run], the files of the listed articles).  After a run that returns
    normally, every article the listing returned has a file, and that file
    is in normal form: its breakdown is ascending by date with no date twice
    and its totals are the sums over the breakdown.  A file that was in
    normal form before the run, listed or not, still is. *)
Theorem run_normal_forms (self : fetcher) (net : network) (fuel : nat) (w w' : world) :
  run self net fuel w = (Val tt, w') ->
  (exists articles w1,
      fetch_published_articles self net fuel w = (Val articles, w1) /\
      forall article, article ∈ articles ->
        normal_form_at (article_stem (Article.id article) (Article.slug article))
                       (articles_dir w')) /\
  (forall name, normal_form_at name (articles_dir w) ->
                normal_form_at name (articles_dir w')).
Proof.
  rewrite run_eq. unfold fetch_published_articles.
  destruct (published_pages_frame self net fuel 1 [] w) as (Hd & _).
  destruct (published_pages self net fuel 1 [] w) as [[articles|e|] w1];
    [|discriminate|discriminate].
  destruct (for_each_normal_form self net articles w1) as [Hkeep Hall].
  destruct (for_each (process_article self net) articles w1) as [[[]|e|] w2];
    [|discriminate|discriminate].
  destruct (scan_error (articles_dir w2)); [discriminate|].
  simpl in *. intros [= <-]. simpl. split.
  - exists articles, w1. split; [reflexivity|]. apply Hall. reflexivity.
  - intros name H. apply Hkeep. rewrite Hd. exact H.
Qed.

Lemma run_normal_forms_witness :
  let result := run (Sample.normal "2024-01-02") Sample.analytics_down 5 Sample.world_messy in
  fst result = Val tt /\
  normal_form_at "3-article-a" (articles_dir (snd result)) /\
  normal_form_at "7-article-b" (articles_dir (snd result)).
Proof.
  intros result.
  assert (E : result = (Val tt, snd result)) by (vm_compute; reflexivity).
  split; [rewrite E; reflexivity|].
  destruct (run_normal_forms (Sample.normal "2024-01-02") Sample.analytics_down 5
              Sample.world_messy (snd result) E) as [(articles & w1 & Hl & Hall) _].
  injection Hl as <- _.
  split.
  - apply (Hall Sample.article_a). apply list_elem_of_here.
  - apply (Hall Sample.article_b). apply list_elem_of_further, list_elem_of_here.
Defined.

Lemma valid_records_setitem (P : ArticleData.t -> Prop) (dir : list (string * file))
    (k : string) (data : ArticleData.t) :
  Forall P (valid_records dir) -> P data ->
  Forall P (valid_records (Py.setitem k (Json data) dir)).
Proof.
  intros H Hd. unfold valid_records in *.
  induction dir as [|[k' f] dir IH]; simpl.
  - repeat constructor. exact Hd.
  - destruct (String.eqb k' k).
    + destruct f; csimpl in *; try (constructor; [exact Hd|exact H]).
      apply Forall_cons in H as [_ H]. constructor; assumption.
    + destruct f; csimpl in *; try (apply IH; exact H).
      apply Forall_cons in H as [Hf H]. constructor; [exact Hf|apply IH; exact H].
Qed.

Lemma account_data_consistent (dir : list (string * file)) (articles : list Article.t)
    (username : option string) :
  Forall totals_consistent (valid_records dir) ->
  account_consistent (account_data dir articles username).
Proof.
  intros Hall. unfold account_consistent, account_data. rewrite scan_files_eq. simpl.
  destruct (total_of_consistent _ Hall) as (Hv & Hc & Hr).
  rewrite Hv, Hc, Hr.
  rewrite !sum_aggregate_by_date by (intros; reflexivity). auto.
Qed.

(** X23 ([run], the account totals).  When the totals of every file that
    parses agree with its breakdown before the run, they still do after a run
    that returns normally, and the totals of the account document written
    are the sums over the account's breakdown. *)
Theorem run_account_consistent (self : fetcher) (net : network) (fuel : nat)
    (w w' : world) :
  run self net fuel w = (Val tt, w') ->
  Forall totals_consistent (valid_records (articles_dir w)) ->
  Forall totals_consistent (valid_records (articles_dir w')) /\
  exists account, account_json w' = Some account /\ account_consistent account.
Proof.
  rewrite run_eq. unfold fetch_published_articles.
  destruct (published_pages_frame self net fuel 1 [] w) as (Hd & _).
  destruct (published_pages self net fuel 1 [] w) as [[articles|e|] w1];
    [|discriminate|discriminate].
  simpl in Hd.
  pose proof (for_each_invariant
                (fun w0 => Forall totals_consistent (valid_records (articles_dir w0)))
                self net articles w1) as Hinv.
  destruct (for_each (process_article self net) articles w1) as [[[]|e|] w2];
    [|discriminate|discriminate].
  destruct (scan_error (articles_dir w2)); [discriminate|].
  intros [= <-] Hall. simpl in *.
  assert (H2 : Forall totals_consistent (valid_records (articles_dir w2))).
  { apply Hinv; [|rewrite Hd; exact Hall].
    intros article w0 H0. rewrite process_article_eq.
    destruct (plan_of self (published_date article) _); simpl; try exact H0;
      (apply valid_records_setitem; [exact H0|apply article_data_of_consistent]). }
  split; [exact H2|]. eexists. split; [reflexivity|].
  apply account_data_consistent. exact H2.
Qed.

Lemma run_account_consistent_witness :
  let result := run (Sample.normal "2024-01-02") (Sample.serving ∅) 5 Sample.world_b in
  fst result = Val tt /\
  Forall totals_consistent (valid_records (articles_dir Sample.world_b)) /\
  exists account, account_json (snd result) = Some account /\ account_consistent account.
Proof.
  intros result.
  assert (E : result = (Val tt, snd result)) by (vm_compute; reflexivity).
  assert (H : Forall totals_consistent (valid_records (articles_dir Sample.world_b))).
  { repeat constructor. }
  split; [rewrite E; reflexivity|]. split; [exact H|].
  exact (proj2 (run_account_consistent (Sample.normal "2024-01-02") (Sample.serving ∅) 5
                  Sample.world_b (snd result) E H)).
Defined.

(** ** The charts *)

Lemma str_length_app (a b : string) :
  String.length (a ++ b) = (String.length a + String.length b)%nat.
Proof. induction a as [|c a IH]; simpl; [reflexivity|]. rewrite IH. reflexivity. Qed.

Lemma length_substring (n : nat) (s : string) :
  String.length (String.substring 0 n s) = Nat.min n (String.length s).
Proof.
  revert s. induction n as [|n IH]; intros [|c s]; simpl; try reflexivity.
  rewrite IH. reflexivity.
Qed.

Lemma substring_prefix (n : nat) (s : string) :
  exists rest, s = (String.substring 0 n s ++ rest)%string.
Proof.
  revert s. induction n as [|n IH]; intros [|c s]; simpl; eauto.
  destruct (IH s) as [rest E]. exists rest.
  change (String c s = String c (String.substring 0 n s ++ rest)%string).
  congruence.
Qed.

(** X24 ([truncate_title]).  A title no longer than the limit is returned
    as it is.  With a limit of at least 3, a longer title is cut to a
    beginning of it followed by three dots, of exactly the limit's length.
    With a limit below 3 the slice counts from the end, and the result is
    longer than the limit: the title's length plus the limit. *)
Theorem truncate_title_length (title : string) (max_length : Z) :
  let result := truncate_title title max_length in
  let len := Z.of_nat (String.length title) in
  (len <= max_length -> result = title) /\
  (3 <= max_length < len ->
   Z.of_nat (String.length result) = max_length /\
   exists kept rest, result = (kept ++ "...")%string /\ title = (kept ++ rest)%string) /\
  (0 <= max_length < 3 -> 3 <= len ->
   Z.of_nat (String.length result) = len + max_length).
Proof.
  intros result len. subst result len. unfold truncate_title.
  rewrite Z.gtb_ltb.
  destruct (Z.ltb_spec max_length (Z.of_nat (String.length title))) as [Hlong|Hshort].
  - split; [lia|]. unfold Slice.str_to, Slice.stop_of. split.
    + intros [H3 _]. destruct (Z.leb_spec 0 (max_length - 3)); [|lia]. split.
      * rewrite str_length_app, length_substring. simpl. lia.
      * destruct (substring_prefix (Z.to_nat (max_length - 3)) title) as [rest E].
        eauto.
    + intros [H0 H3] Hlen. destruct (Z.leb_spec 0 (max_length - 3)); [lia|].
      rewrite str_length_app, length_substring. simpl. lia.
  - split; [reflexivity|]. split; lia.
Qed.







Global Instance count_ge_order : Py.KeyOrder count_ge.
Proof.
  unfold count_ge. split.
  - intros a b. destruct (Z.leb_spec b a); [auto|]. right. apply Z.leb_le. lia.
  - intros a b c H1 H2. apply Z.leb_le in H1, H2. apply Z.leb_le. lia.
  - intros a b H1 H2. apply Z.leb_le in H1, H2. lia.
Qed.

Lemma colors_NoDup : NoDup colors.
Proof. refine (bool_decide_unpack _ _). vm_compute. exact I. Qed.

(** X27 ([get_top_referrers]).  The result is made of the referrers with
    the largest counts, in descending order of count: no referrer left out
    has a larger count than one that was kept; for a count that is not
    negative it has that many entries, or all of them if there are fewer.
    Every entry has a colour of the palette and a display name, "Direct
    Traffic" standing for a missing domain; and as long as there are no more
    entries than colours, no two entries share a colour. *)
Theorem get_top_referrers_top (referrers : list Referrer.t) (count : Z) :
  let result := get_top_referrers referrers count in
  exists kept rest,
    referrers ≡ₚ kept ++ rest /\
    result = imap with_color kept /\
    (forall a b, a ∈ kept -> b ∈ rest -> Referrer.count b <= Referrer.count a) /\
    StronglySorted (fun a b => Referrer.count b <= Referrer.count a) kept /\
    (0 <= count -> length result = Nat.min (Z.to_nat count) (length referrers)) /\
    (forall r, r ∈ result ->
       (exists c, Referrer.color r = Some c /\ c ∈ colors) /\
       Referrer.display_name r = Some (default "Direct Traffic" (Referrer.domain r))) /\
    ((length result <= length colors)%nat -> NoDup (Referrer.color <$> result)).
Proof.
  intros result. subst result. unfold get_top_referrers, Slice.list_to.
  set (sorted_referrers := Py.sorted count_ge Referrer.count referrers).
  set (n := Slice.stop_of count (length sorted_referrers)).
  assert (Hs : StronglySorted (fun a b => Referrer.count b <= Referrer.count a)
                              sorted_referrers).
  { pose proof (sorted_StronglySorted count_ge Referrer.count referrers) as H.
    fold sorted_referrers in H.
    induction H as [|x l Hl IH Hall]; constructor; [exact IH|].
    eapply Forall_impl; [exact Hall|]. intros y Hy. apply Z.leb_le. exact Hy. }
  pose proof (take_drop n sorted_referrers) as Htd.
  exists (take n sorted_referrers), (drop n sorted_referrers).
  split; [|split; [|split; [|split; [|split; [|split]]]]].
  - rewrite Htd. symmetry. apply (sorted_Permutation count_ge).
  - reflexivity.
  - intros a b Ha Hb. rewrite <- Htd in Hs.
    apply (StronglySorted_app_1_elem_of _ _ _ _ _ Hs Ha Hb).
  - rewrite <- Htd in Hs. apply StronglySorted_app_1_l in Hs. exact Hs.
  - intros Hc. rewrite length_imap, length_take. subst n. unfold Slice.stop_of.
    destruct (Z.leb_spec 0 count); [|lia]. subst sorted_referrers.
    rewrite (Permutation_length (sorted_Permutation count_ge Referrer.count referrers)).
    reflexivity.
  - intros r Hr. apply list_elem_of_lookup in Hr as [i Hi].
    apply list_lookup_imap_Some in Hi as (x & _ & ->). simpl. split.
    + destruct (lookup_lt_is_Some_2 colors (i mod length colors)%nat) as [c Hc].
      { apply Nat.mod_upper_bound. discriminate. }
      exists c. split; [exact Hc|]. apply list_elem_of_lookup. eauto.
    + destruct (Referrer.domain x); reflexivity.
  - rewrite length_imap. intros Hlen. apply NoDup_alt. intros i j c Hi Hj.
    rewrite list_lookup_fmap, list_lookup_imap in Hi, Hj.
    assert (Hb : forall k (x : option Referrer.t),
               Referrer.color <$> (with_color k <$> x) = Some c ->
               (k < length (take n sorted_referrers))%nat ->
               colors !! k = c).
    { intros k [x|] H Hk; [|discriminate].
      change (Some (colors !! (k mod length colors)%nat) = Some c) in H.
      rewrite Nat.mod_small in H by lia. congruence. }
    assert (Hi' : (i < length (take n sorted_referrers))%nat).
    { apply lookup_lt_is_Some. destruct (take n sorted_referrers !! i); [eauto|discriminate]. }
    assert (Hj' : (j < length (take n sorted_referrers))%nat).
    { apply lookup_lt_is_Some. destruct (take n sorted_referrers !! j); [eauto|discriminate]. }
    pose proof (Hb i _ Hi Hi') as Ci. pose proof (Hb j _ Hj Hj') as Cj.
    destruct c as [x|].
    + apply (NoDup_lookup colors i j x colors_NoDup Ci Cj).
    + destruct (lookup_lt_is_Some_2 colors i ltac:(lia)) as [x Hx]. congruence.
Qed.

(** ** Repeated runs, and the two summaries side by side *)

(** X28 ([process_article], a second failed fetch).  In normal mode, while
    the analytics endpoint cannot be reached, processing an article a second
    time changes no file: what the first pass wrote is what the second pass
    writes. *)
Theorem failed_fetch_idempotent (self : fetcher) (net : network) (article : Article.t)
    (w : world) :
  let stem := article_stem (Article.id article) (Article.slug article) in
  let w1 := snd (process_article self net article w) in
  let w2 := snd (process_article self net article w1) in
  from_second_last_day self = false ->
  (forall start_date,
      fetch_fails (historical net (api_key self) (Article.id article) start_date (today self))) ->
  well_dated (Py.get stem (articles_dir w)) ->
  fst (process_article self net article w) = Val tt /\
  fst (process_article self net article w1) = Val tt /\
  articles_dir w2 = articles_dir w1.
Proof.
  intros stem w1 w2 Hmode Hdown Hw.
  pose proof (plan_of_well_dated self (published_date article) _ Hw) as Hc.
  pose proof (fun ex => plan_of_existing self (published_date article)
                          (Py.get stem (articles_dir w)) ex) as Hex.
  assert (Hstep : exists ex,
             well_dated (Some (Json ex)) /\
             fst (process_article self net article w) = Val tt /\
             articles_dir w1 =
             Py.setitem stem
               (Json (article_data_of article (merge_breakdown (breakdown_of ex) [])))
               (articles_dir w)).
  { subst w1. rewrite process_article_eq. fold stem.
    destruct (plan_of self (published_date article) (Py.get stem (articles_dir w)))
      as [s ex|ex|e]; [| |exfalso; eapply Hc; reflexivity]; exists ex.
    - rewrite response_of_fails by apply Hdown.
      split; [apply Hex; [left; eauto|exact Hw]|]. split; reflexivity.
    - split; [apply Hex; [right; reflexivity|exact Hw]|]. split; reflexivity. }
  destruct Hstep as (ex & Hwex & Hv1 & E1).
  set (data1 := article_data_of article (merge_breakdown (breakdown_of ex) [])) in *.
  assert (Hget1 : Py.get stem (articles_dir w1) = Some (Json data1)).
  { rewrite E1. apply get_setitem_eq. }
  assert (Hwd1 : well_dated (Some (Json data1))).
  { simpl in *. unfold breakdown_of at 1. simpl.
    apply Forall_forall. intros x Hx. apply merge_nothing_subset in Hx.
    rewrite Forall_forall in Hwex. apply Hwex. exact Hx. }
  assert (Hasc1 : ascending (breakdown_of data1)) by apply merge_breakdown_ascending.
  destruct (failed_fetch_keeps_history self net article w1 data1 Hmode Hget1 Hwd1 Hasc1 Hdown)
    as [Hv2 Hget2].
  split; [exact Hv1|]. split; [exact Hv2|].
  subst w2. revert Hv2 Hget2. rewrite process_article_eq. fold stem.
  destruct (plan_of self (published_date article) (Py.get stem (articles_dir w1)))
    as [s ex2|ex2|e]; simpl; intros Hv2 Hget2; [| |discriminate];
    rewrite get_setitem_eq in Hget2;
    apply setitem_get_id; rewrite Hget1; symmetry; exact Hget2.
Qed.

Lemma failed_fetch_idempotent_witness :
  let self := Sample.normal "2024-01-02" in
  let w1 := snd (process_article self Sample.analytics_down Sample.article_b
                                 Sample.world_messy) in
  let w2 := snd (process_article self Sample.analytics_down Sample.article_b w1) in
  well_dated (Py.get "7-article-b" (articles_dir Sample.world_messy)) /\
  articles_dir w1 <> articles_dir Sample.world_messy /\
  articles_dir w2 = articles_dir w1.
Proof.
  intros self w1 w2.
  assert (Hw : well_dated (Py.get "7-article-b" (articles_dir Sample.world_messy))).
  { repeat constructor. }
  split; [exact Hw|]. split; [vm_compute; discriminate|].
  exact (proj2 (proj2 (failed_fetch_idempotent self Sample.analytics_down Sample.article_b
                         Sample.world_messy eq_refl (fun _ => I) Hw))).
Defined.







(** ** The history merged into and the document written *)


(** Overwriting with nothing changes nothing. *)
Lemma merge_by_map_empty (prior : list Daily.t) :
  merge_by_map prior ∅ = emitted (seeded prior).
Proof.
  unfold merge_by_map, overwritten. rewrite map_imap_empty, (left_id_L ∅ (∪)).
  reflexivity.
Qed.




(** * The stated properties *)

(** C1 (merge idempotence).  Merging the entries of a fetched mapping into
    the result of merging them once gives that result again: the breakdown is
    the same, it has no date twice, and the three totals are the same. *)
Theorem merge_idempotence (prior : list Daily.t) (fetched : gmap string Raw.t) :
  let once := merge_breakdown prior (new_breakdown_of fetched) in
  let twice := merge_breakdown once (new_breakdown_of fetched) in
  twice = once /\
  NoDup (Daily.date <$> twice) /\
  sum_of Daily.views twice = sum_of Daily.views once /\
  sum_of Daily.comments twice = sum_of Daily.comments once /\
  sum_of Daily.reactions twice = sum_of Daily.reactions once.
Proof.
  intros once twice.
  assert (E : twice = once) by apply merge_breakdown_again.
  split; [exact E|]. split.
  - apply ascending_NoDup, merge_breakdown_ascending.
  - rewrite E. auto.
Qed.




(** C3 (merge semantics).  The merged breakdown is what the design document
    describes: the values of the map seeded with the prior entries and
    overwritten by the fetched ones, in ascending order of date with no date
    twice; on a fetched date the entry is the fetched one. *)
Theorem merge_semantics (prior : list Daily.t) (fetched : gmap string Raw.t) :
  let result := merge_breakdown prior (new_breakdown_of fetched) in
  result = merge_by_map prior fetched /\
  ascending result /\
  (forall date data item,
      fetched !! date = Some data -> item ∈ result -> Daily.date item = date ->
      item = daily_entry date data) /\
  (forall date data, fetched !! date = Some data -> daily_entry date data ∈ result).
Proof.
  intros result.
  assert (E : result = merge_by_map prior fetched) by apply merge_breakdown_by_map.
  assert (Hd : dated (overwritten (seeded prior) fetched)).
  { apply union_dated; [apply imap_dated|apply seeded_dated]. }
  assert (Hf : forall date data, fetched !! date = Some data ->
               overwritten (seeded prior) fetched !! date = Some (daily_entry date data)).
  { intros date data H. unfold overwritten. apply lookup_union_Some_l.
    rewrite map_lookup_imap, H. reflexivity. }
  split; [exact E|]. split; [apply merge_breakdown_ascending|]. split.
  - intros date data item H Hin <-. rewrite E in Hin.
    apply (elem_of_emitted _ Hd) in Hin. rewrite (Hf _ _ H) in Hin. congruence.
  - intros date data H. rewrite E. apply (elem_of_emitted _ Hd). simpl.
    apply Hf. exact H.
Qed.

(** C4 (totals invariant).  Whatever [process_article] changes in the
    directory is a document whose totals are the sums over its breakdown;
    and when the totals of every record that parses agree with its
    breakdown, the totals of the account document [update_account_stats]
    writes are the sums over the account's breakdown.  It writes one unless a
    file stops its scan, in which case it raises and leaves everything as it
    was. *)
Theorem totals_invariant (self : fetcher) (net : network) (article : Article.t)
    (articles : list Article.t) (w : world) :
  (forall name,
      let w' := snd (process_article self net article w) in
      Py.get name (articles_dir w') <> Py.get name (articles_dir w) ->
      exists data, Py.get name (articles_dir w') = Some (Json data) /\
                   totals_consistent data) /\
  (Forall totals_consistent (valid_records (articles_dir w)) ->
   scan_error (articles_dir w) = None ->
   fst (update_account_stats articles w) = Val tt /\
   exists account,
     account_json (snd (update_account_stats articles w)) = Some account /\
     Account.views account = sum_of Daily.views (Account.breakdown account) /\
     Account.comments account = sum_of Daily.comments (Account.breakdown account) /\
     Account.reactions account = sum_of Daily.reactions (Account.breakdown account)) /\
  (forall e, scan_error (articles_dir w) = Some e ->
             update_account_stats articles w = (Raise e, w)).
Proof.
  split; [|split].
  - intros name w'. subst w'. rewrite process_article_eq.
    set (stem := article_stem (Article.id article) (Article.slug article)).
    assert (Hw : forall data w0,
               Py.get name (Py.setitem stem (Json data) (articles_dir w0)) <>
               Py.get name (articles_dir w0) ->
               totals_consistent data ->
               exists data', Py.get name (Py.setitem stem (Json data) (articles_dir w0)) =
                             Some (Json data') /\ totals_consistent data').
    { intros data w0 Hne Hc. destruct (decide (stem = name)) as [<-|N].
      - exists data. split; [apply get_setitem_eq|exact Hc].
      - exfalso. apply Hne. rewrite !get_lookup, setitem_insert.
        apply lookup_insert_ne. exact N. }
    destruct (plan_of self (published_date article) (Py.get stem (articles_dir w)));
      simpl; intros Hne.
    + apply (Hw _ w); [exact Hne|apply article_data_of_consistent].
    + apply (Hw _ w); [exact Hne|apply article_data_of_consistent].
    + contradiction.
  - intros Hall Hscan. rewrite update_account_stats_eq, Hscan.
    split; [reflexivity|]. eexists. split; [reflexivity|].
    unfold account_data. rewrite scan_files_eq. simpl.
    destruct (total_of_consistent _ Hall) as (Hv & Hc & Hr).
    rewrite Hv, Hc, Hr.
    rewrite !sum_aggregate_by_date by (intros; reflexivity). auto.
  - intros e Hscan. rewrite update_account_stats_eq, Hscan. reflexivity.
Qed.

Lemma totals_invariant_witness :
  let self := Sample.normal "2024-01-02" in
  let w' := snd (process_article self Sample.analytics_down Sample.article_b
                                 Sample.world_messy) in
  Py.get "7-article-b" (articles_dir w') <>
  Py.get "7-article-b" (articles_dir Sample.world_messy) /\
  (exists data, Py.get "7-article-b" (articles_dir w') = Some (Json data) /\
                totals_consistent data) /\
  Forall totals_consistent (valid_records (articles_dir Sample.world_b)) /\
  scan_error (articles_dir Sample.world_b) = None /\
  (exists account,
    account_json (snd (update_account_stats [Sample.article_b] Sample.world_b)) =
    Some account /\
    Account.views account = sum_of Daily.views (Account.breakdown account) /\
    Account.comments account = sum_of Daily.comments (Account.breakdown account) /\
    Account.reactions account = sum_of Daily.reactions (Account.breakdown account)) /\
  scan_error (articles_dir Sample.world_undecodable) = Some UnicodeDecodeError /\
  update_account_stats [Sample.article_b] Sample.world_undecodable =
  (Raise UnicodeDecodeError, Sample.world_undecodable).
Proof.
  intros self w'.
  assert (Hne : Py.get "7-article-b" (articles_dir w') <>
                Py.get "7-article-b" (articles_dir Sample.world_messy))
    by (vm_compute; discriminate).
  assert (H : Forall totals_consistent (valid_records (articles_dir Sample.world_b))).
  { repeat constructor. }
  split; [exact Hne|]. split.
  { exact (proj1 (totals_invariant self Sample.analytics_down Sample.article_b []
                    Sample.world_messy) "7-article-b" Hne). }
  split; [exact H|]. split; [reflexivity|]. split.
  { exact (proj2 (proj1 (proj2 (totals_invariant self Sample.analytics_down
                  Sample.article_b [Sample.article_b] Sample.world_b)) H eq_refl)). }
  split; [reflexivity|].
  exact (proj2 (proj2 (totals_invariant self Sample.analytics_down
                  Sample.article_b [Sample.article_b] Sample.world_undecodable))
           UnicodeDecodeError eq_refl).
Defined.












(** C9 (fatal-error taxonomy).  The process exits with status 1 when [.env]
    is missing, when no line of it sets a key, and when the listing of
    published articles fails on some page (a transport error, an error status
    such as the one for a rejected key, a body that is not JSON, or an error
    object) after any number of good pages.  A failed analytics request gives
    the empty mapping; once [process_article] has sent its request it returns
    normally and the loop takes the next article; and a run in which every
    analytics request fails still ends with status 0. *)
Theorem fatal_error_taxonomy (h : host) (net : network) (fuel : nat) (w : world) :
  let status := exit_status (fst (main h net fuel w)) in
  (dotenv h = None -> status = Some 1) /\
  (forall lines,
      dotenv h = Some lines -> Forall (fun line => names_key line = false) lines ->
      status = Some 1) /\
  (forall key n,
      fst (_load_api_key (dotenv h) w) = Val key -> (n < fuel)%nat ->
      (forall i : nat, (i < n)%nat -> page_of_articles (published net key (1 + Z.of_nat i))) ->
      listing_fails (published net key (1 + Z.of_nat n)) ->
      status = Some 1) /\
  (forall self article_id start_date end_date w1,
      fetch_fails (historical net (api_key self) article_id start_date end_date) ->
      fetch_article_analytics self net article_id start_date end_date w1 =
      (Val ∅, with_request (article_id, start_date, end_date) w1)) /\
  (forall self article rest w1,
      requests (snd (process_article self net article w1)) <> requests w1 ->
      fst (process_article self net article w1) = Val tt /\
      for_each (process_article self net) (article :: rest) w1 =
      for_each (process_article self net) rest (snd (process_article self net article w1))) /\
  (forall key articles w1,
      fst (_load_api_key (dotenv h) w) = Val key ->
      fetch_published_articles (mkfetcher key (now h) (flag_from_second_last_day h))
                               net fuel w = (Val articles, w1) ->
      dir_well_dated (articles_dir w) ->
      (forall article_id start_date end_date,
          fetch_fails (historical net key article_id start_date end_date)) ->
      status = Some 0).
Proof.
  intros status. subst status. repeat split.
  - intros Hnone. rewrite main_without_key; [reflexivity|]. rewrite Hnone. reflexivity.
  - intros lines Hsome Hall. rewrite main_without_key; [reflexivity|].
    rewrite Hsome, load_api_key_no_key by exact Hall. reflexivity.
  - intros key n Hkey Hfuel Hpages Hfail. rewrite (main_with_key _ _ _ _ key Hkey).
    destruct (published_pages_fails (mkfetcher key (now h) (flag_from_second_last_day h))
                net n fuel 1 [] w Hfuel Hpages Hfail) as (e & w' & E & He).
    rewrite (run_listing_fails _ _ _ _ e w' E He). reflexivity.
  - intros self article_id start_date end_date w1 Hfail.
    rewrite fetch_article_analytics_eq. unfold fetch_fails in Hfail.
    destruct (historical net (api_key self) article_id start_date end_date);
      try reflexivity. contradiction.
  - revert H. rewrite process_article_eq.
    destruct (plan_of _ _ _); simpl; [reflexivity|congruence|congruence].
  - simpl. unfold bind at 1. revert H. rewrite process_article_eq.
    destruct (plan_of _ _ _); simpl; [reflexivity|congruence|congruence].
  - intros key articles w1 Hkey Hlist Hdir Hdown.
    rewrite (main_with_key _ _ _ _ key Hkey).
    destruct (run_offline (mkfetcher key (now h) (flag_from_second_last_day h))
                net fuel w w1 articles Hdown Hlist Hdir) as (w' & ->).
    reflexivity.
Qed.

Lemma fatal_error_taxonomy_witness :
  let status h net := exit_status (fst (main h net 5 Sample.world_b)) in
  let self := Sample.normal "2024-01-03" in
  let step := process_article self Sample.analytics_down Sample.article_b Sample.world_b in
  dotenv Sample.host_without_dotenv = None /\
  status Sample.host_without_dotenv Sample.analytics_down = Some 1 /\
  Forall (fun line => names_key line = false) ["# dev.to"; "USER=me"] /\
  status Sample.host_without_key Sample.analytics_down = Some 1 /\
  fst (_load_api_key (dotenv Sample.host_with_key) Sample.world_b) = Val "secret" /\
  page_of_articles (published Sample.listing_breaks "secret" 1) /\
  listing_fails (published Sample.listing_breaks "secret" 2) /\
  status Sample.host_with_key Sample.listing_breaks = Some 1 /\
  fetch_fails (historical Sample.analytics_down "secret" 7 "2024-01-03" "2024-01-03") /\
  fetch_article_analytics self Sample.analytics_down 7 "2024-01-03" "2024-01-03"
                          Sample.world_b =
  (Val ∅, with_request (7, "2024-01-03", "2024-01-03") Sample.world_b) /\
  requests (snd step) <> requests Sample.world_b /\
  fst step = Val tt /\
  dir_well_dated (articles_dir Sample.world_b) /\
  status Sample.host_with_key Sample.analytics_down = Some 0.
Proof.
  intros status self step.
  assert (Hlines : Forall (fun line => names_key line = false) ["# dev.to"; "USER=me"])
    by (repeat constructor).
  assert (Hdir : dir_well_dated (articles_dir Sample.world_b))
    by (repeat constructor).
  assert (Hsent : requests (snd step) <> requests Sample.world_b)
    by (vm_compute; discriminate).
  pose proof (fun h net => fatal_error_taxonomy h net 5 Sample.world_b) as T.
  split; [reflexivity|]. split.
  { exact (proj1 (T Sample.host_without_dotenv Sample.analytics_down) eq_refl). }
  split; [exact Hlines|]. split.
  { exact (proj1 (proj2 (T Sample.host_without_key Sample.analytics_down))
             _ eq_refl Hlines). }
  split; [reflexivity|]. split; [exact I|]. split; [exact I|]. split.
  { refine (proj1 (proj2 (proj2 (T Sample.host_with_key Sample.listing_breaks)))
              "secret" 1%nat eq_refl _ _ I); [lia|].
    intros [|i] Hi; [exact I|lia]. }
  split; [exact I|]. split.
  { exact (proj1 (proj2 (proj2 (proj2 (T Sample.host_with_key Sample.analytics_down))))
             self 7 "2024-01-03" "2024-01-03" Sample.world_b I). }
  split; [exact Hsent|]. split.
  { exact (proj1 (proj1 (proj2 (proj2 (proj2 (proj2
             (T Sample.host_with_key Sample.analytics_down)))))
             self Sample.article_b [] Sample.world_b Hsent)). }
  split; [exact Hdir|].
  exact (proj2 (proj2 (proj2 (proj2 (proj2
           (T Sample.host_with_key Sample.analytics_down)))))
           "secret" [Sample.article_a; Sample.article_b]
           (mkworld (articles_dir Sample.world_b) None None (Some "author") [])
           eq_refl eq_refl Hdir (fun _ _ _ => I)).
Defined.


